(** * BetterSave energy dashboard: the tabular pipeline

    A shallow embedding of the data pipeline of the dashboard
    ([FrontEnd/data_loader.py] and [kash-version/analysis.py]) and the
    properties its specification states about the Filter, the Aggregator,
    the AnomalyDetector, the Forecaster and the MetricsSummarizer.

    Modelling conventions.
    - A pandas [DataFrame] is a header (the column names) and the rows in
      order; each row carries its index label and one cell per column.
    - A cell is a number, a missing value or a piece of text.  Numbers are
      float64 in the program; here they are exact rationals, so rounding is
      not modelled, and a non-finite result (a division by zero) is
      collapsed into the missing value [NaN].  Timestamps are numbers too
      (days since 1970-01-01) and [NaT] is [NaN]; the Forecaster, which
      builds dates, checks them against the range of pandas timestamps.
    - Text is kept as it is: the numerals pandas reads in a text cell
      ([pd.to_numeric]) and the order and sum of columns of text are not
      modelled; the properties that depend on them are stated for
      columns without text.
    - The rationals have no square root: the rolling standard deviation
      of the AnomalyDetector takes the square root as a parameter.
    - A column is looked up by its name, at its first occurrence in the
      header.
    - A Python exception is a value [Raise e] of the [result] type;
      [try ... except Exception] is a match on it.
    - The Loader reads files: the directory of the script, the file
      system and the two parsers of pandas ([read_csv] and [to_datetime])
      are parameters of its functions.

    The second part of the properties covers the functions the
    specification does not speak of: the year range and the source names
    of the sidebar, the tables of the monthly, weekday and source charts,
    the daily view and the two loading functions.  It also holds the
    seasonal template of the Forecaster, which rests on the lemmas on
    the rows of a group proved there. *)

From Stdlib Require Import List ZArith QArith Qround Qpower String Ascii Bool
  Arith DecimalString Sorted Permutation Lia Lqa.
Import ListNotations.

Set Implicit Arguments.

(** ** Exceptions *)

Inductive exn : Type :=
| KeyError (key : string)
| TypeError
| ValueError.

Inductive result (A : Type) : Type :=
| Ok (a : A)
| Raise (e : exn).

Arguments Ok {A} a.
Arguments Raise {A} e.

Definition bind {A B : Type} (m : result A) (k : A -> result B) : result B :=
  match m with
  | Ok a => k a
  | Raise e => Raise e
  end.

Notation "x <- m ;; k" := (bind m (fun x => k))
  (at level 61, m at next level, right associativity).
Notation "' p <- m ;; k" := (bind m (fun p => k))
  (at level 61, p pattern, m at next level, right associativity).

(** ** Cells, series and frames *)

Inductive cell : Type :=
| Num (q : Q)
| NaN
| Str (s : string)
| Bool (b : bool).

Definition Series := list cell.

(** A row: its index label and its cells, one per column. *)
Definition row : Type := Z * list cell.

Record DataFrame : Type := mkDataFrame {
  columns : list string;
  rows : list row
}.

(** [pd.DataFrame()]: no column, no row. *)
Definition empty_frame : DataFrame := mkDataFrame [] [].

Fixpoint column_position (name : string) (cols : list string) : option nat :=
  match cols with
  | [] => None
  | c :: cols' =>
      if String.eqb c name then Some O
      else option_map S (column_position name cols')
  end.

Definition cell_at (j : nat) (r : row) : cell := nth j (snd r) NaN.

(** [df[name]]: the cells of a column, or [KeyError]. *)
Definition getitem (df : DataFrame) (name : string) : result Series :=
  match column_position name (columns df) with
  | Some j => Ok (map (cell_at j) (rows df))
  | None => Raise (KeyError name)
  end.

(** Text is the only cell that is not numeric; [True] and [False] count
    as 1 and 0, and a missing value carries no number. *)
Definition is_number (c : cell) : bool :=
  match c with
  | Str _ => false
  | _ => true
  end.

Definition number_of (c : cell) : option Q :=
  match c with
  | Num q => Some q
  | Bool b => Some (if b then 1 else 0)
  | _ => None
  end.

Definition cell_ge (k : Z) (c : cell) : bool :=
  match number_of c with
  | Some q => Qle_bool (inject_Z k) q
  | None => false
  end.

Definition cell_le (k : Z) (c : cell) : bool :=
  match number_of c with
  | Some q => Qle_bool q (inject_Z k)
  | None => false
  end.

(** [s >= k] and [s <= k] for a number [k]: elementwise, [False] on a
    missing value; comparing text with a number raises [TypeError]. *)
Definition series_ge (s : Series) (k : Z) : result (list bool) :=
  if forallb is_number s then Ok (map (cell_ge k) s) else Raise TypeError.

Definition series_le (s : Series) (k : Z) : result (list bool) :=
  if forallb is_number s then Ok (map (cell_le k) s) else Raise TypeError.

Definition cell_in (values : list Z) (c : cell) : bool :=
  match number_of c with
  | Some q => existsb (fun v => Qeq_bool q (inject_Z v)) values
  | None => false
  end.

(** [s.isin(values)] *)
Definition isin (s : Series) (values : list Z) : list bool :=
  map (cell_in values) s.

(** [a & b] on two boolean series of one frame. *)
Definition mask_and (a b : list bool) : list bool :=
  map (fun p => andb (fst p) (snd p)) (combine a b).

Fixpoint select (A : Type) (l : list A) (mask : list bool) : list A :=
  match l, mask with
  | x :: l', b :: mask' => if b then x :: select l' mask' else select l' mask'
  | _, _ => []
  end.

(** [df[mask]]: the rows whose mask entry is [True], labels kept. *)
Definition boolean_index (df : DataFrame) (mask : list bool) : DataFrame :=
  mkDataFrame (columns df) (select (rows df) mask).

(** ** Loader: [filter_data] *)

Module Loader.

(** The mask both definitions of [filter_data] build for a table:
    [(t["Year"] >= year_selection[0]) & (t["Year"] <= year_selection[1])
     & (t["Month"].isin(month_selection))]. *)
Definition selection_mask (t : DataFrame) (year_selection : Z * Z)
    (month_selection : list Z) : result (list bool) :=
  y <- getitem t "Year" ;;
  lo <- series_ge y (fst year_selection) ;;
  y' <- getitem t "Year" ;;
  hi <- series_le y' (snd year_selection) ;;
  m <- getitem t "Month" ;;
  Ok (mask_and (mask_and lo hi) (isin m month_selection)).

(** The earlier definition (generation first). *)
Definition filter_data_earlier (energy_generation energy_consumption : DataFrame)
    (year_selection : Z * Z) (month_selection : list Z)
    (selected_sources : list string) : result (DataFrame * DataFrame) :=
  gen_mask <- selection_mask energy_generation year_selection month_selection ;;
  let filtered_energy_gen := boolean_index energy_generation gen_mask in
  cons_mask <- selection_mask energy_consumption year_selection month_selection ;;
  let filtered_energy_cons := boolean_index energy_consumption cons_mask in
  Ok (filtered_energy_gen, filtered_energy_cons).

(** The later definition, which is the one the module exports
    (consumption first). *)
Definition filter_data (energy_generation energy_consumption : DataFrame)
    (year_selection : Z * Z) (month_selection : list Z)
    (selected_sources : list string) : result (DataFrame * DataFrame) :=
  cons_mask <- selection_mask energy_consumption year_selection month_selection ;;
  let filtered_energy_cons := boolean_index energy_consumption cons_mask in
  gen_mask <- selection_mask energy_generation year_selection month_selection ;;
  let filtered_energy_gen := boolean_index energy_generation gen_mask in
  Ok (filtered_energy_gen, filtered_energy_cons).

End Loader.

(** ** Sums, group-by and frame construction *)

Definition Qsum (l : list Q) : Q := fold_right Qplus 0 l.

(** The numbers of a series, missing values skipped ([skipna]). *)
Fixpoint numbers (s : Series) : list Q :=
  match s with
  | [] => []
  | c :: s' =>
      match number_of c with
      | Some q => q :: numbers s'
      | None => numbers s'
      end
  end.

(** [s.sum()]: missing values are skipped, an empty sum is 0; text cannot
    be summed with numbers.  A column of text only, which pandas joins
    into one text, is not modelled: it raises here as well. *)
Definition series_sum (s : Series) : result Q :=
  if forallb is_number s then Ok (Qsum (numbers s)) else Raise TypeError.

(** [pd.to_numeric(s, errors='coerce')]: what is not a number becomes
    missing.  The numerals pandas reads in a text cell are not modelled:
    a text cell is missing here, and the properties that depend on it
    are stated for columns without text. *)
Definition to_numeric_coerce (s : Series) : Series :=
  map (fun c => match number_of c with Some q => Num q | None => NaN end) s.

Fixpoint mapM (A B : Type) (f : A -> result B) (l : list A) : result (list B) :=
  match l with
  | [] => Ok []
  | x :: l' => y <- f x ;; ys <- mapM f l' ;; Ok (y :: ys)
  end.

Definition position (df : DataFrame) (name : string) : result nat :=
  match column_position name (columns df) with
  | Some j => Ok j
  | None => Raise (KeyError name)
  end.

Definition positions (df : DataFrame) (names : list string) : result (list nat) :=
  mapM (position df) names.

(** Group keys are tuples of numbers, ordered lexicographically. *)
Definition key : Type := list Q.

Fixpoint key_compare (a b : key) : comparison :=
  match a, b with
  | [], [] => Eq
  | [], _ :: _ => Lt
  | _ :: _, [] => Gt
  | x :: a', y :: b' =>
      match Qcompare x y with
      | Eq => key_compare a' b'
      | c => c
      end
  end.

(** The key of a row, or [None] when one of its key cells is missing:
    [groupby] drops such rows. *)
Fixpoint row_key (js : list nat) (r : row) : option key :=
  match js with
  | [] => Some []
  | j :: js' =>
      match number_of (cell_at j r), row_key js' r with
      | Some q, Some k => Some (q :: k)
      | _, _ => None
      end
  end.

Fixpoint add_to_group (k : key) (r : row) (groups : list (key * list row))
    : list (key * list row) :=
  match groups with
  | [] => [(k, [r])]
  | (k', rs) :: groups' =>
      match key_compare k k' with
      | Lt => (k, [r]) :: groups
      | Eq => (k', rs ++ [r]) :: groups'
      | Gt => (k', rs) :: add_to_group k r groups'
      end
  end.

(** [df.groupby(keys)]: the groups in increasing key order, the rows of a
    group in their original order.  The calendar columns the program
    groups by hold numbers; a text key raises [TypeError]. *)
Definition groupby (df : DataFrame) (keys : list string)
    : result (list (key * list row)) :=
  js <- positions df keys ;;
  if forallb (fun r => forallb (fun j => is_number (cell_at j r)) js) (rows df)
  then Ok (fold_left
             (fun groups r =>
                match row_key js r with
                | Some k => add_to_group k r groups
                | None => groups
                end)
             (rows df) [])
  else Raise TypeError.

Inductive aggfunc : Type := agg_first | agg_sum | agg_mean.

(** Division of floats as the program meets it: a zero divisor gives a
    non-finite value ([inf] or [nan] in numpy), which is [NaN] here. *)
Definition float_div (a b : Q) : cell :=
  if Qeq_bool b 0 then NaN else Num (a / b).

Definition aggregate (f : aggfunc) (s : Series) : result cell :=
  match f with
  | agg_first =>
      Ok (match filter (fun c => match c with NaN => false | _ => true end) s with
          | c :: _ => c
          | [] => NaN
          end)
  | agg_sum => q <- series_sum s ;; Ok (Num q)
  | agg_mean =>
      q <- series_sum s ;;
      Ok (match numbers s with
          | [] => NaN
          | _ :: _ => Num (q / inject_Z (Z.of_nat (List.length (numbers s))))
          end)
  end.

Fixpoint number_rows (n : Z) (l : list (list cell)) : list row :=
  match l with
  | [] => []
  | cells :: l' => (n, cells) :: number_rows (n + 1) l'
  end.

(** The entries of a dict literal: a name written twice is one key, at
    its first position. *)
Fixpoint dict_entries (A : Type) (seen : list string) (l : list (string * A))
    : list (string * A) :=
  match l with
  | [] => []
  | p :: l' =>
      if existsb (String.eqb (fst p)) seen then dict_entries seen l'
      else p :: dict_entries (fst p :: seen) l'
  end.

(** [df.groupby(keys).agg(spec).reset_index()]: one row per group, holding
    the key and the aggregates, labelled 0, 1, 2, ...  The program always
    names a column to aggregate unless no source is selected; what pandas
    does with an empty [spec] is not modelled, and the model raises. *)
Definition groupby_agg (df : DataFrame) (keys : list string)
    (spec : list (string * aggfunc)) : result DataFrame :=
  let spec := dict_entries [] spec in
  groups <- groupby df keys ;;
  js <- positions df (map fst spec) ;;
  match spec with
  | [] => Raise ValueError
  | _ :: _ =>
      cells <- mapM (fun g : key * list row =>
                 aggs <- mapM (fun jf : nat * aggfunc =>
                            aggregate (snd jf) (map (cell_at (fst jf)) (snd g)))
                          (combine js (map snd spec)) ;;
                 Ok (map Num (fst g) ++ aggs))
               groups ;;
      Ok (mkDataFrame (keys ++ map fst spec) (number_rows 0 cells))
  end.

(** [df.groupby(keys)[name].agg(f)]: a series indexed by the group keys. *)
Definition groupby_series (df : DataFrame) (keys : list string) (name : string)
    (f : aggfunc) : result (list (key * cell)) :=
  groups <- groupby df keys ;;
  j <- position df name ;;
  mapM (fun g : key * list row =>
          v <- aggregate f (map (cell_at j) (snd g)) ;; Ok (fst g, v))
       groups.

(** [df[names].sum(axis=1)]: the row-wise sum over the named columns. *)
Definition sum_axis1 (df : DataFrame) (names : list string) : result Series :=
  js <- positions df names ;;
  mapM (fun r : row =>
          q <- series_sum (map (fun j => cell_at j r) js) ;; Ok (Num q))
       (rows df).

(** [df.empty] *)
Definition is_empty (df : DataFrame) : bool :=
  match columns df, rows df with
  | _ :: _, _ :: _ => false
  | _, _ => true
  end.

(** A series with its index labels, as [df[name]] carries them. *)
Definition labelled (df : DataFrame) (name : string) : result (list (Z * cell)) :=
  s <- getitem df name ;;
  Ok (combine (map fst (rows df)) s).

(** A value of the dict handed to [pd.DataFrame]: a labelled series or a
    scalar, which is broadcast. *)
Inductive column_value : Type :=
| ColSeries (s : list (Z * cell))
| ColScalar (c : cell).

Fixpoint insert_label (z : Z) (l : list Z) : list Z :=
  match l with
  | [] => [z]
  | y :: l' =>
      match Z.compare z y with
      | Lt => z :: l
      | Eq => l
      | Gt => y :: insert_label z l'
      end
  end.

Definition series_labels (v : column_value) : option (list Z) :=
  match v with
  | ColSeries s => Some (map fst s)
  | ColScalar _ => None
  end.

Fixpoint all_labels (vs : list column_value) : list (list Z) :=
  match vs with
  | [] => []
  | v :: vs' =>
      match series_labels v with
      | Some l => l :: all_labels vs'
      | None => all_labels vs'
      end
  end.

Definition same_labels (a b : list Z) : bool :=
  if list_eq_dec Z.eq_dec a b then true else false.

(** The index of the new frame: the common index when every series has
    the same one, else the sorted union of their labels. *)
Definition union_index (vs : list column_value) : list Z :=
  match all_labels vs with
  | [] => []
  | l :: ls =>
      if forallb (same_labels l) ls then l
      else fold_left (fun acc z => insert_label z acc) (List.concat (l :: ls)) []
  end.

Definition lookup_label (z : Z) (s : list (Z * cell)) : cell :=
  match find (fun p => Z.eqb (fst p) z) s with
  | Some p => snd p
  | None => NaN
  end.

(** [pd.DataFrame({name: value, ...})]: the series are aligned on their
    index labels, and a label a series lacks gets [NaN] there. *)
Definition frame_of_dict (d : list (string * column_value)) : DataFrame :=
  mkDataFrame (map fst d)
    (map (fun z =>
            (z, map (fun nv : string * column_value =>
                       match snd nv with
                       | ColSeries s => lookup_label z s
                       | ColScalar c => c
                       end) d))
         (union_index (map snd d))).

(** Arithmetic and comparisons on cells: a missing operand gives a missing
    result, and a comparison with a missing value is [False]. *)
Definition cell_binop (f : Q -> Q -> Q) (a b : cell) : cell :=
  match number_of a, number_of b with
  | Some x, Some y => Num (f x y)
  | _, _ => NaN
  end.

Definition cell_div (a b : cell) : cell :=
  match number_of a, number_of b with
  | Some x, Some y => float_div x y
  | _, _ => NaN
  end.

Definition Qlt_bool (a b : Q) : bool := negb (Qle_bool b a).

Definition cell_lt (a b : cell) : bool :=
  match number_of a, number_of b with
  | Some x, Some y => Qlt_bool x y
  | _, _ => false
  end.

Definition cell_gt (a b : cell) : bool := cell_lt b a.

(** [s.max()]: the greatest number of the series, [NaN] when it has none. *)
Fixpoint series_max (s : Series) : cell :=
  match s with
  | [] => NaN
  | c :: s' =>
      match number_of c, series_max s' with
      | Some x, Num y => if Qlt_bool x y then Num y else Num x
      | Some x, _ => Num x
      | None, m => m
      end
  end.

(** [s.idxmax()]: the label of the first greatest number; a series without
    any number has no such label and the call raises. *)
Definition idxmax (L : Type) (s : list (L * cell)) : result L :=
  match series_max (map snd s) with
  | Num m =>
      match find (fun p => match number_of (snd p) with
                           | Some x => Qeq_bool x m
                           | None => false
                           end) s with
      | Some p => Ok (fst p)
      | None => Raise ValueError
      end
  | _ => Raise ValueError
  end.

(** [df[name] = values]: replaces the column or appends it.  The cell is
    written at the position of the column; a row shorter than the header
    is filled up with missing values. *)
Fixpoint set_cell (j : nat) (x : cell) (cells : list cell) : list cell :=
  match j, cells with
  | O, [] => [x]
  | O, _ :: cells' => x :: cells'
  | S j', [] => NaN :: set_cell j' x []
  | S j', y :: cells' => y :: set_cell j' x cells'
  end.

Definition set_column (df : DataFrame) (name : string) (values : Series)
    : DataFrame :=
  let (header, j) :=
    match column_position name (columns df) with
    | Some j => (columns df, j)
    | None => (columns df ++ [name], List.length (columns df))
    end in
  mkDataFrame header
    (map (fun rv : row * cell =>
            (fst (fst rv), set_cell j (snd rv) (snd (fst rv))))
         (combine (rows df) values)).

(** ** Strings *)

(** [needle in hay] *)
Fixpoint contains (needle hay : string) : bool :=
  if String.prefix needle hay then true
  else match hay with
       | EmptyString => false
       | String _ hay' => contains needle hay'
       end.

Definition lower_ascii (a : ascii) : ascii :=
  let n := nat_of_ascii a in
  if (65 <=? n)%nat && (n <=? 90)%nat then ascii_of_nat (n + 32) else a.

(** [s.lower()] on the ASCII letters. *)
Fixpoint lower (s : string) : string :=
  match s with
  | EmptyString => EmptyString
  | String a s' => String (lower_ascii a) (lower s')
  end.

Definition str_of_int (z : Z) : string := NilZero.string_of_int (Z.to_int z).

(** [int(x)] for a float: truncation towards zero. *)
Definition int_of (q : Q) : Z := Z.quot (Qnum q) (Z.pos (Qden q)).

(** [str(x)] for the numbers of an integer column; a number that is not
    an integer is written as a fraction. *)
Definition str_of_number (q : Q) : string :=
  let r := Qred q in
  match Qden r with
  | xH => str_of_int (Qnum r)
  | d => (str_of_int (Qnum r) ++ "/" ++ str_of_int (Z.pos d))%string
  end.

(** ** Dates *)

(** Days from 1970-01-01 to the given civil date. *)
Definition days_from_civil (y m d : Z) : Z :=
  let y' := (if m <=? 2 then y - 1 else y)%Z in
  let era := (y' / 400)%Z in
  let yoe := (y' - era * 400)%Z in
  let mp := (if 2 <? m then m - 3 else m + 9)%Z in
  let doy := ((153 * mp + 2) / 5 + d - 1)%Z in
  let doe := (yoe * 365 + yoe / 4 - yoe / 100 + doy)%Z in
  (era * 146097 + doe - 719468)%Z.

Definition is_integer (q : Q) : bool :=
  Qeq_bool q (inject_Z (Qfloor q)).

(** The range of pandas timestamps (64-bit nanoseconds around 1970): the
    first and the last day whose midnight is a timestamp are 1677-09-22
    and 2262-04-11. *)
Definition timestamp_min_day : Z := days_from_civil 1677 9 22.
Definition timestamp_max_day : Z := days_from_civil 2262 4 11.

Definition in_timestamp_range (d : Z) : bool :=
  (timestamp_min_day <=? d)%Z && (d <=? timestamp_max_day)%Z.

(** [pd.to_datetime] on a year, a month and a day: the parts must be
    integers that name a month of the calendar, and the date must lie
    in the range of timestamps, else [ValueError] (which
    [OutOfBoundsDatetime] is). *)
Definition to_datetime (year month : Q) (day : Z) : result Z :=
  if is_integer year && is_integer month
     && (1 <=? Qfloor month)%Z && (Qfloor month <=? 12)%Z
     && in_timestamp_range (days_from_civil (Qfloor year) (Qfloor month) day)
  then Ok (days_from_civil (Qfloor year) (Qfloor month) day)
  else Raise ValueError.

(** [date + timedelta(days=n)]: a date outside the range of timestamps
    raises. *)
Definition timestamp_add (date n : Z) : result Z :=
  if in_timestamp_range (date + n) then Ok (date + n)%Z else Raise ValueError.

(** ** Analysis *)

Module Analysis.

Definition total_load : string :=
  "Total (grid load) [MWh] Calculated resolutions".

(** [f"{source} [MWh] Calculated resolutions"] *)
Definition source_column (source : string) : string :=
  (source ++ " [MWh] Calculated resolutions")%string.

(** *** MetricsSummarizer *)

Definition numeric_dtype (s : Series) : bool :=
  forallb (fun c => match c with Num _ | NaN => true | _ => false end) s.

(** [df.select_dtypes(include=['number'])]: the columns that hold numbers
    only. *)
Definition select_dtypes_number (df : DataFrame) : DataFrame :=
  let keep :=
    filter (fun j => numeric_dtype (map (cell_at j) (rows df)))
           (seq 0 (List.length (columns df))) in
  mkDataFrame (map (fun j => nth j (columns df) EmptyString) keep)
              (map (fun r : row => (fst r, map (fun j => cell_at j r) keep))
                   (rows df)).

(** [df[cols].apply(pd.to_numeric, errors='coerce').sum().sum()] *)
Definition coerced_total (df : DataFrame) (cols : list string) : result Q :=
  sums <- mapM (fun c => s <- getitem df c ;; series_sum (to_numeric_coerce s))
               cols ;;
  Ok (Qsum sums).

Definition renewable_names : list string :=
  ["solar"; "wind"; "hydro"; "biomass"; "geothermal"]%string.

Inductive metric : Type :=
| MCell (c : cell)
| MNone
| MSeries (s : list (key * cell)).

Definition metrics : Type := list (string * metric).

Definition lookup_key (k : key) (s : list (key * cell)) : cell :=
  match find (fun p => match key_compare (fst p) k with Eq => true | _ => false end) s with
  | Some p => snd p
  | None => NaN
  end.

(** The body of the [try] block. *)
Definition analyze_energy_trends_body (energy_gen energy_cons : DataFrame)
    : result metrics :=
  let energy_cons_numeric := select_dtypes_number energy_cons in
  let energy_gen_numeric :=
    map (fun r : row => (fst r, to_numeric_coerce (skipn 3 (snd r))))
        (rows energy_gen) in
  load <- getitem energy_cons_numeric total_load ;;
  total_consumption <- series_sum load ;;
  let gen_columns := filter (contains "[MWh]") (columns energy_gen) in
  total_generation <- coerced_total energy_gen gen_columns ;;
  let efficiency_ratio :=
    if Qlt_bool 0 total_consumption
    then total_generation / total_consumption * 100
    else 0 in
  consumption_by_year <- groupby_series energy_cons ["Year"%string] total_load agg_sum ;;
  let yoy_growth :=
    if (1 <? List.length consumption_by_year)%nat then
      let years := map fst consumption_by_year in
      if (2 <=? List.length years)%nat then
        let current_year := nth (List.length years - 1) years [] in
        let previous_year := nth (List.length years - 2) years [] in
        cell_binop Qmult
          (cell_binop Qminus
             (cell_div (lookup_key current_year consumption_by_year)
                       (lookup_key previous_year consumption_by_year))
             (Num 1))
          (Num 100)
      else Num 0
    else Num 0 in
  load' <- labelled energy_cons total_load ;;
  let peak_consumption := series_max (map snd load') in
  peak_label <- idxmax load' ;;
  dates <- labelled energy_cons "Start date" ;;
  let peak_date := lookup_label peak_label dates in
  let renewable_columns :=
    filter (fun col => existsb (fun source => contains source (lower col))
                               renewable_names)
           gen_columns in
  renewable_percentage <-
    match renewable_columns with
    | _ :: _ =>
        renewable_generation <- coerced_total energy_gen renewable_columns ;;
        Ok (if Qlt_bool 0 total_generation
            then renewable_generation / total_generation * 100
            else 0)
    | [] => Ok 0
    end ;;
  seasonal_consumption <- groupby_series energy_cons ["Quarter"%string] total_load agg_mean ;;
  highest_quarter <-
    match seasonal_consumption with
    | _ :: _ => k <- idxmax seasonal_consumption ;; Ok (MCell (Num (hd 0 k)))
    | [] => Ok MNone
    end ;;
  Ok [ ("total_consumption", MCell (Num total_consumption));
       ("total_generation", MCell (Num total_generation));
       ("efficiency_ratio", MCell (Num efficiency_ratio));
       ("yoy_growth", MCell yoy_growth);
       ("peak_consumption", MCell peak_consumption);
       ("peak_date", MCell peak_date);
       ("renewable_percentage", MCell (Num renewable_percentage));
       ("highest_quarter", highest_quarter);
       ("consumption_by_year", MSeries consumption_by_year) ]%string.

(** [try: ... except Exception: return {}] *)
Definition analyze_energy_trends (energy_gen energy_cons : DataFrame) : metrics :=
  match analyze_energy_trends_body energy_gen energy_cons with
  | Ok m => m
  | Raise _ => []
  end.

(** [metrics.get(name)] *)
Definition get (m : metrics) (name : string) : option metric :=
  option_map snd (find (fun p => String.eqb (fst p) name) m).

(** *** Forecaster *)

(** The monthly series of the first statements of the [try] block: the
    sum of the load per (year, month), indexed by the first day of the
    month. *)
Definition monthly_series (df : DataFrame) : result (list (Z * Q)) :=
  monthly_data <- groupby_series df ["Year"; "Month"]%string total_load agg_sum ;;
  mapM (fun kv : key * cell =>
          date <- to_datetime (nth 0 (fst kv) 0) (nth 1 (fst kv) 0) 1 ;;
          Ok (date, match number_of (snd kv) with Some q => q | None => 0 end))
       monthly_data.

Definition growth_factor : Q := 1.02.

Definition forecast_energy_trends_body (df : DataFrame) (periods : Z)
    : result (option (list (Z * Q)) * option (list (Z * Q))) :=
  monthly_data <- monthly_series df ;;
  if (12 <=? List.length monthly_data)%nat then
    let last_12_months := skipn (List.length monthly_data - 12) monthly_data in
    let last_date := fst (last monthly_data (0%Z, 0)) in
    forecast_dates <-
      mapM (fun i => timestamp_add last_date (30 * Z.of_nat i))
           (seq 1 (Z.to_nat periods)) ;;
    let forecast_values :=
      map (fun i =>
             let month_index := (i mod 12)%nat in
             snd (nth month_index last_12_months (0%Z, 0))
             * growth_factor ^ Z.of_nat (i / 12 + 1))
          (seq 0 (Z.to_nat periods)) in
    let forecast := combine forecast_dates forecast_values in
    Ok (Some monthly_data, Some forecast)
  else Ok (None, None).

(** [try: ... except Exception: return None, None] *)
Definition forecast_energy_trends (df : DataFrame) (periods : Z)
    : option (list (Z * Q)) * option (list (Z * Q)) :=
  match forecast_energy_trends_body df periods with
  | Ok r => r
  | Raise _ => (None, None)
  end.

(** *** AnomalyDetector *)

Section Anomalies.

(** The square root of the floats; the rationals have none, so the
    detector takes it as a parameter. *)
Variable sqrt : Q -> Q.

(** The trailing window that ends at row [i]. *)
Definition trailing (window i : nat) (s : Series) : Series :=
  skipn (i + 1 - window) (firstn (i + 1) s).

(** Mean of a window: defined once the window holds [window] numbers
    ([min_periods] is the window size) and at least one. *)
Definition window_mean (window : nat) (w : Series) : cell :=
  let obs := numbers w in
  let nobs := List.length obs in
  if (window <=? nobs)%nat && (0 <? nobs)%nat
  then Num (Qsum obs / inject_Z (Z.of_nat nobs))
  else NaN.

(** Sample standard deviation of a window ([ddof] is 1): it needs two
    numbers at least. *)
Definition window_std (window : nat) (w : Series) : cell :=
  let obs := numbers w in
  let nobs := List.length obs in
  if (Nat.max window 1 <=? nobs)%nat && (1 <? nobs)%nat
  then
    let mean := Qsum obs / inject_Z (Z.of_nat nobs) in
    Num (sqrt (Qsum (map (fun x => (x - mean) * (x - mean)) obs)
               / inject_Z (Z.of_nat (nobs - 1))))
  else NaN.

(** [s.rolling(window=window)] followed by a statistic: the window size
    must not be negative, and the series must hold numbers. *)
Definition rolling (stat : nat -> Series -> cell) (s : Series) (window : Z)
    : result Series :=
  if (window <? 0)%Z then Raise ValueError
  else if forallb is_number s
  then Ok (map (fun i => stat (Z.to_nat window) (trailing (Z.to_nat window) i s))
               (seq 0 (List.length s)))
  else Raise TypeError.

Definition series_map2 (f : cell -> cell -> cell) (a b : Series) : Series :=
  map (fun p => f (fst p) (snd p)) (combine a b).

Definition mask_or (a b : list bool) : list bool :=
  map (fun p => orb (fst p) (snd p)) (combine a b).

(** The flags the detector writes into the ['anomaly'] column. *)
Definition anomaly_flags (df : DataFrame) (column : string) (window : Z)
    (threshold : Q) : result (list bool) :=
  values <- getitem df column ;;
  rolling_mean <- rolling window_mean values window ;;
  values' <- getitem df column ;;
  rolling_std <- rolling window_std values' window ;;
  let spread := map (fun c => cell_binop Qmult c (Num threshold)) rolling_std in
  let upper_bound := series_map2 (cell_binop Qplus) rolling_mean spread in
  let lower_bound := series_map2 (cell_binop Qminus) rolling_mean spread in
  Ok (mask_or (map (fun p => cell_gt (fst p) (snd p)) (combine values upper_bound))
              (map (fun p => cell_lt (fst p) (snd p)) (combine values lower_bound))).

Definition truth (c : cell) : bool :=
  match c with
  | Bool b => b
  | _ => false
  end.

(** The body of the [try] block. *)
Definition identify_anomalies_body (df : DataFrame) (column : string)
    (window : Z) (threshold : Q) : result DataFrame :=
  flags <- anomaly_flags df column window threshold ;;
  let df_copy := set_column df "anomaly" (map Bool flags) in
  anomaly <- getitem df_copy "anomaly" ;;
  let anomalies := boolean_index df_copy (map truth anomaly) in
  Ok anomalies.

(** [try: ... except Exception: return pd.DataFrame()] *)
Definition identify_anomalies (df : DataFrame) (column : string)
    (window : Z) (threshold : Q) : DataFrame :=
  match identify_anomalies_body df column window threshold with
  | Ok anomalies => anomalies
  | Raise _ => empty_frame
  end.

End Anomalies.

(** *** Aggregator: the trend table *)

(** [df.apply(lambda x: f"{int(x['Year'])} Q{int(x['Quarter'])}", axis=1)],
    as the column the program assigns it to.  On a frame without rows
    [apply] gives back a frame, not a series, and the assignment raises
    [ValueError]. *)
Definition quarter_labels (df : DataFrame) : result Series :=
  match rows df with
  | [] => Raise ValueError
  | _ :: _ =>
      year <- getitem df "Year" ;;
      quarter <- getitem df "Quarter" ;;
      mapM (fun yq : cell * cell =>
              match number_of (fst yq), number_of (snd yq) with
              | Some y, Some q =>
                  Ok (Str (str_of_int (int_of y) ++ " Q" ++ str_of_int (int_of q)))
              | _, _ => Raise ValueError
              end)
           (combine year quarter)
  end.

(** [df[names].sum(axis=1)] with its labels. *)
Definition labelled_sum_axis1 (df : DataFrame) (names : list string)
    : result (list (Z * cell)) :=
  s <- sum_axis1 df names ;;
  Ok (combine (map fst (rows df)) s).

(** The ["Generation"] entry of the dict of the aggregated views:
    [g[gen_columns].sum(axis=1) if not g.empty else np.nan]. *)
Definition generation_entry (g : DataFrame) (gen_columns : list string)
    : result column_value :=
  if negb (is_empty g)
  then s <- labelled_sum_axis1 g gen_columns ;; Ok (ColSeries s)
  else Ok (ColScalar NaN).

(** [prepare_trends_data].  The [Year] column is taken as a column of
    integers, as [dt.year] gives it when every date of the file was
    read, so that the yearly view writes a year as [2022]; on a column
    of floats pandas writes [2022.0].  With no source selected the
    quarterly and the yearly view aggregate nothing and are outside the
    model (see [groupby_agg]). *)
Definition prepare_trends_data (filtered_energy_cons filtered_energy_gen : DataFrame)
    (selected_sources : list string) (view_type : string) : result DataFrame :=
  if String.eqb view_type "Daily" then
    date <- labelled filtered_energy_cons "Start date" ;;
    consumption <- labelled filtered_energy_cons total_load ;;
    let trends_data :=
      frame_of_dict [("Date", ColSeries date);
                     ("Consumption", ColSeries consumption)]%string in
    let gen_columns := map source_column selected_sources in
    js <- positions filtered_energy_gen gen_columns ;;
    gen_data <-
      mapM (fun r : row =>
              q <- series_sum (to_numeric_coerce (map (fun j => cell_at j r) js)) ;;
              Ok (Num q))
           (rows filtered_energy_gen) ;;
    Ok (set_column trends_data "Generation"
          (if (List.length gen_data =? List.length (rows trends_data))%nat
           then gen_data
           else repeat NaN (List.length (rows trends_data))))
  else if String.eqb view_type "Monthly" then
    cons_monthly <-
      groupby_agg filtered_energy_cons ["Year"; "Month"]%string
        [("Start date", agg_first); (total_load, agg_sum)]%string ;;
    let gen_columns := map source_column selected_sources in
    gen_monthly <-
      groupby_agg filtered_energy_gen ["Year"; "Month"]%string
        (("Start date"%string, agg_first)
           :: map (fun col => (col, agg_sum)) gen_columns) ;;
    date <- labelled cons_monthly "Start date" ;;
    consumption <- labelled cons_monthly total_load ;;
    generation <- generation_entry gen_monthly gen_columns ;;
    Ok (frame_of_dict [("Date", ColSeries date);
                       ("Consumption", ColSeries consumption);
                       ("Generation", generation)]%string)
  else if String.eqb view_type "Quarterly" then
    cons_quarterly <-
      groupby_agg filtered_energy_cons ["Year"; "Quarter"]%string
        [(total_load, agg_sum)] ;;
    let gen_columns := map source_column selected_sources in
    gen_quarterly <-
      groupby_agg filtered_energy_gen ["Year"; "Quarter"]%string
        (map (fun col => (col, agg_sum)) gen_columns) ;;
    cons_labels <- quarter_labels cons_quarterly ;;
    let cons_quarterly := set_column cons_quarterly "Date" cons_labels in
    gen_labels <- quarter_labels gen_quarterly ;;
    let gen_quarterly := set_column gen_quarterly "Date" gen_labels in
    date <- labelled cons_quarterly "Date" ;;
    consumption <- labelled cons_quarterly total_load ;;
    generation <- generation_entry gen_quarterly gen_columns ;;
    Ok (frame_of_dict [("Date", ColSeries date);
                       ("Consumption", ColSeries consumption);
                       ("Generation", generation)]%string)
  else
    cons_yearly <-
      groupby_agg filtered_energy_cons ["Year"%string] [(total_load, agg_sum)] ;;
    let gen_columns := map source_column selected_sources in
    gen_yearly <-
      groupby_agg filtered_energy_gen ["Year"%string]
        (map (fun col => (col, agg_sum)) gen_columns) ;;
    year <- labelled cons_yearly "Year" ;;
    let date :=
      map (fun p : Z * cell =>
             (fst p, match number_of (snd p) with
                     | Some y => Str (str_of_number y)
                     | None => NaN
                     end)) year in
    consumption <- labelled cons_yearly total_load ;;
    generation <- generation_entry gen_yearly gen_columns ;;
    Ok (frame_of_dict [("Date", ColSeries date);
                       ("Consumption", ColSeries consumption);
                       ("Generation", generation)]%string).

End Analysis.

(** ** Vocabulary of the statements *)

(** The number a row holds in a named column, if any. *)
Definition field (t : DataFrame) (name : string) (r : row) : option Q :=
  match column_position name (columns t) with
  | Some j => number_of (cell_at j r)
  | None => None
  end.

(** A row is in the selection when its year lies between the two bounds,
    both included, and its month is one of the selected months. *)
Definition in_selection (t : DataFrame) (year_range : Z * Z) (months : list Z)
    (r : row) : Prop :=
  exists y m : Q,
    field t "Year" r = Some y /\ field t "Month" r = Some m /\
    inject_Z (fst year_range) <= y /\ y <= inject_Z (snd year_range) /\
    exists k : Z, In k months /\ m == inject_Z k.

(** The order of the group keys. *)
Definition key_lt (a b : key) : Prop := key_compare a b = Lt.

(** The index labels of a table, in row order. *)
Definition labels (t : DataFrame) : list Z := map fst (rows t).

(** A table as the Loader builds it has the two calendar columns the
    Filter reads, and its years are numbers or missing. *)
Definition has_calendar (t : DataFrame) : bool :=
  match getitem t "Year", getitem t "Month" with
  | Ok y, Ok _ => forallb is_number y
  | _, _ => false
  end.

(** The row-level test behind the mask of [filter_data], for a table whose
    year and month columns are at positions [jy] and [jm]. *)
Definition keeps (jy jm : nat) (year_selection : Z * Z) (month_selection : list Z)
    (r : row) : bool :=
  cell_ge (fst year_selection) (cell_at jy r)
  && cell_le (snd year_selection) (cell_at jy r)
  && cell_in month_selection (cell_at jm r).

(** The two totals behind the efficiency ratio, as the MetricsSummarizer
    computes them: the sum of the numeric load column, and the sum of the
    cells of every generation column (a column with [[MWh]] in its name). *)
Definition total_consumption_of (energy_cons : DataFrame) : result Q :=
  load <- getitem (Analysis.select_dtypes_number energy_cons) Analysis.total_load ;;
  series_sum load.

Definition total_generation_of (energy_gen : DataFrame) : result Q :=
  Analysis.coerced_total energy_gen
    (filter (contains "[MWh]") (columns energy_gen)).

(** The keys of a complete metrics mapping. *)
Definition metric_names : list string :=
  ["total_consumption"; "total_generation"; "efficiency_ratio"; "yoy_growth";
   "peak_consumption"; "peak_date"; "renewable_percentage"; "highest_quarter";
   "consumption_by_year"]%string.

(** ** Sample tables *)

Module Sample.

Import Analysis.

Definition consumption_columns : list string :=
  ["ID"; "Start date"; total_load; "Year"; "Month"; "Day"; "WeekDay";
   "Quarter"; "MonthName"]%string.

Definition generation_columns : list string :=
  ["ID"; "Start date"; "End date"; source_column "Solar"; "Year"; "Month";
   "Day"; "WeekDay"; "Quarter"; "MonthName"]%string.

(** A consumption row on the first day of a month. *)
Definition consumption_row (label year month : Z) (load : Q) : row :=
  (label,
   [Num (inject_Z (label + 1)); Num (inject_Z (days_from_civil year month 1));
    Num load; Num (inject_Z year); Num (inject_Z month); Num 1; Str "day";
    Num (inject_Z ((month + 2) / 3)); Str "month"]).

(** A generation row on the first day of a month, with its solar output. *)
Definition generation_row (label year month : Z) (solar : Q) : row :=
  (label,
   [Num (inject_Z (label + 1)); Num (inject_Z (days_from_civil year month 1));
    Num (inject_Z (days_from_civil year month 2)); Num solar;
    Num (inject_Z year); Num (inject_Z month); Num 1; Str "day";
    Num (inject_Z ((month + 2) / 3)); Str "month"]).

(** January and February 2023, as in the end-to-end scenario. *)
Definition consumption : DataFrame :=
  mkDataFrame consumption_columns
    [consumption_row 0 2023 1 100; consumption_row 1 2023 2 120].

Definition generation : DataFrame :=
  mkDataFrame generation_columns
    [generation_row 0 2023 1 50; generation_row 1 2023 2 60].

(** The twelve months of 2023, with a load of 100, 200, ..., 1200. *)
Definition consumption_2023 : DataFrame :=
  mkDataFrame consumption_columns
    (map (fun m => consumption_row (m - 1) 2023 m (inject_Z (100 * m)))
         [1; 2; 3; 4; 5; 6; 7; 8; 9; 10; 11; 12]%Z).

(** Its monthly series: the first day of each month and the load. *)
Definition monthly_2023 : list (Z * Q) :=
  map (fun m => (days_from_civil 2023 m 1, inject_Z (100 * m)))
      [1; 2; 3; 4; 5; 6; 7; 8; 9; 10; 11; 12]%Z.

(** One month with a load of zero, and one with a negative load. *)
Definition consumption_zero : DataFrame :=
  mkDataFrame consumption_columns [consumption_row 0 2023 1 0].

Definition consumption_negative : DataFrame :=
  mkDataFrame consumption_columns [consumption_row 0 2023 1 (-100)].

Definition generation_january : DataFrame :=
  mkDataFrame generation_columns [generation_row 0 2023 1 50].

(** A consumption table whose load column holds text. *)
Definition consumption_text : DataFrame :=
  mkDataFrame consumption_columns
    [(0%Z, [Num 1; Num 19358; Str "n/a"; Num 2023; Num 1; Num 1; Str "day";
            Num 1; Str "month"])].

(** Consumption in January 2022 and April 2023, generation in April 2023
    only: the first period of the consumption table has no generation. *)
Definition consumption_two_periods : DataFrame :=
  mkDataFrame consumption_columns
    [consumption_row 0 2022 1 100; consumption_row 1 2023 4 120].

Definition generation_second_period : DataFrame :=
  mkDataFrame generation_columns [generation_row 0 2023 4 60].

(** A trend table with a jump in its fourth row. *)
Definition trends_with_jump : DataFrame :=
  mkDataFrame ["Date"; "Consumption"; "Generation"]%string
    [(0%Z, [Num 1; Num 10; Num 5]); (1%Z, [Num 2; Num 10; Num 5]);
     (2%Z, [Num 3; Num 10; Num 5]); (3%Z, [Num 4; Num 100; Num 5]);
     (4%Z, [Num 5; Num 10; Num 5])].

(** A constant trend table. *)
Definition trends_constant : DataFrame :=
  mkDataFrame ["Date"; "Consumption"; "Generation"]%string
    [(0%Z, [Num 1; Num 10; Num 5]); (1%Z, [Num 2; Num 10; Num 5]);
     (2%Z, [Num 3; Num 10; Num 5]); (3%Z, [Num 4; Num 10; Num 5])].

(** A trend table with a missing consumption in its third row. *)
Definition trends_with_gap : DataFrame :=
  mkDataFrame ["Date"; "Consumption"; "Generation"]%string
    [(0%Z, [Num 1; Num 10; Num 5]); (1%Z, [Num 2; Num 10; Num 5]);
     (2%Z, [Num 3; NaN; Num 5]); (3%Z, [Num 4; Num 100; Num 5]);
     (4%Z, [Num 5; Num 10; Num 5]); (5%Z, [Num 6; Num 10; Num 5])].

(** A square root on the rationals, to three decimals. *)
Definition sqrt_3 (q : Q) : Q :=
  inject_Z (Z.sqrt (Qfloor (q * 1000000))) / 1000.

End Sample.

(** ** More of Python and pandas *)

(** [s.replace(old, new)]: the occurrences of [old] are replaced from left
    to right, without overlap; [skip] counts the characters of an
    occurrence still to be dropped.  With an empty [old], [new] goes
    before every character and at the end. *)
Fixpoint replace_from (old new : string) (skip : nat) (s : string) : string :=
  match s with
  | EmptyString =>
      match skip, old with
      | O, EmptyString => new
      | _, _ => EmptyString
      end
  | String c s' =>
      match skip with
      | S k => replace_from old new k s'
      | O =>
          if String.prefix old s
          then (new ++ match old with
                       | EmptyString => String c (replace_from old new 0 s')
                       | String _ old' => replace_from old new (String.length old') s'
                       end)%string
          else String c (replace_from old new 0 s')
      end
  end.

Definition replace (old new s : string) : string := replace_from old new 0 s.

(** [s[n:]] *)
Fixpoint string_drop (n : nat) (s : string) : string :=
  match n, s with
  | O, _ => s
  | S n', EmptyString => EmptyString
  | S n', String _ s' => string_drop n' s'
  end.

(** [min(a, b)] and [max(a, b)] of Python on two floats: the second
    argument wins only when it compares below (above) the first, so a
    missing first argument stays. *)
Definition py_min (a b : cell) : cell := if cell_lt b a then b else a.
Definition py_max (a b : cell) : cell := if cell_gt b a then b else a.

(** [int(x)]: a missing value cannot be converted. *)
Definition py_int (c : cell) : result Z :=
  match number_of c with
  | Some q => Ok (int_of q)
  | None => Raise ValueError
  end.

(** [s.min()]: the least number of the series, [NaN] when it has none. *)
Fixpoint series_min (s : Series) : cell :=
  match s with
  | [] => NaN
  | c :: s' =>
      match number_of c, series_min s' with
      | Some x, Num y => if Qlt_bool y x then Num y else Num x
      | Some x, _ => Num x
      | None, m => m
      end
  end.

(** [s.min()] and [s.max()] on a column of the calendar.  The column
    holds numbers; text in it raises [TypeError] here, as a column that
    mixes numbers and text does in pandas.  The order pandas gives to a
    column of text only is not modelled, and the properties of the year
    range are stated for columns without text. *)
Definition column_min (s : Series) : result cell :=
  if forallb is_number s then Ok (series_min s) else Raise TypeError.

Definition column_max (s : Series) : result cell :=
  if forallb is_number s then Ok (series_max s) else Raise TypeError.

(** ** Loader: the other functions *)

Module DataLoader.

Definition calculated_suffix : string := " [MWh] Calculated resolutions".

(** [get_date_range_values] *)
Definition get_date_range_values (energy_generation energy_consumption : DataFrame)
    : result (Z * Z) :=
  cons_year <- getitem energy_consumption "Year" ;;
  cons_min <- column_min cons_year ;;
  gen_year <- getitem energy_generation "Year" ;;
  gen_min <- column_min gen_year ;;
  min_year <- py_int (py_min cons_min gen_min) ;;
  cons_year' <- getitem energy_consumption "Year" ;;
  cons_max <- column_max cons_year' ;;
  gen_year' <- getitem energy_generation "Year" ;;
  gen_max <- column_max gen_year' ;;
  max_year <- py_int (py_max cons_max gen_max) ;;
  Ok (min_year, max_year).

(** [get_energy_sources] *)
Definition get_energy_sources (energy_generation : DataFrame) : list string :=
  map (replace calculated_suffix "")
      (filter (contains "[MWh]") (columns energy_generation)).

End DataLoader.

(** ** Further vocabulary *)

(** The year range and the months two selections have in common. *)
Definition both_ranges (a b : Z * Z) : Z * Z :=
  (Z.max (fst a) (fst b), Z.min (snd a) (snd b)).

Definition both_months (a b : list Z) : list Z :=
  filter (fun m => existsb (Z.eqb m) b) a.

(** The years of a table are whole numbers, as [dt.year] gives them. *)
Definition integer_years (t : DataFrame) : Prop :=
  forall r y, In r (rows t) -> field t "Year" r = Some y -> is_integer y = true.


Fixpoint field_total (t : DataFrame) (name : string) (rs : list row) : Q :=
  match rs with
  | [] => 0
  | r :: rs' =>
      match field t name r with
      | Some q => q + field_total t name rs'
      | None => field_total t name rs'
      end
  end.

(** The total of the column at position [j] over a list of rows, and
    over the rows of a list of groups. *)
Definition rows_total (j : nat) (rs : list row) : Q :=
  Qsum (numbers (map (cell_at j) rs)).


(** The test the AnomalyDetector applies to row [i] of a series: the
    value is above the upper bound or below the lower bound of the
    trailing window that ends there. *)
Definition flag_at (sqrt : Q -> Q) (window : nat) (threshold : Q)
    (values : Series) (i : nat) : bool :=
  let v := nth i values NaN in
  let w := Analysis.trailing window i values in
  let spread := cell_binop Qmult (Analysis.window_std sqrt window w) (Num threshold) in
  cell_gt v (cell_binop Qplus (Analysis.window_mean window w) spread)
  || cell_lt v (cell_binop Qminus (Analysis.window_mean window w) spread).

(** The labels of a list are pairwise distinct. *)
Fixpoint distinct (l : list Z) : bool :=
  match l with
  | [] => true
  | z :: l' => negb (existsb (Z.eqb z) l') && distinct l'
  end.

(** The generation columns of a table, and those of them the
    MetricsSummarizer counts as renewable. *)
Definition generation_columns_of (energy_gen : DataFrame) : list string :=
  filter (contains "[MWh]") (columns energy_gen).

Definition renewable_columns_of (energy_gen : DataFrame) : list string :=
  filter (fun col => existsb (fun source => contains source (lower col))
                             Analysis.renewable_names)
         (generation_columns_of energy_gen).

(** The year-over-year growth of two yearly totals, in percent. *)
Definition growth_percent (current previous : cell) : cell :=
  cell_binop Qmult (cell_binop Qminus (cell_div current previous) (Num 1)) (Num 100).


(** The cell a row holds in a named column. *)
Definition cell_of (t : DataFrame) (name : string) (r : row) : option cell :=
  option_map (fun j => cell_at j r) (column_position name (columns t)).

(** ** Analysis: the tables of the other charts *)

(** [calculate_source_totals]: the selected columns, each coerced to
    numbers and summed, with the unit suffix stripped from the names;
    the two arrays handed to [pd.DataFrame] are numbered from 0. *)
Definition calculate_source_totals (filtered_energy_gen : DataFrame)
    (selected_sources : list string) : result DataFrame :=
  let gen_columns := map Analysis.source_column selected_sources in
  js <- positions filtered_energy_gen gen_columns ;;
  values <-
    mapM (fun j =>
            series_sum (to_numeric_coerce (map (cell_at j) (rows filtered_energy_gen))))
         js ;;
  let index := map (replace DataLoader.calculated_suffix "") gen_columns in
  Ok (mkDataFrame ["Source"; "Generation (MWh)"]%string
        (number_rows 0
           (map (fun nv : string * Q => [Str (fst nv); Num (snd nv)])
                (combine index values)))).

(** [df.sort_values(name)]: the rows in increasing order of a column,
    the rows whose value is missing last.  Rows are inserted from the
    last to the first, each before the first row that does not rank
    below it, so that rows of equal rank keep their order (pandas leaves
    their order open). *)
Fixpoint insert_sorted (le : row -> row -> bool) (r : row) (l : list row)
    : list row :=
  match l with
  | [] => [r]
  | x :: l' => if le r x then r :: l else x :: insert_sorted le r l'
  end.

Definition sort_rows (le : row -> row -> bool) (l : list row) : list row :=
  fold_right (insert_sorted le) [] l.

Definition option_le (A : Type) (le : A -> A -> bool) (a b : option A) : bool :=
  match a, b with
  | Some x, Some y => le x y
  | Some _, None => true
  | None, Some _ => false
  | None, None => true
  end.

Definition text_of (c : cell) : option string :=
  match c with
  | Str s => Some s
  | _ => None
  end.

(** A column of numbers is sorted by value and a column of text by code
    points; a column that mixes the two cannot be compared. *)
Definition sort_values (df : DataFrame) (name : string) : result DataFrame :=
  j <- position df name ;;
  let column := map (cell_at j) (rows df) in
  if forallb is_number column then
    Ok (mkDataFrame (columns df)
          (sort_rows (fun a b => option_le Qle_bool (number_of (cell_at j a))
                                                    (number_of (cell_at j b)))
                     (rows df)))
  else if forallb (fun c => match c with Str _ | NaN => true | _ => false end) column
  then
    Ok (mkDataFrame (columns df)
          (sort_rows (fun a b => option_le String.leb (text_of (cell_at j a))
                                                     (text_of (cell_at j b)))
                     (rows df)))
  else Raise TypeError.

(** [calculate_monthly_consumption] *)
Definition calculate_monthly_consumption (filtered_energy_cons : DataFrame)
    : result DataFrame :=
  monthly_consumption <-
    groupby_agg filtered_energy_cons ["Month"%string]
      [(Analysis.total_load, agg_mean); ("MonthName"%string, agg_first)] ;;
  sort_values monthly_consumption "Month".

(** [df.groupby(name)] on a column of text: the groups in increasing
    order of the name, a row without a name dropped.  The column the
    program groups by holds day names; a number there raises
    [TypeError]. *)
Fixpoint add_to_text_group (k : string) (r : row) (groups : list (string * list row))
    : list (string * list row) :=
  match groups with
  | [] => [(k, [r])]
  | (k', rs) :: groups' =>
      match String.compare k k' with
      | Lt => (k, [r]) :: groups
      | Eq => (k', rs ++ [r]) :: groups'
      | Gt => (k', rs) :: add_to_text_group k r groups'
      end
  end.

Definition groupby_text (df : DataFrame) (name : string)
    : result (list (string * list row)) :=
  j <- position df name ;;
  if forallb (fun r => match cell_at j r with Str _ | NaN => true | _ => false end)
             (rows df)
  then Ok (fold_left
             (fun groups r =>
                match cell_at j r with
                | Str k => add_to_text_group k r groups
                | _ => groups
                end)
             (rows df) [])
  else Raise TypeError.

(** [pd.Categorical(values, categories=..., ordered=True)]: a value that
    is not a category becomes missing. *)
Definition categorical (values : Series) (categories : list string) : Series :=
  map (fun c => match c with
                | Str s => if existsb (String.eqb s) categories then Str s else NaN
                | _ => NaN
                end) values.

(** The code of a category: its position in the list of categories. *)
Definition category_rank (categories : list string) (s : string) : option nat :=
  column_position s categories.

Definition cell_rank (categories : list string) (c : cell) : option nat :=
  match c with
  | Str s => category_rank categories s
  | _ => None
  end.

(** [df.sort_values(name)] on a categorical column: the rows in the order
    of the categories, the rows without a category last and in their
    order. *)
Definition sort_values_categorical (df : DataFrame) (name : string)
    (categories : list string) : result DataFrame :=
  j <- position df name ;;
  Ok (mkDataFrame (columns df)
        (sort_rows (fun a b => option_le Nat.leb (cell_rank categories (cell_at j a))
                                                 (cell_rank categories (cell_at j b)))
                   (rows df))).

Definition weekday_order : list string :=
  ["Monday"; "Tuesday"; "Wednesday"; "Thursday"; "Friday"; "Saturday"; "Sunday"]%string.

(** [calculate_weekday_consumption] *)
Definition calculate_weekday_consumption (filtered_energy_cons : DataFrame)
    : result DataFrame :=
  groups <- groupby_text filtered_energy_cons "WeekDay" ;;
  j <- position filtered_energy_cons Analysis.total_load ;;
  cells <- mapM (fun g : string * list row =>
                   v <- aggregate agg_mean (map (cell_at j) (snd g)) ;;
                   Ok [Str (fst g); v])
                groups ;;
  let weekday_consumption :=
    mkDataFrame ["WeekDay"%string; Analysis.total_load] (number_rows 0 cells) in
  weekday <- getitem weekday_consumption "WeekDay" ;;
  let weekday_consumption :=
    set_column weekday_consumption "WeekDay" (categorical weekday weekday_order) in
  sort_values_categorical weekday_consumption "WeekDay" weekday_order.

(** ** Loader: reading the files *)

(** The calendar date of a day number (days since 1970-01-01), in the
    proleptic Gregorian calendar: the inverse of [days_from_civil]. *)
Definition civil_from_days (z : Z) : Z * Z * Z :=
  let z := (z + 719468)%Z in
  let era := (z / 146097)%Z in
  let doe := (z - era * 146097)%Z in
  let yoe := ((doe - doe / 1460 + doe / 36524 - doe / 146096) / 365)%Z in
  let doy := (doe - (365 * yoe + yoe / 4 - yoe / 100))%Z in
  let mp := ((5 * doy + 2) / 153)%Z in
  let d := (doy - (153 * mp + 2) / 5 + 1)%Z in
  let m := (if mp <? 10 then mp + 3 else mp - 9)%Z in
  ((if m <=? 2 then yoe + era * 400 + 1 else yoe + era * 400)%Z, m, d).

Definition year_of (z : Z) : Z := fst (fst (civil_from_days z)).
Definition month_of (z : Z) : Z := snd (fst (civil_from_days z)).
Definition day_of (z : Z) : Z := snd (civil_from_days z).

Definition month_names : list string :=
  ["January"; "February"; "March"; "April"; "May"; "June"; "July"; "August";
   "September"; "October"; "November"; "December"]%string.

Definition month_abbreviations : list string :=
  ["Jan"; "Feb"; "Mar"; "Apr"; "May"; "Jun"; "Jul"; "Aug"; "Sep"; "Oct"; "Nov";
   "Dec"]%string.

(** [s.dt.<field>]: the field of each timestamp, missing for [NaT]. *)
Definition dt (f : Z -> cell) (s : Series) : Series :=
  map (fun c => match c with
                | Num t => f (Qfloor t)
                | _ => NaN
                end) s.

Definition dt_year (z : Z) : cell := Num (inject_Z (year_of z)).
Definition dt_month (z : Z) : cell := Num (inject_Z (month_of z)).
Definition dt_day (z : Z) : cell := Num (inject_Z (day_of z)).
Definition dt_quarter (z : Z) : cell := Num (inject_Z ((month_of z - 1) / 3 + 1)).

(** 1970-01-01 was a Thursday. *)
Definition dt_day_name (z : Z) : cell :=
  Str (nth (Z.to_nat ((z + 3) mod 7)) weekday_order EmptyString).

Definition dt_month_name (z : Z) : cell :=
  Str (nth (Z.to_nat (month_of z - 1)) month_names EmptyString).

(** [strftime('%b')] *)
Definition dt_month_abbreviation (z : Z) : cell :=
  Str (nth (Z.to_nat (month_of z - 1)) month_abbreviations EmptyString).

(** [df[name] = values] for a list of values: pandas refuses a list
    that has not one value per row. *)
Definition assign (df : DataFrame) (name : string) (values : Series)
    : result DataFrame :=
  if (List.length values =? List.length (rows df))%nat
  then Ok (set_column df name values)
  else Raise ValueError.

(** [df.insert(0, name, values)]: a column that exists already is
    refused. *)
Definition insert_first (df : DataFrame) (name : string) (values : Series)
    : result DataFrame :=
  if existsb (String.eqb name) (columns df) then Raise ValueError
  else if (List.length values =? List.length (rows df))%nat
  then Ok (mkDataFrame (name :: columns df)
             (map (fun rv : row * cell => (fst (fst rv), snd rv :: snd (fst rv)))
                  (combine (rows df) values)))
  else Raise ValueError.

(** [range(1, n + 1)] *)
Definition range_from_1 (n : nat) : Series :=
  map (fun i => Num (inject_Z (Z.of_nat i))) (seq 1 n).

(** [os.path.join] of two parts, on a POSIX system. *)
Definition ends_with_slash (s : string) : bool :=
  match get (String.length s - 1) s with
  | Some c => Ascii.eqb c "/"
  | None => false
  end.

Definition path_join (a b : string) : string :=
  if String.prefix "/" b then b
  else if String.eqb a "" || ends_with_slash a then a ++ b
  else a ++ "/" ++ b.

(** The truth value of a path that may be [None]. *)
Definition found (path : option string) : bool :=
  match path with
  | Some p => negb (String.eqb p "")
  | None => false
  end.

Definition gen_file_name : string := "energy_generation_preprocessed.csv".
Definition cons_file_name : string := "energy_consumption_preprocessed.csv".
Definition pred_file_name : string := "365_day_predictions.csv".

Section Loading.

(** The directory of the script, the file system and the two parsers of
    pandas are parameters.  [to_datetime_coerce] stands for
    [pd.to_datetime(s, errors="coerce")]: the timestamp of each cell, or
    nothing where the cell is not read as a date. *)
Variable script_dir : string.
Variable path_exists : string -> bool.
Variable read_csv : string -> result DataFrame.
Variable to_datetime_coerce : Series -> result (list (option Q)).

Definition possible_locations : list string :=
  [script_dir;
   path_join script_dir "..";
   path_join script_dir "data";
   path_join (path_join script_dir "..") "data";
   path_join (path_join (path_join script_dir "..") "..") "data"].

(** The loop over the locations of [load_data]: a file found again in a
    later location replaces the earlier path, and the loop stops once
    both files have been found. *)
Fixpoint find_data_files (locations : list string)
    (gen_file_path cons_file_path : option string)
    : option string * option string :=
  match locations with
  | [] => (gen_file_path, cons_file_path)
  | loc :: locations' =>
      let gen_path := path_join loc gen_file_name in
      let cons_path := path_join loc cons_file_name in
      let gen_file_path :=
        if path_exists gen_path then Some gen_path else gen_file_path in
      let cons_file_path :=
        if path_exists cons_path then Some cons_path else cons_file_path in
      if found gen_file_path && found cons_file_path
      then (gen_file_path, cons_file_path)
      else find_data_files locations' gen_file_path cons_file_path
  end.

(** [df[name] = pd.to_datetime(df[name], errors="coerce")] *)
Definition convert_dates (df : DataFrame) (name : string) : result DataFrame :=
  s <- getitem df name ;;
  dates <- to_datetime_coerce s ;;
  assign df name (map (fun d => match d with
                                | Some t => Num t
                                | None => NaN
                                end) dates).

(** [df[name] = df["Start date"].dt.<field>] *)
Definition add_component (df : DataFrame) (name : string) (f : Z -> cell)
    : result DataFrame :=
  s <- getitem df "Start date" ;;
  assign df name (dt f s).

(** The body of the loop over the two tables of [load_data]. *)
Definition add_calendar (df : DataFrame) : result DataFrame :=
  df <- add_component df "Year" dt_year ;;
  df <- add_component df "Month" dt_month ;;
  df <- add_component df "Day" dt_day ;;
  df <- add_component df "WeekDay" dt_day_name ;;
  df <- add_component df "Quarter" dt_quarter ;;
  df <- add_component df "MonthName" dt_month_name ;;
  insert_first df "ID" (range_from_1 (List.length (rows df))).

Definition load_data_frames (gen_file_path cons_file_path : string)
    : result (DataFrame * DataFrame) :=
  energy_gen <- read_csv gen_file_path ;;
  energy_cons <- read_csv cons_file_path ;;
  energy_gen <- convert_dates energy_gen "Start date" ;;
  energy_gen <- convert_dates energy_gen "End date" ;;
  energy_cons <- convert_dates energy_cons "Start date" ;;
  energy_gen <- add_calendar energy_gen ;;
  energy_cons <- add_calendar energy_cons ;;
  Ok (energy_gen, energy_cons).

(** [load_data]: a file that is not found raises [FileNotFoundError],
    and every exception ends in the pair of empty frames. *)
Definition load_data : DataFrame * DataFrame :=
  match find_data_files possible_locations None None with
  | (gen_file_path, cons_file_path) =>
      if negb (found gen_file_path) then (empty_frame, empty_frame)
      else if negb (found cons_file_path) then (empty_frame, empty_frame)
      else
        match gen_file_path, cons_file_path with
        | Some gen_path, Some cons_path =>
            match load_data_frames gen_path cons_path with
            | Ok frames => frames
            | Raise _ => (empty_frame, empty_frame)
            end
        | _, _ => (empty_frame, empty_frame)
        end
  end.

(** The loop over the locations of [load_prediction_data] stops at the
    first location that has the file. *)
Fixpoint find_prediction_file (locations : list string) : option string :=
  match locations with
  | [] => None
  | loc :: locations' =>
      let path := path_join loc pred_file_name in
      if path_exists path then Some path else find_prediction_file locations'
  end.

(** [pd.date_range(start="2020-01-01", periods=n, freq="D")] *)
Definition date_range_2020 (n : nat) : Series :=
  map (fun i => Num (inject_Z (days_from_civil 2020 1 1 + Z.of_nat i))) (seq 0 n).

Definition has_column (df : DataFrame) (name : string) : bool :=
  existsb (String.eqb name) (columns df).

Definition add_date_component (df : DataFrame) (name : string) (f : Z -> cell)
    : result DataFrame :=
  s <- getitem df "Date" ;;
  assign df name (dt f s).

Definition load_prediction_frame (pred_file_path : string) : result DataFrame :=
  energy_pred <- read_csv pred_file_path ;;
  energy_pred <-
    (if has_column energy_pred "Date"
     then convert_dates energy_pred "Date"
     else assign energy_pred "Date"
            (date_range_2020 (List.length (rows energy_pred)))) ;;
  energy_pred <- add_date_component energy_pred "Year" dt_year ;;
  energy_pred <- add_date_component energy_pred "Month" dt_month ;;
  energy_pred <- add_date_component energy_pred "MonthName" dt_month_abbreviation ;;
  energy_pred <-
    (if has_column energy_pred "forecast" then Ok energy_pred
     else if has_column energy_pred "Residual load" then
       s <- getitem energy_pred "Residual load" ;;
       assign energy_pred "forecast" s
     else if has_column energy_pred "prediction" then
       s <- getitem energy_pred "prediction" ;;
       assign energy_pred "forecast" s
     else if (2 <=? List.length (columns energy_pred))%nat then
       let forecast_col := nth 1 (columns energy_pred) EmptyString in
       s <- getitem energy_pred forecast_col ;;
       assign energy_pred "forecast" s
     else Ok energy_pred) ;;
  assign energy_pred "model"
    (repeat (Str "CSV Model") (List.length (rows energy_pred))).

(** [load_prediction_data] *)
Definition load_prediction_data : DataFrame :=
  match find_prediction_file possible_locations with
  | Some pred_file_path =>
      if negb (found (Some pred_file_path)) then empty_frame
      else
        match load_prediction_frame pred_file_path with
        | Ok energy_pred => energy_pred
        | Raise _ => empty_frame
        end
  | None => empty_frame
  end.

End Loading.

(** ** Vocabulary of the loaded tables *)

(** A table as [load_data] returns it when it does not fail: the new
    column [ID] comes first and numbers the rows from 1, the start
    dates are timestamps or missing, and each calendar column holds the
    field of the start date of its row. *)
Definition loaded (t : DataFrame) : Prop :=
  (exists cols, columns t = "ID"%string :: cols /\ ~ In "ID"%string cols) /\
  map (cell_at 0) (rows t) = range_from_1 (List.length (rows t)) /\
  exists start,
    getitem t "Start date" = Ok start /\
    Forall (fun c => c = NaN \/ exists q, c = Num q) start /\
    getitem t "Year" = Ok (dt dt_year start) /\
    getitem t "Month" = Ok (dt dt_month start) /\
    getitem t "Day" = Ok (dt dt_day start) /\
    getitem t "WeekDay" = Ok (dt dt_day_name start) /\
    getitem t "Quarter" = Ok (dt dt_quarter start) /\
    getitem t "MonthName" = Ok (dt dt_month_name start).

(** ** Vocabulary of the grouped tables *)

Definition key_eqb (a b : key) : bool :=
  match key_compare a b with
  | Eq => true
  | _ => false
  end.

(** The row has the key [k] in the columns at [js]. *)
Definition same_key (js : list nat) (k : key) (r : row) : bool :=
  match row_key js r with
  | Some k' => key_eqb k' k
  | None => false
  end.

Definition group_rows (k : key) (groups : list (key * list row)) : list row :=
  match find (fun g => key_eqb (fst g) k) groups with
  | Some g => snd g
  | None => []
  end.




(** The rows of a table that hold the number [q] in a named column, and
    the rows that hold the text [s] there. *)
Definition rows_with (t : DataFrame) (name : string) (q : Q) : list row :=
  filter (fun r => match field t name r with
                   | Some x => Qeq_bool x q
                   | None => false
                   end) (rows t).

Definition rows_named (t : DataFrame) (name : string) (s : string) : list row :=
  filter (fun r => match cell_of t name r with
                   | Some (Str x) => String.eqb x s
                   | _ => false
                   end) (rows t).

(** The mean of a column over some rows: the missing value when no row
    holds a number there. *)
Definition field_mean (t : DataFrame) (name : string) (rs : list row) : cell :=
  match filter (fun r => match field t name r with
                         | Some _ => true
                         | None => false
                         end) rs with
  | [] => NaN
  | counted =>
      Num (field_total t name rs / inject_Z (Z.of_nat (List.length counted)))
  end.

Definition text_group_rows (k : string) (groups : list (string * list row))
    : list row :=
  match find (fun g => String.eqb (fst g) k) groups with
  | Some g => snd g
  | None => []
  end.

Definition text_lt (a b : string) : Prop := String.compare a b = Lt.

Definition is_some (A : Type) (o : option A) : bool :=
  match o with
  | Some _ => true
  | None => false
  end.

(** No cell of the named columns is text: the columns hold numbers,
    truth values and missing values, as the columns of numbers of a file
    do. *)
Definition text_free (t : DataFrame) (names : list string) : Prop :=
  forall r name s, In r (rows t) -> In name names ->
                   cell_of t name r <> Some (Str s).

(** The total of a row over the named columns, cells that are not
    numbers skipped. *)
Definition row_fields_total (t : DataFrame) (names : list string) (r : row) : Q :=
  Qsum (numbers (map (fun name => match cell_of t name r with
                                  | Some c => c
                                  | None => NaN
                                  end) names)).

(** In a column sorted by category, a cell that holds a category is
    preceded by cells that hold earlier categories only. *)
Definition category_before (categories : list string) (a b : cell) : Prop :=
  match cell_rank categories b with
  | Some y => exists x, cell_rank categories a = Some x /\ (x < y)%nat
  | None => True
  end.

(** ** Further sample tables *)

(** March 2023, January 2023 and March 2022, in this order. *)
Definition consumption_unordered : DataFrame :=
  mkDataFrame Sample.consumption_columns
    [Sample.consumption_row 0 2023 3 90; Sample.consumption_row 1 2023 1 100;
     Sample.consumption_row 2 2022 3 110].

(** A consumption row of a day of January 2023 with its day name. *)
Definition weekday_row (label day : Z) (weekday : string) (load : Q) : row :=
  (label,
   [Num (inject_Z (label + 1)); Num (inject_Z (days_from_civil 2023 1 day));
    Num load; Num 2023; Num 1; Num (inject_Z day); Str weekday; Num 1;
    Str "January"]).

(** Two Wednesdays and a Monday, and a row whose day name is not an
    English one. *)
Definition consumption_week : DataFrame :=
  mkDataFrame Sample.consumption_columns
    [weekday_row 0 4 "Wednesday" 90; weekday_row 1 2 "Monday" 100;
     weekday_row 2 11 "Wednesday" 110; weekday_row 3 6 "Freitag" 70].

(** A file system for the Loader: the generation file lies beside the
    script and in its parent directory, the two other files in the
    parent directory only.  The second start date of the generation
    file is not a date. *)
Definition sample_files (path : string) : bool :=
  existsb (String.eqb path)
    ["app/energy_generation_preprocessed.csv";
     "app/../energy_generation_preprocessed.csv";
     "app/../energy_consumption_preprocessed.csv";
     "app/../365_day_predictions.csv"]%string.

Definition sample_csv (path : string) : result DataFrame :=
  if String.eqb path "app/../energy_generation_preprocessed.csv" then
    Ok (mkDataFrame
          ["Start date"; "End date"; Analysis.source_column "Solar"]%string
          [(0%Z, [Str "2023-01-01"; Str "2023-01-02"; Num 50]);
           (1%Z, [Str "soon"; Str "2023-02-02"; Num 60])])
  else if String.eqb path "app/../energy_consumption_preprocessed.csv" then
    Ok (mkDataFrame ["Start date"%string; Analysis.total_load]
          [(0%Z, [Str "2023-01-01"; Num 100])])
  else if String.eqb path "app/../365_day_predictions.csv" then
    Ok (mkDataFrame ["value"%string] [(0%Z, [Num 5]); (1%Z, [Num 7])])
  else Raise ValueError.

Definition sample_dates (s : Series) : result (list (option Q)) :=
  Ok (map (fun c =>
             match c with
             | Str text =>
                 if String.eqb text "2023-01-01"
                 then Some (inject_Z (days_from_civil 2023 1 1))
                 else if String.eqb text "2023-01-02"
                 then Some (inject_Z (days_from_civil 2023 1 2))
                 else if String.eqb text "2023-02-02"
                 then Some (inject_Z (days_from_civil 2023 2 2))
                 else None
             | _ => None
             end) s).


(** * Properties *)

(** ** The result type *)

Lemma bind_Ok_inv (A B : Type) (m : result A) (k : A -> result B) (b : B) :
  bind m k = Ok b -> exists a, m = Ok a /\ k a = Ok b.
Proof.
  destruct m as [a|e]; simpl; intros H.
  - exists a; split; [reflexivity|exact H].
  - discriminate H.
Qed.

Lemma Ok_inj (A : Type) (a b : A) : Ok a = Ok b -> a = b.
Proof. intros H. injection H as H. exact H. Qed.

(** ** Masks and selections *)

Lemma select_map (A : Type) (f : A -> bool) (l : list A) :
  select l (map f l) = filter f l.
Proof.
  induction l as [|x l IH]; simpl; [reflexivity|].
  rewrite IH. reflexivity.
Qed.

Lemma mask_and_map (A : Type) (f g : A -> bool) (l : list A) :
  mask_and (map f l) (map g l) = map (fun x => f x && g x) l.
Proof.
  unfold mask_and.
  induction l as [|x l IH]; simpl; [reflexivity|].
  rewrite IH. reflexivity.
Qed.

Lemma forallb_filter (A : Type) (p f : A -> bool) (l : list A) :
  forallb p l = true -> forallb p (filter f l) = true.
Proof.
  induction l as [|x l IH]; simpl; [trivial|].
  intros H. apply andb_true_iff in H. destruct H as [Hx Hl].
  destruct (f x); simpl; [rewrite Hx|]; auto.
Qed.

Lemma forallb_map (A B : Type) (p : B -> bool) (g : A -> B) (l : list A) :
  forallb p (map g l) = forallb (fun x => p (g x)) l.
Proof.
  induction l as [|x l IH]; simpl; [reflexivity|].
  rewrite IH. reflexivity.
Qed.

Lemma filter_idem (A : Type) (f : A -> bool) (l : list A) :
  filter f (filter f l) = filter f l.
Proof.
  induction l as [|x l IH]; simpl; [reflexivity|].
  destruct (f x) eqn:E; simpl; [rewrite E, IH|]; auto.
Qed.

(** ** Filter *)

(** What the mask of [filter_data] is, when it can be built: the
    row-level test [keeps], on a table whose year column holds no text. *)
Lemma selection_mask_Ok (t : DataFrame) (ys : Z * Z) (ms : list Z) (mask : list bool) :
  Loader.selection_mask t ys ms = Ok mask ->
  exists jy jm,
    column_position "Year" (columns t) = Some jy /\
    column_position "Month" (columns t) = Some jm /\
    forallb (fun r => is_number (cell_at jy r)) (rows t) = true /\
    mask = map (keeps jy jm ys ms) (rows t).
Proof.
  unfold Loader.selection_mask, getitem, series_ge, series_le.
  destruct (column_position "Year" (columns t)) as [jy|]; simpl; [|discriminate].
  rewrite forallb_map.
  destruct (forallb (fun r => is_number (cell_at jy r)) (rows t)) eqn:Hnum;
    simpl; [|discriminate].
  destruct (column_position "Month" (columns t)) as [jm|]; simpl; [|discriminate].
  intros H. injection H as <-.
  exists jy, jm. repeat split; try reflexivity; [exact Hnum|].
  unfold isin. rewrite !map_map, !mask_and_map. reflexivity.
Qed.

Lemma selection_mask_complete (t : DataFrame) (ys : Z * Z) (ms : list Z) (jy jm : nat) :
  column_position "Year" (columns t) = Some jy ->
  column_position "Month" (columns t) = Some jm ->
  forallb (fun r => is_number (cell_at jy r)) (rows t) = true ->
  Loader.selection_mask t ys ms = Ok (map (keeps jy jm ys ms) (rows t)).
Proof.
  intros Hy Hm Hnum.
  unfold Loader.selection_mask, getitem, series_ge, series_le.
  rewrite Hy; simpl. rewrite forallb_map, Hnum; simpl.
  rewrite Hm; simpl. unfold isin. rewrite !map_map, !mask_and_map. reflexivity.
Qed.

(** Filtering a table that was filtered with the same arguments keeps
    every row. *)
Lemma selection_mask_again (t : DataFrame) (ys : Z * Z) (ms : list Z) (mask : list bool) :
  Loader.selection_mask t ys ms = Ok mask ->
  exists mask',
    Loader.selection_mask (boolean_index t mask) ys ms = Ok mask' /\
    boolean_index (boolean_index t mask) mask' = boolean_index t mask.
Proof.
  intros H. destruct (selection_mask_Ok _ _ _ H) as (jy & jm & Hy & Hm & Hnum & ->).
  exists (map (keeps jy jm ys ms) (rows (boolean_index t (map (keeps jy jm ys ms) (rows t))))).
  split.
  - apply selection_mask_complete; simpl; auto.
    rewrite select_map. apply forallb_filter. exact Hnum.
  - unfold boolean_index; simpl. rewrite !select_map, filter_idem. reflexivity.
Qed.

Lemma cell_in_spec (values : list Z) (c : cell) :
  cell_in values c = true <->
  exists q, number_of c = Some q /\ exists k, In k values /\ q == inject_Z k.
Proof.
  unfold cell_in. destruct (number_of c) as [q|].
  - rewrite existsb_exists. split.
    + intros (k & Hk & Heq). apply Qeq_bool_iff in Heq.
      exists q. split; [reflexivity|]. exists k. auto.
    + intros (q' & Hq & k & Hk & Heq). injection Hq as <-.
      exists k. split; [exact Hk|]. apply Qeq_bool_iff. exact Heq.
  - split; [discriminate|]. intros (q & Hq & _). discriminate Hq.
Qed.

Lemma keeps_spec (t : DataFrame) (jy jm : nat) (ys : Z * Z) (ms : list Z) (r : row) :
  column_position "Year" (columns t) = Some jy ->
  column_position "Month" (columns t) = Some jm ->
  keeps jy jm ys ms r = true <-> in_selection t ys ms r.
Proof.
  intros Hy Hm. unfold keeps, in_selection, field. rewrite Hy, Hm.
  rewrite !andb_true_iff, cell_in_spec. unfold cell_ge, cell_le.
  split.
  - intros [[Hlo Hhi] (m & Hmq & Hk)].
    destruct (number_of (cell_at jy r)) as [y|]; [|discriminate].
    apply Qle_bool_iff in Hlo. apply Qle_bool_iff in Hhi.
    exists y, m. auto.
  - intros (y & m & Hyq & Hmq & Hlo & Hhi & Hk).
    rewrite Hyq. repeat split.
    + apply Qle_bool_iff. exact Hlo.
    + apply Qle_bool_iff. exact Hhi.
    + exists m. auto.
Qed.

Lemma keeps_no_month (jy jm : nat) (ys : Z * Z) (r : row) :
  keeps jy jm ys [] r = false.
Proof.
  unfold keeps, cell_in. destruct (number_of (cell_at jm r)); simpl;
    apply andb_false_r.
Qed.

Lemma filter_none (A : Type) (f : A -> bool) (l : list A) :
  (forall x, f x = false) -> filter f l = [].
Proof.
  intros H. induction l as [|x l IH]; simpl; [reflexivity|].
  rewrite H. exact IH.
Qed.

(** The rows [filter_data] keeps in one table. *)
Lemma filtered_rows (t : DataFrame) (ys : Z * Z) (ms : list Z) (mask : list bool) :
  Loader.selection_mask t ys ms = Ok mask ->
  forall r, In r (rows (boolean_index t mask)) <-> In r (rows t) /\ in_selection t ys ms r.
Proof.
  intros H r. destruct (selection_mask_Ok _ _ _ H) as (jy & jm & Hy & Hm & _ & ->).
  simpl. rewrite select_map, filter_In, (keeps_spec t ys ms r Hy Hm). reflexivity.
Qed.

Lemma has_calendar_no_month (t : DataFrame) (ys : Z * Z) :
  has_calendar t = true ->
  exists mask, Loader.selection_mask t ys [] = Ok mask /\
               boolean_index t mask = mkDataFrame (columns t) [].
Proof.
  unfold has_calendar, getitem.
  destruct (column_position "Year" (columns t)) as [jy|] eqn:Hy; [|discriminate].
  destruct (column_position "Month" (columns t)) as [jm|] eqn:Hm; [|discriminate].
  rewrite forallb_map. intros Hnum.
  exists (map (keeps jy jm ys []) (rows t)). split.
  - apply selection_mask_complete; assumption.
  - unfold boolean_index. rewrite select_map, filter_none; [reflexivity|].
    intros r. apply keeps_no_month.
Qed.

Lemma has_calendar_mask (t : DataFrame) (ys : Z * Z) (ms : list Z) :
  has_calendar t = true <-> exists mask, Loader.selection_mask t ys ms = Ok mask.
Proof.
  split.
  - unfold has_calendar, getitem.
    destruct (column_position "Year" (columns t)) as [jy|] eqn:Hy; [|discriminate].
    destruct (column_position "Month" (columns t)) as [jm|] eqn:Hm; [|discriminate].
    rewrite forallb_map. intros Hnum.
    exists (map (keeps jy jm ys ms) (rows t)).
    apply selection_mask_complete; assumption.
  - intros (mask & H).
    destruct (selection_mask_Ok _ _ _ H) as (jy & jm & Hy & Hm & Hnum & _).
    unfold has_calendar, getitem. rewrite Hy, Hm, forallb_map. exact Hnum.
Qed.

(** C3.  The Filter returns exactly on the pairs of tables that have
    their calendar columns ([Year] and [Month], the years being numbers
    or missing); on the other pairs it raises.  When it returns, the
    columns are those of the input and a row is in the output exactly
    when it is in the input, its year lies between the two bounds of the
    year range (both included) and its month is one of the selected
    months; this holds for the generation table and for the consumption
    table.  With no month selected the two tables it returns have no
    row. *)
Theorem filter_data_selection
    (gen cons : DataFrame) (year_range : Z * Z) (months : list Z)
    (sources : list string) :
  ((exists out, Loader.filter_data gen cons year_range months sources = Ok out) <->
   has_calendar gen = true /\ has_calendar cons = true) /\
  (has_calendar gen = true -> has_calendar cons = true ->
   exists gen' cons',
     Loader.filter_data gen cons year_range months sources = Ok (gen', cons') /\
     (columns gen' = columns gen /\
      forall r, In r (rows gen') <->
                In r (rows gen) /\ in_selection gen year_range months r) /\
     (columns cons' = columns cons /\
      forall r, In r (rows cons') <->
                In r (rows cons) /\ in_selection cons year_range months r) /\
     (months = [] -> rows gen' = [] /\ rows cons' = [])).
Proof.
  assert (Hret : has_calendar gen = true -> has_calendar cons = true ->
                 exists gm cm,
                   Loader.selection_mask gen year_range months = Ok gm /\
                   Loader.selection_mask cons year_range months = Ok cm /\
                   Loader.filter_data gen cons year_range months sources
                   = Ok (boolean_index gen gm, boolean_index cons cm)).
  { intros Hgen Hcons.
    destruct (proj1 (has_calendar_mask gen year_range months) Hgen) as (gm & Hg).
    destruct (proj1 (has_calendar_mask cons year_range months) Hcons) as (cm & Hc).
    exists gm, cm. split; [exact Hg|]. split; [exact Hc|].
    unfold Loader.filter_data. rewrite Hc, Hg. reflexivity. }
  split.
  - split.
    + intros (out & H). unfold Loader.filter_data in H.
      apply bind_Ok_inv in H. destruct H as (cm & Hc & H).
      apply bind_Ok_inv in H. destruct H as (gm & Hg & _).
      split; apply (has_calendar_mask _ year_range months); eexists; eassumption.
    + intros [Hgen Hcons]. destruct (Hret Hgen Hcons) as (gm & cm & _ & _ & H).
      eexists. exact H.
  - intros Hgen Hcons. destruct (Hret Hgen Hcons) as (gm & cm & Hg & Hc & H).
    exists (boolean_index gen gm), (boolean_index cons cm).
    split; [exact H|]. split; [|split].
    + split; [reflexivity|]. apply filtered_rows. exact Hg.
    + split; [reflexivity|]. apply filtered_rows. exact Hc.
    + intros ->.
      destruct (has_calendar_no_month gen year_range Hgen) as (gm' & Hg' & Eg).
      destruct (has_calendar_no_month cons year_range Hcons) as (cm' & Hc' & Ec).
      assert (gm' = gm) by congruence. assert (cm' = cm) by congruence. subst.
      rewrite Eg, Ec. split; reflexivity.
Qed.

(** The theorem at the sample tables of January and February 2023, with
    the year 2023 and the month of February selected: the Filter returns
    and keeps the row of February. *)
Lemma filter_data_selection_witness :
  exists gen' cons',
    Loader.filter_data Sample.generation Sample.consumption (2023, 2023)%Z [2%Z] []
    = Ok (gen', cons') /\
    (In (Sample.generation_row 1 2023 2 60) (rows gen') <->
     In (Sample.generation_row 1 2023 2 60) (rows Sample.generation) /\
     in_selection Sample.generation (2023, 2023)%Z [2%Z]
       (Sample.generation_row 1 2023 2 60)).
Proof.
  destruct (proj2 (filter_data_selection Sample.generation Sample.consumption
                     (2023, 2023)%Z [2%Z] []))
    as (gen' & cons' & H & (_ & Hgen) & _).
  - reflexivity.
  - reflexivity.
  - exists gen', cons'. split; [exact H|]. apply Hgen.
Defined.

(** C3 as stated fails on tables without calendar columns: on the two
    frames without columns (what the Loader returns when it fails) the
    Filter raises [KeyError], also with no month selected, where the
    claim has an empty table and no error. *)
Lemma filter_data_raises_without_calendar :
  Loader.filter_data empty_frame empty_frame (2023, 2023)%Z [] []
  = Raise (KeyError "Year") /\
  has_calendar empty_frame = false.
Proof. split; reflexivity. Qed.

(** C8.  Filtering is idempotent: running the Filter on its own output,
    with the same year range and months, gives that output again (and a
    Filter that raises on its input raises the same way in both). *)
Theorem filter_data_idempotent
    (gen cons : DataFrame) (year_range : Z * Z) (months : list Z)
    (sources : list string) :
  (out <- Loader.filter_data gen cons year_range months sources ;;
   Loader.filter_data (fst out) (snd out) year_range months sources)
  = Loader.filter_data gen cons year_range months sources.
Proof.
  unfold Loader.filter_data.
  destruct (Loader.selection_mask cons year_range months) as [cm|e] eqn:Hc;
    simpl; [|reflexivity].
  destruct (Loader.selection_mask gen year_range months) as [gm|e] eqn:Hg;
    simpl; [|reflexivity].
  destruct (selection_mask_again _ _ _ Hc) as (cm' & Hc' & Ec).
  destruct (selection_mask_again _ _ _ Hg) as (gm' & Hg' & Eg).
  rewrite Hc'; simpl. rewrite Hg'; simpl. rewrite Ec, Eg. reflexivity.
Qed.

(** C10.  The two definitions of [filter_data] agree on what they
    return: on every input, one returns a pair exactly when the other
    returns it, and one raises exactly when the other raises.  (The
    exception raised may differ, see [filter_data_errors_differ].) *)
Theorem filter_data_definitions_agree
    (gen cons : DataFrame) (year_selection : Z * Z) (month_selection : list Z)
    (selected_sources : list string) :
  (forall out,
     Loader.filter_data_earlier gen cons year_selection month_selection
       selected_sources = Ok out
     <->
     Loader.filter_data gen cons year_selection month_selection selected_sources
     = Ok out) /\
  ((exists e, Loader.filter_data_earlier gen cons year_selection month_selection
                selected_sources = Raise e)
   <->
   (exists e, Loader.filter_data gen cons year_selection month_selection
                selected_sources = Raise e)).
Proof.
  unfold Loader.filter_data_earlier, Loader.filter_data.
  destruct (Loader.selection_mask cons year_selection month_selection) as [cm|e];
    destruct (Loader.selection_mask gen year_selection month_selection) as [gm|e'];
    simpl; split; try (intros out); split; intros H; try exact H;
    try discriminate H; try (destruct H as [x H]; discriminate H);
    eexists; reflexivity.
Qed.

(** ** Group-by *)

Lemma key_compare_antisym (a b : key) :
  key_compare b a = CompOpp (key_compare a b).
Proof.
  revert b. induction a as [|x a IH]; intros [|y b]; simpl; try reflexivity.
  rewrite <- (Qcompare_antisym x y).
  destruct (Qcompare x y); simpl; auto.
Qed.

Lemma key_lt_trans (a b c : key) : key_lt a b -> key_lt b c -> key_lt a c.
Proof.
  unfold key_lt. revert b c.
  induction a as [|x a IH]; intros [|y b] [|z c]; simpl; try discriminate;
    try reflexivity.
  destruct (Qcompare_spec x y) as [Hxy|Hxy|Hxy]; try discriminate;
    destruct (Qcompare_spec y z) as [Hyz|Hyz|Hyz]; try discriminate; intros H1 H2.
  - assert (E : (x ?= z) = Eq) by (apply Qeq_alt; rewrite Hxy; exact Hyz).
    rewrite E. apply (IH b c H1 H2).
  - assert (E : (x ?= z) = Lt) by (apply Qlt_alt; rewrite Hxy; exact Hyz).
    rewrite E. reflexivity.
  - assert (E : (x ?= z) = Lt) by (apply Qlt_alt; rewrite <- Hyz; exact Hxy).
    rewrite E. reflexivity.
  - assert (E : (x ?= z) = Lt)
      by (apply Qlt_alt; apply Qlt_trans with y; assumption).
    rewrite E. reflexivity.
Qed.

Lemma add_to_group_sorted (k : key) (r : row) (groups : list (key * list row)) :
  Sorted (fun g h => key_lt (fst g) (fst h)) groups ->
  Sorted (fun g h => key_lt (fst g) (fst h)) (add_to_group k r groups).
Proof.
  induction groups as [|[k' rs] groups IH]; simpl; intros H.
  - repeat constructor.
  - inversion H as [|? ? Hs Hh]; subst.
    destruct (key_compare k k') eqn:E.
    + constructor; [exact Hs|]. destruct Hh; constructor; assumption.
    + constructor; [exact H|]. constructor. exact E.
    + constructor; [apply IH; exact Hs|].
      assert (Hlt : key_lt k' k)
        by (unfold key_lt; rewrite key_compare_antisym, E; reflexivity).
      destruct groups as [|[k'' rs''] groups]; simpl.
      * constructor. exact Hlt.
      * inversion Hh; subst. destruct (key_compare k k''); constructor; assumption.
Qed.

(** The groups of [groupby] come in strictly increasing key order: no key
    occurs twice, and the last groups are the most recent periods. *)
Lemma groupby_increasing (df : DataFrame) (keys : list string)
    (groups : list (key * list row)) :
  groupby df keys = Ok groups ->
  StronglySorted key_lt (map fst groups).
Proof.
  unfold groupby. intros H.
  apply bind_Ok_inv in H. destruct H as (js & _ & H).
  destruct (forallb _ (rows df)); [|discriminate]. injection H as <-.
  assert (Hs : Sorted (fun g h : key * list row => key_lt (fst g) (fst h))
                 (fold_left
                    (fun groups r => match row_key js r with
                                     | Some k => add_to_group k r groups
                                     | None => groups
                                     end) (rows df) [])).
  { generalize (@nil (key * list row)) (Sorted_nil (fun g h : key * list row =>
                                                      key_lt (fst g) (fst h))).
    induction (rows df) as [|r l IH]; simpl; intros acc Hacc; [exact Hacc|].
    apply IH. destruct (row_key js r); [apply add_to_group_sorted|]; exact Hacc. }
  apply Sorted_StronglySorted in Hs.
  - induction Hs as [|g l Hl IH Hall]; simpl; constructor; [exact IH|].
    apply Forall_map. exact Hall.
  - intros a b c. apply key_lt_trans.
Qed.

(** ** Forecaster *)

Lemma map_snd_combine (A B : Type) (a : list A) (b : list B) :
  List.length a = List.length b -> map snd (combine a b) = b.
Proof.
  revert b. induction a as [|x a IH]; intros [|y b] H; simpl in *;
    try reflexivity; try discriminate.
  rewrite IH; [reflexivity|]. injection H as H. exact H.
Qed.

Lemma nth_map_seq (f : nat -> Q) (n i : nat) (d : Q) :
  (i < n)%nat -> nth i (map f (seq 0 n)) d = f i.
Proof.
  intros Hi.
  rewrite (nth_indep _ d (f 0%nat)) by (rewrite length_map, length_seq; exact Hi).
  rewrite map_nth, seq_nth by exact Hi. reflexivity.
Qed.

Lemma mapM_length (A B : Type) (f : A -> result B) (l : list A) (l' : list B) :
  mapM f l = Ok l' -> List.length l' = List.length l.
Proof.
  revert l'. induction l as [|x l IH]; simpl; intros l' H.
  - injection H as <-. reflexivity.
  - apply bind_Ok_inv in H. destruct H as (y & _ & H).
    apply bind_Ok_inv in H. destruct H as (ys & Hys & H).
    injection H as <-. simpl. rewrite (IH ys Hys). reflexivity.
Qed.

(** The monthly series has one entry per (year, month) group. *)
Lemma monthly_series_groups (df : DataFrame) (monthly : list (Z * Q)) :
  Analysis.monthly_series df = Ok monthly ->
  exists groups,
    groupby df ["Year"; "Month"]%string = Ok groups /\
    List.length monthly = List.length groups.
Proof.
  unfold Analysis.monthly_series, groupby_series. intros H.
  apply bind_Ok_inv in H. destruct H as (sums & Hsums & H).
  apply bind_Ok_inv in Hsums. destruct Hsums as (groups & Hgroups & Hsums).
  apply bind_Ok_inv in Hsums. destruct Hsums as (j & _ & Hsums).
  exists groups. split; [exact Hgroups|].
  rewrite (mapM_length _ _ H), (mapM_length _ _ Hsums). reflexivity.
Qed.

(** C6.  On a consumption table whose monthly aggregation gives fewer
    than twelve (year, month) groups, the Forecaster returns the pair
    (None, None). *)
Theorem forecast_needs_twelve_months (df : DataFrame) (periods : Z) :
  (forall groups, groupby df ["Year"; "Month"]%string = Ok groups ->
                  (List.length groups < 12)%nat) ->
  Analysis.forecast_energy_trends df periods = (None, None).
Proof.
  intros H.
  unfold Analysis.forecast_energy_trends, Analysis.forecast_energy_trends_body.
  destruct (Analysis.monthly_series df) as [monthly|e] eqn:Hm; cbn [bind];
    [|reflexivity].
  destruct (monthly_series_groups df Hm) as (groups & Hg & Hlen).
  specialize (H groups Hg). rewrite <- Hlen in H.
  apply Nat.leb_gt in H. rewrite H. reflexivity.
Qed.

(** The theorem on the two months of the sample consumption table. *)
Lemma forecast_needs_twelve_months_witness :
  Analysis.forecast_energy_trends Sample.consumption 12 = (None, None).
Proof.
  apply forecast_needs_twelve_months.
  intros groups H. vm_compute in H. injection H as <-. simpl. lia.
Defined.

(** ** AnomalyDetector *)

Lemma nth_error_combine (A B : Type) (a : list A) (b : list B) (i : nat) :
  nth_error (combine a b) i
  = match nth_error a i, nth_error b i with
    | Some x, Some y => Some (x, y)
    | _, _ => None
    end.
Proof.
  revert b i. induction a as [|x a IH]; intros [|y b] [|i]; simpl;
    try reflexivity.
  - destruct (nth_error a i); reflexivity.
  - apply IH.
Qed.

Lemma nth_error_map_combine (A B C : Type) (f : A * B -> C) (a : list A)
    (b : list B) (i : nat) (z : C) :
  nth_error (map f (combine a b)) i = Some z ->
  exists x y, nth_error a i = Some x /\ nth_error b i = Some y /\ z = f (x, y).
Proof.
  rewrite nth_error_map, nth_error_combine.
  destruct (nth_error a i) as [x|]; [|discriminate].
  destruct (nth_error b i) as [y|]; [|discriminate].
  simpl. intros H. injection H as <-. exists x, y. auto.
Qed.

Lemma nth_error_map_seq (A : Type) (g : nat -> A) (n i : nat) (z : A) :
  nth_error (map g (seq 0 n)) i = Some z -> z = g i.
Proof.
  rewrite nth_error_map.
  destruct (nth_error (seq 0 n) i) as [k|] eqn:E; [|discriminate].
  simpl. intros H. injection H as <-.
  assert (Hi : (i < List.length (seq 0 n))%nat)
    by (apply nth_error_Some; rewrite E; discriminate).
  rewrite length_seq in Hi.
  rewrite (nth_error_nth' _ 0%nat) in E by (rewrite length_seq; exact Hi).
  rewrite seq_nth in E by exact Hi. injection E as <-. reflexivity.
Qed.

Lemma numbers_length (s : Series) : (List.length (numbers s) <= List.length s)%nat.
Proof.
  induction s as [|c s IH]; simpl; [lia|].
  destruct (number_of c); simpl; lia.
Qed.

Lemma trailing_length (window i : nat) (s : Series) :
  (List.length (Analysis.trailing window i s) <= i + 1)%nat.
Proof.
  unfold Analysis.trailing. rewrite length_skipn, length_firstn. lia.
Qed.

(** The rolling mean is missing on the first [window - 1] rows. *)
Lemma window_mean_early (window i : nat) (s : Series) :
  (i + 1 < window)%nat ->
  Analysis.window_mean window (Analysis.trailing window i s) = NaN.
Proof.
  intros Hi. unfold Analysis.window_mean.
  pose proof (numbers_length (Analysis.trailing window i s)) as Hn.
  pose proof (trailing_length window i s) as Ht.
  destruct (Nat.leb_spec window (List.length (numbers (Analysis.trailing window i s))));
    [lia|reflexivity].
Qed.

Lemma rolling_Ok (stat : nat -> Series -> cell) (s : Series) (window : Z) (out : Series) :
  Analysis.rolling stat s window = Ok out ->
  (0 <= window)%Z /\
  out = map (fun i => stat (Z.to_nat window) (Analysis.trailing (Z.to_nat window) i s))
            (seq 0 (List.length s)).
Proof.
  unfold Analysis.rolling.
  destruct (Z.ltb_spec window 0) as [|Hw]; [discriminate|].
  destruct (forallb is_number s); [|discriminate].
  intros H. injection H as <-. split; [exact Hw|reflexivity].
Qed.

Lemma cell_gt_NaN (c : cell) : cell_gt c NaN = false.
Proof. reflexivity. Qed.

Lemma cell_lt_NaN (c : cell) : cell_lt c NaN = false.
Proof. unfold cell_lt. destruct (number_of c); reflexivity. Qed.

(** The shape of the flags: row [i] is flagged when its value is above
    the upper bound or below the lower bound of that row. *)
Lemma anomaly_flags_Ok (sqrt : Q -> Q) (df : DataFrame) (column : string)
    (window : Z) (threshold : Q) (flags : list bool) :
  Analysis.anomaly_flags sqrt df column window threshold = Ok flags ->
  exists values : Series,
    getitem df column = Ok values /\ (0 <= window)%Z /\
    forall i, nth_error flags i = Some true ->
      exists v s,
        nth_error values i = Some v /\
        let w := Analysis.trailing (Z.to_nat window) i values in
        let mean := Analysis.window_mean (Z.to_nat window) w in
        let spread := cell_binop Qmult s (Num threshold) in
        s = Analysis.window_std sqrt (Z.to_nat window) w /\
        (cell_gt v (cell_binop Qplus mean spread) = true \/
         cell_lt v (cell_binop Qminus mean spread) = true).
Proof.
  unfold Analysis.anomaly_flags. intros H.
  apply bind_Ok_inv in H. destruct H as (values & Hv & H).
  apply bind_Ok_inv in H. destruct H as (rmean & Hmean & H).
  rewrite Hv in H. cbn [bind] in H.
  apply bind_Ok_inv in H. destruct H as (rstd & Hstd & H).
  injection H as <-.
  apply rolling_Ok in Hmean. destruct Hmean as [Hw ->].
  apply rolling_Ok in Hstd. destruct Hstd as [_ ->].
  exists values. split; [exact Hv|]. split; [exact Hw|].
  intros i Hi. unfold Analysis.mask_or in Hi.
  apply nth_error_map_combine in Hi. destruct Hi as (a & b & Ha & Hb & Hab).
  apply nth_error_map_combine in Ha. destruct Ha as (v & u & Hv1 & Hu & ->).
  apply nth_error_map_combine in Hb. destruct Hb as (v' & l & Hv2 & Hl & ->).
  rewrite Hv1 in Hv2. injection Hv2 as <-.
  unfold Analysis.series_map2 in Hu, Hl.
  apply nth_error_map_combine in Hu. destruct Hu as (m & sp & Hm & Hsp & ->).
  apply nth_error_map_combine in Hl. destruct Hl as (m' & sp' & Hm' & Hsp' & ->).
  rewrite Hm in Hm'. injection Hm' as <-.
  rewrite Hsp in Hsp'. injection Hsp' as <-.
  apply nth_error_map_seq in Hm. subst m.
  rewrite nth_error_map in Hsp.
  destruct (nth_error _ i) as [s|] eqn:Hs in Hsp; [|discriminate].
  simpl in Hsp. injection Hsp as <-.
  apply nth_error_map_seq in Hs.
  exists v, s. split; [exact Hv1|]. cbv zeta. split; [exact Hs|].
  simpl in Hab. symmetry in Hab. apply orb_true_iff in Hab. exact Hab.
Qed.

(** No flag on the first [window - 1] rows. *)
Lemma anomaly_flags_early (sqrt : Q -> Q) (df : DataFrame) (column : string)
    (window : Z) (threshold : Q) (flags : list bool) (i : nat) :
  Analysis.anomaly_flags sqrt df column window threshold = Ok flags ->
  (Z.of_nat i < window - 1)%Z ->
  nth_error flags i <> Some true.
Proof.
  intros H Hi Hflag.
  destruct (anomaly_flags_Ok _ _ _ _ _ H) as (values & _ & Hw & Hshape).
  destruct (Hshape i Hflag) as (v & s & _ & _ & Hbound).
  rewrite window_mean_early in Hbound by lia.
  destruct Hbound as [Hb|Hb].
  - unfold cell_binop in Hb. simpl in Hb. rewrite cell_gt_NaN in Hb. discriminate.
  - unfold cell_binop in Hb. simpl in Hb. rewrite cell_lt_NaN in Hb. discriminate.
Qed.

Lemma cell_at_set_cell (j : nat) (x : cell) (cells : list cell) (l : Z) :
  cell_at j (l, set_cell j x cells) = x.
Proof.
  unfold cell_at. simpl. revert cells.
  induction j as [|j IH]; intros [|y cells]; simpl; auto.
Qed.

Lemma column_position_app (name : string) (cols : list string) :
  column_position name cols = None ->
  column_position name (cols ++ [name]) = Some (List.length cols).
Proof.
  induction cols as [|c cols IH]; simpl.
  - intros _. rewrite String.eqb_refl. reflexivity.
  - destruct (String.eqb c name); [discriminate|].
    destruct (column_position name cols); [discriminate|].
    intros _. rewrite IH by reflexivity. reflexivity.
Qed.

Lemma set_column_shape (df : DataFrame) (name : string) (values : Series) :
  exists j,
    column_position name (columns (set_column df name values)) = Some j /\
    rows (set_column df name values)
    = map (fun rv : row * cell =>
             (fst (fst rv), set_cell j (snd rv) (snd (fst rv))))
          (combine (rows df) values).
Proof.
  unfold set_column.
  destruct (column_position name (columns df)) as [j|] eqn:E.
  - exists j. split; [exact E|reflexivity].
  - exists (List.length (columns df)). split; [|reflexivity].
    simpl. apply column_position_app. exact E.
Qed.

Lemma select_nil (A : Type) (l : list A) : select l [] = [].
Proof. destruct l; reflexivity. Qed.

(** The labels of the rows the detector returns: those of the flagged
    positions. *)
Lemma flagged_labels (j : nat) (l : list row) (flags : list bool) :
  let marked :=
    map (fun rv : row * cell =>
           (fst (fst rv), set_cell j (snd rv) (snd (fst rv))))
        (combine l (map Bool flags)) in
  map fst (select marked (map Analysis.truth (map (cell_at j) marked)))
  = select (map fst l) flags.
Proof.
  cbv zeta. revert flags.
  induction l as [|r l IH]; intros [|b flags]; simpl; try reflexivity.
  rewrite cell_at_set_cell. simpl. destruct b; simpl; rewrite IH; reflexivity.
Qed.

Lemma identify_anomalies_labels (sqrt : Q -> Q) (df : DataFrame) (column : string)
    (window : Z) (threshold : Q) :
  exists flags : list bool,
    (Analysis.anomaly_flags sqrt df column window threshold = Ok flags \/ flags = []) /\
    labels (Analysis.identify_anomalies sqrt df column window threshold)
    = select (labels df) flags.
Proof.
  unfold Analysis.identify_anomalies, Analysis.identify_anomalies_body.
  destruct (Analysis.anomaly_flags sqrt df column window threshold) as [flags|e] eqn:Hf;
    cbn [bind].
  - exists flags. split; [left; reflexivity|].
    destruct (set_column_shape df "anomaly" (map Bool flags)) as (j & Hj & Hrows).
    unfold getitem. rewrite Hj. cbn [bind].
    unfold labels, boolean_index. cbn [rows]. rewrite Hrows.
    apply flagged_labels.
  - exists []. split; [right; reflexivity|].
    unfold labels. rewrite select_nil. reflexivity.
Qed.

Lemma In_select (A : Type) (x : A) (l : list A) (mask : list bool) :
  In x (select l mask) ->
  exists k, nth_error l k = Some x /\ nth_error mask k = Some true.
Proof.
  revert mask. induction l as [|y l IH]; intros [|b mask]; simpl;
    try contradiction.
  destruct b; simpl.
  - intros [->|H].
    + exists 0%nat. auto.
    + destruct (IH _ H) as (k & Hk & Hm). exists (S k). auto.
  - intros H. destruct (IH _ H) as (k & Hk & Hm). exists (S k). auto.
Qed.

(** C4.  The rows the AnomalyDetector returns are the rows of its input
    at the flagged positions, and no position below [window - 1] is ever
    flagged, whatever the series, the window and the threshold: there the
    rolling mean is undefined.  So, in a table whose index labels are
    distinct, no row with a 0-based position below [window - 1] is in the
    output. *)
Theorem no_anomaly_before_window
    (sqrt : Q -> Q) (df : DataFrame) (column : string) (window : Z)
    (threshold : Q) :
  exists flags : list bool,
    labels (Analysis.identify_anomalies sqrt df column window threshold)
    = select (labels df) flags /\
    (forall i, (Z.of_nat i < window - 1)%Z -> nth_error flags i <> Some true) /\
    (NoDup (labels df) ->
     forall i r, nth_error (rows df) i = Some r ->
                 (Z.of_nat i < window - 1)%Z ->
                 ~ In (fst r)
                      (labels (Analysis.identify_anomalies sqrt df column
                                 window threshold))).
Proof.
  destruct (identify_anomalies_labels sqrt df column window threshold)
    as (flags & Hflags & Hlabels).
  assert (Hearly : forall i, (Z.of_nat i < window - 1)%Z ->
                             nth_error flags i <> Some true).
  { intros i Hi. destruct Hflags as [Hf| ->].
    - eapply anomaly_flags_early; eassumption.
    - destruct i; discriminate. }
  exists flags. split; [exact Hlabels|]. split; [exact Hearly|].
  intros Hdup i r Hr Hi Hin. rewrite Hlabels in Hin.
  apply In_select in Hin. destruct Hin as (k & Hk & Hm).
  assert (Hri : nth_error (labels df) i = Some (fst r))
    by (unfold labels; apply map_nth_error; exact Hr).
  assert (k = i).
  { apply (proj1 (NoDup_nth_error (labels df)) Hdup).
    - apply nth_error_Some. rewrite Hk. discriminate.
    - rewrite Hk, Hri. reflexivity. }
  subst k. exact (Hearly i Hi Hm).
Qed.

(** The theorem on the trend table with a jump, for a window of 3 rows:
    the second row is not in the output. *)
Lemma no_anomaly_before_window_witness :
  ~ In 1%Z (labels (Analysis.identify_anomalies Sample.sqrt_3
                      Sample.trends_with_jump "Consumption" 3 1)).
Proof.
  destruct (no_anomaly_before_window Sample.sqrt_3 Sample.trends_with_jump
              "Consumption" 3 1) as (flags & _ & _ & H).
  refine (H _ 1%nat (1%Z, [Num 2; Num 10; Num 5]) eq_refl _).
  - unfold labels. simpl. repeat constructor; simpl; intuition discriminate.
  - reflexivity.
Defined.

(** *** Constant series *)

Lemma In_firstn (A : Type) (x : A) (n : nat) (l : list A) :
  In x (firstn n l) -> In x l.
Proof.
  revert l. induction n as [|n IH]; intros [|y l]; simpl; try contradiction.
  intros [H|H]; [left; exact H|right; apply IH; exact H].
Qed.

Lemma In_skipn (A : Type) (x : A) (n : nat) (l : list A) :
  In x (skipn n l) -> In x l.
Proof.
  revert l. induction n as [|n IH]; intros [|y l]; simpl; try contradiction;
    auto.
Qed.

Lemma In_trailing (x : cell) (window i : nat) (s : Series) :
  In x (Analysis.trailing window i s) -> In x s.
Proof.
  unfold Analysis.trailing. intros H.
  apply In_skipn in H. apply In_firstn in H. exact H.
Qed.

Lemma numbers_constant (s : Series) (c : cell) (q : Q) :
  (forall x, In x s -> x = c) -> number_of c = Some q ->
  forall y, In y (numbers s) -> y = q.
Proof.
  intros Hs Hc. induction s as [|x s IH]; simpl; [contradiction|].
  rewrite (Hs x (or_introl eq_refl)), Hc. simpl.
  intros y [<-|Hy]; [reflexivity|].
  apply IH; [|exact Hy]. intros z Hz. apply Hs. right. exact Hz.
Qed.

Lemma Qsum_constant (l : list Q) (q : Q) :
  (forall y, In y l -> y = q) ->
  Qsum l == inject_Z (Z.of_nat (List.length l)) * q.
Proof.
  induction l as [|x l IH]; intros H.
  - simpl. ring.
  - cbn [Qsum fold_right List.length].
    change (fold_right Qplus 0 l) with (Qsum l).
    rewrite IH by (intros y Hy; apply H; right; exact Hy).
    rewrite (H x (or_introl eq_refl)).
    rewrite Nat2Z.inj_succ. unfold Z.succ. rewrite inject_Z_plus. ring.
Qed.

(** On a window of equal numbers the mean, when it is defined, is that
    number. *)
Lemma window_mean_constant (window : nat) (w : Series) (q : Q) :
  (forall y, In y (numbers w) -> y = q) ->
  Analysis.window_mean window w = NaN \/
  exists m, Analysis.window_mean window w = Num m /\ m == q.
Proof.
  intros H. unfold Analysis.window_mean.
  destruct ((window <=? List.length (numbers w))%nat
            && (0 <? List.length (numbers w))%nat) eqn:E; [|left; reflexivity].
  right. eexists. split; [reflexivity|].
  apply andb_true_iff in E. destruct E as [_ E]. apply Nat.ltb_lt in E.
  rewrite (Qsum_constant _ H).
  assert (Hn : ~ inject_Z (Z.of_nat (List.length (numbers w))) == 0).
  { intros Hz. unfold Qeq in Hz. simpl in Hz. lia. }
  field. exact Hn.
Qed.

Lemma window_std_nonneg (sqrt : Q -> Q) (window : nat) (w : Series) :
  (forall q, 0 <= sqrt q) ->
  Analysis.window_std sqrt window w = NaN \/
  exists s, Analysis.window_std sqrt window w = Num s /\ 0 <= s.
Proof.
  intros H. unfold Analysis.window_std.
  destruct ((Nat.max window 1 <=? List.length (numbers w))%nat
            && (1 <? List.length (numbers w))%nat); [|left; reflexivity].
  right. eexists. split; [reflexivity|]. apply H.
Qed.

Lemma cell_above_false (c : cell) (q m s t : Q) :
  number_of c = Some q -> m == q -> 0 <= s -> 0 < t ->
  cell_gt c (cell_binop Qplus (Num m) (cell_binop Qmult (Num s) (Num t))) = false.
Proof.
  intros Hc Hm Hs Ht. unfold cell_gt, cell_lt, cell_binop. simpl. rewrite Hc.
  unfold Qlt_bool. apply negb_false_iff. apply Qle_bool_iff.
  rewrite <- Hm. assert (0 <= s * t) by (apply Qmult_le_0_compat; lra). lra.
Qed.

Lemma cell_below_false (c : cell) (q m s t : Q) :
  number_of c = Some q -> m == q -> 0 <= s -> 0 < t ->
  cell_lt c (cell_binop Qminus (Num m) (cell_binop Qmult (Num s) (Num t))) = false.
Proof.
  intros Hc Hm Hs Ht. unfold cell_lt, cell_binop. simpl. rewrite Hc.
  unfold Qlt_bool. apply negb_false_iff. apply Qle_bool_iff.
  rewrite <- Hm. assert (0 <= s * t) by (apply Qmult_le_0_compat; lra). lra.
Qed.

Lemma cell_gt_no_number (c u : cell) : number_of c = None -> cell_gt c u = false.
Proof.
  intros H. unfold cell_gt, cell_lt. rewrite H. destruct (number_of u); reflexivity.
Qed.

Lemma cell_lt_no_number (c u : cell) : number_of c = None -> cell_lt c u = false.
Proof. intros H. unfold cell_lt. rewrite H. reflexivity. Qed.

(** No flag on a constant series. *)
Lemma anomaly_flags_constant (sqrt : Q -> Q) (df : DataFrame) (column : string)
    (window : Z) (threshold : Q) (flags : list bool) (c : cell) :
  (forall q, 0 <= sqrt q) ->
  (forall values, getitem df column = Ok values -> forall x, In x values -> x = c) ->
  0 < threshold ->
  Analysis.anomaly_flags sqrt df column window threshold = Ok flags ->
  forall i, nth_error flags i <> Some true.
Proof.
  intros Hsqrt Hconst Ht H i Hflag.
  destruct (anomaly_flags_Ok _ _ _ _ _ H) as (values & Hv & _ & Hshape).
  destruct (Hshape i Hflag) as (v & s & Hvi & Hs & Hbound).
  specialize (Hconst values Hv).
  assert (v = c) by (apply Hconst; eapply nth_error_In; exact Hvi). subst v.
  destruct (number_of c) as [q|] eqn:Hc.
  - set (w := Analysis.trailing (Z.to_nat window) i values) in *.
    assert (Hw : forall y, In y (numbers w) -> y = q).
    { apply (numbers_constant w (c := c)); [|exact Hc].
      intros x Hx. apply Hconst. apply In_trailing in Hx. exact Hx. }
    destruct (window_mean_constant (Z.to_nat window) w Hw) as [Hm|(m & Hm & Hmq)];
      rewrite Hm in Hbound.
    + destruct Hbound as [Hb|Hb]; unfold cell_binop in Hb; simpl in Hb.
      * rewrite cell_gt_NaN in Hb. discriminate.
      * rewrite cell_lt_NaN in Hb. discriminate.
    + destruct (@window_std_nonneg sqrt (Z.to_nat window) w Hsqrt)
        as [Hn|(sv & Hsv & Hpos)];
        rewrite Hs in Hbound; [rewrite Hn in Hbound|rewrite Hsv in Hbound].
      * destruct Hbound as [Hb|Hb]; unfold cell_binop in Hb; simpl in Hb.
        -- rewrite cell_gt_NaN in Hb. discriminate.
        -- rewrite cell_lt_NaN in Hb. discriminate.
      * destruct Hbound as [Hb|Hb].
        -- rewrite (cell_above_false c Hc Hmq Hpos Ht) in Hb. discriminate.
        -- rewrite (cell_below_false c Hc Hmq Hpos Ht) in Hb. discriminate.
  - destruct Hbound as [Hb|Hb].
    + rewrite cell_gt_no_number in Hb by exact Hc. discriminate.
    + rewrite cell_lt_no_number in Hb by exact Hc. discriminate.
Qed.

Lemma select_none (A : Type) (l : list A) (mask : list bool) :
  (forall i, nth_error mask i <> Some true) -> select l mask = [].
Proof.
  revert mask. induction l as [|x l IH]; intros [|b mask] H; simpl;
    try reflexivity.
  destruct b.
  - exfalso. apply (H 0%nat). reflexivity.
  - apply IH. intros i. apply (H (S i)).
Qed.

(** C9.  On a constant series (every cell of the column is the same
    value), of any length, the AnomalyDetector returns no row, for every
    window and every threshold above 0.  The square root is the one the
    detector is run with; all that is asked of it is that it is never
    negative. *)
Theorem constant_series_no_anomaly
    (sqrt : Q -> Q) (df : DataFrame) (column : string) (window : Z)
    (threshold : Q) (c : cell) :
  (forall q, 0 <= sqrt q) ->
  (forall values, getitem df column = Ok values ->
                  forall x, In x values -> x = c) ->
  0 < threshold ->
  rows (Analysis.identify_anomalies sqrt df column window threshold) = [].
Proof.
  intros Hsqrt Hconst Ht.
  destruct (identify_anomalies_labels sqrt df column window threshold)
    as (flags & Hflags & Hlabels).
  apply (map_eq_nil fst). fold (labels (Analysis.identify_anomalies sqrt df column
                                          window threshold)).
  rewrite Hlabels. apply select_none.
  destruct Hflags as [Hf| ->].
  - eapply anomaly_flags_constant; eassumption.
  - intros [|i]; discriminate.
Qed.

Lemma sqrt_3_nonneg (q : Q) : 0 <= Sample.sqrt_3 q.
Proof.
  unfold Sample.sqrt_3.
  unfold Qdiv. apply Qmult_le_0_compat.
  - unfold Qle. simpl.
    apply Z.mul_nonneg_nonneg; [apply Z.sqrt_nonneg|lia].
  - discriminate.
Qed.

(** The theorem on the constant trend table, with the square root to
    three decimals, a window of 3 rows and a threshold of 2.5. *)
Lemma constant_series_no_anomaly_witness :
  rows (Analysis.identify_anomalies Sample.sqrt_3 Sample.trends_constant
          "Consumption" 3 2.5) = [].
Proof.
  apply (@constant_series_no_anomaly Sample.sqrt_3 Sample.trends_constant
           "Consumption" 3 2.5 (Num 10)).
  - exact sqrt_3_nonneg.
  - intros values H. vm_compute in H. injection H as <-.
    simpl. intuition (symmetry; assumption).
  - reflexivity.
Defined.

(** ** MetricsSummarizer *)

Ltac bind_inv H :=
  repeat (let v := fresh "v" in
          let E := fresh "E" in
          apply bind_Ok_inv in H; destruct H as (v & E & H)).

(** What the body of the summarizer returns when no step fails: the nine
    metrics, the efficiency ratio being guarded by [total_consumption > 0]. *)
Lemma analyze_energy_trends_body_Ok (gen cons : DataFrame) (m : Analysis.metrics) :
  Analysis.analyze_energy_trends_body gen cons = Ok m ->
  map fst m = metric_names /\
  exists tc tg,
    total_consumption_of cons = Ok tc /\
    total_generation_of gen = Ok tg /\
    Analysis.get m "total_consumption" = Some (Analysis.MCell (Num tc)) /\
    Analysis.get m "total_generation" = Some (Analysis.MCell (Num tg)) /\
    Analysis.get m "efficiency_ratio"
    = Some (Analysis.MCell (Num (if Qlt_bool 0 tc then tg / tc * 100 else 0))).
Proof.
  unfold Analysis.analyze_energy_trends_body. cbv zeta. intros H.
  apply bind_Ok_inv in H. destruct H as (load & Hload & H).
  apply bind_Ok_inv in H. destruct H as (tc & Htc & H).
  apply bind_Ok_inv in H. destruct H as (tg & Htg & H).
  bind_inv H. injection H as <-.
  split; [reflexivity|].
  exists tc, tg. repeat split.
  - unfold total_consumption_of. rewrite Hload. exact Htc.
  - exact Htg.
Qed.

(** C7.  When a step of the MetricsSummarizer fails, the result is the
    empty mapping: the exception is not propagated.  And a result is never
    partly filled: it is empty or it has all nine metrics. *)
Theorem analyze_energy_trends_all_or_nothing (gen cons : DataFrame) :
  (forall e, Analysis.analyze_energy_trends_body gen cons = Raise e ->
             Analysis.analyze_energy_trends gen cons = []) /\
  (Analysis.analyze_energy_trends gen cons = [] \/
   map fst (Analysis.analyze_energy_trends gen cons) = metric_names).
Proof.
  unfold Analysis.analyze_energy_trends.
  destruct (Analysis.analyze_energy_trends_body gen cons) as [m|e] eqn:H.
  - split; [discriminate|]. right.
    apply (analyze_energy_trends_body_Ok gen cons H).
  - split; [reflexivity|]. left. reflexivity.
Qed.

(** The theorem on a consumption table whose load column holds text: the
    column is not numeric, the lookup fails with a [KeyError], and the
    result is empty. *)
Lemma analyze_energy_trends_all_or_nothing_witness :
  Analysis.analyze_energy_trends Sample.generation_january Sample.consumption_text
  = [].
Proof.
  apply (proj1 (analyze_energy_trends_all_or_nothing Sample.generation_january
                  Sample.consumption_text)
           (KeyError Analysis.total_load)).
  vm_compute. reflexivity.
Defined.

(** C5, amended.  When the MetricsSummarizer reports an efficiency ratio,
    it is [total_generation / total_consumption * 100] if the total
    consumption is above 0, and 0 otherwise: a total consumption of 0 (or
    below) gives the ratio 0 and no error. *)
Theorem efficiency_ratio_guarded (gen cons : DataFrame) (ratio : Analysis.metric) :
  Analysis.get (Analysis.analyze_energy_trends gen cons) "efficiency_ratio"
  = Some ratio ->
  exists tc tg,
    total_consumption_of cons = Ok tc /\
    total_generation_of gen = Ok tg /\
    (0 < tc -> ratio = Analysis.MCell (Num (tg / tc * 100))) /\
    (tc <= 0 -> ratio = Analysis.MCell (Num 0)).
Proof.
  unfold Analysis.analyze_energy_trends.
  destruct (Analysis.analyze_energy_trends_body gen cons) as [m|e] eqn:H;
    [|discriminate].
  destruct (analyze_energy_trends_body_Ok gen cons H)
    as (_ & tc & tg & Htc & Htg & _ & _ & Hratio).
  rewrite Hratio. intros Heq. injection Heq as <-.
  exists tc, tg. split; [exact Htc|]. split; [exact Htg|].
  unfold Qlt_bool. split; intros Hc.
  - destruct (Qle_bool tc 0) eqn:E; [|reflexivity].
    apply Qle_bool_iff in E. lra.
  - apply Qle_bool_iff in Hc. rewrite Hc. reflexivity.
Qed.

(** The theorem on a month with a load of zero: the ratio is 0. *)
Lemma efficiency_ratio_guarded_witness :
  Analysis.get
    (Analysis.analyze_energy_trends Sample.generation_january Sample.consumption_zero)
    "efficiency_ratio"
  = Some (Analysis.MCell (Num 0)) /\
  exists tc tg,
    total_consumption_of Sample.consumption_zero = Ok tc /\
    total_generation_of Sample.generation_january = Ok tg /\
    (0 < tc -> Analysis.MCell (Num 0) = Analysis.MCell (Num (tg / tc * 100))) /\
    (tc <= 0 -> Analysis.MCell (Num 0) = Analysis.MCell (Num 0)).
Proof.
  split; [vm_compute; reflexivity|].
  apply (@efficiency_ratio_guarded Sample.generation_january Sample.consumption_zero
           (Analysis.MCell (Num 0))).
  vm_compute. reflexivity.
Defined.

(** C5 as stated fails on a negative total consumption: with a load of
    -100 and a generation of 50 the summarizer reports the ratio 0, not
    [50 / (-100) * 100]. *)
Lemma efficiency_ratio_negative_consumption :
  total_consumption_of Sample.consumption_negative = Ok (-100) /\
  total_generation_of Sample.generation_january = Ok 50 /\
  Analysis.get
    (Analysis.analyze_energy_trends Sample.generation_january
       Sample.consumption_negative)
    "efficiency_ratio"
  = Some (Analysis.MCell (Num 0)) /\
  ~ 0 == 50 / (-100) * 100.
Proof.
  repeat split; try (vm_compute; reflexivity).
  intros H. vm_compute in H. discriminate H.
Qed.

(** ** Aggregator *)

(** The buckets of the two sample tables: the consumption table has the
    periods (2022, 1) and (2023, 4), the generation table only (2023, 4). *)
Lemma sample_buckets :
  option_map (map fst)
    (match groupby Sample.consumption_two_periods ["Year"; "Month"]%string with
     | Ok groups => Some groups
     | Raise _ => None
     end)
  = Some [[2022; 1]; [2023; 4]] /\
  option_map (map fst)
    (match groupby Sample.generation_second_period ["Year"; "Month"]%string with
     | Ok groups => Some groups
     | Raise _ => None
     end)
  = Some [[2023; 4]].
Proof. split; vm_compute; reflexivity. Qed.

(** C1 does not hold on the code.  The trend table pairs the buckets of
    the two tables by their position, not by their (year, period) key:
    with consumption in January 2022 and April 2023 and generation in
    April 2023 only, the row of the first period (January 2022, 2022 Q1,
    2022) carries the generation of April 2023, 60, where the
    specification asks for [NaN]; and the row of April 2023 carries [NaN].
    This is so in the monthly, the quarterly and the yearly view. *)
Theorem trend_rows_paired_by_position :
  Analysis.prepare_trends_data Sample.consumption_two_periods
    Sample.generation_second_period ["Solar"%string] "Monthly"
  = Ok (mkDataFrame ["Date"; "Consumption"; "Generation"]%string
          [(0%Z, [Num (inject_Z (days_from_civil 2022 1 1)); Num 100; Num 60]);
           (1%Z, [Num (inject_Z (days_from_civil 2023 4 1)); Num 120; NaN])]) /\
  Analysis.prepare_trends_data Sample.consumption_two_periods
    Sample.generation_second_period ["Solar"%string] "Quarterly"
  = Ok (mkDataFrame ["Date"; "Consumption"; "Generation"]%string
          [(0%Z, [Str "2022 Q1"; Num 100; Num 60]);
           (1%Z, [Str "2023 Q2"; Num 120; NaN])]) /\
  Analysis.prepare_trends_data Sample.consumption_two_periods
    Sample.generation_second_period ["Solar"%string] "Yearly"
  = Ok (mkDataFrame ["Date"; "Consumption"; "Generation"]%string
          [(0%Z, [Str "2022"; Num 100; Num 60]);
           (1%Z, [Str "2023"; Num 120; NaN])]).
Proof. repeat split; vm_compute; reflexivity. Qed.

(** The daily view guards the pairing: when the two tables do not have
    the same number of rows, the generation column is [NaN] throughout. *)
Lemma daily_view_guards_length :
  Analysis.prepare_trends_data Sample.consumption_two_periods
    Sample.generation_second_period ["Solar"%string] "Daily"
  = Ok (mkDataFrame ["Date"; "Consumption"; "Generation"]%string
          [(0%Z, [Num (inject_Z (days_from_civil 2022 1 1)); Num 100; NaN]);
           (1%Z, [Num (inject_Z (days_from_civil 2023 4 1)); Num 120; NaN])]).
Proof. vm_compute. reflexivity. Qed.

(** The end-to-end scenario of the specification: January and February
    2023, filtered to 2023 and the months 1 and 2, aggregated by month;
    the efficiency ratio is 50. *)
Lemma end_to_end_scenario :
  (out <- Loader.filter_data Sample.generation Sample.consumption
            (2023, 2023)%Z [1; 2]%Z ["Solar"%string] ;;
   Analysis.prepare_trends_data (snd out) (fst out) ["Solar"%string] "Monthly")
  = Ok (mkDataFrame ["Date"; "Consumption"; "Generation"]%string
          [(0%Z, [Num (inject_Z (days_from_civil 2023 1 1)); Num 100; Num 50]);
           (1%Z, [Num (inject_Z (days_from_civil 2023 2 1)); Num 120; Num 60])]) /\
  exists ratio,
    Analysis.get (Analysis.analyze_energy_trends Sample.generation Sample.consumption)
      "efficiency_ratio" = Some (Analysis.MCell (Num ratio)) /\
    ratio == 50.
Proof.
  split; [vm_compute; reflexivity|].
  eexists. split; [vm_compute; reflexivity|]. reflexivity.
Qed.

(** C10 as stated fails where the Filter raises: the two definitions are
    not equal as functions.  On a generation table without a year and a
    consumption table without a month, the earlier one raises the
    [KeyError] of the year, the later one that of the month. *)
Lemma filter_data_errors_differ :
  Loader.filter_data_earlier (mkDataFrame ["Month"%string] [])
    (mkDataFrame ["Year"%string] []) (2023, 2023)%Z [] []
  = Raise (KeyError "Year") /\
  Loader.filter_data (mkDataFrame ["Month"%string] [])
    (mkDataFrame ["Year"%string] []) (2023, 2023)%Z [] []
  = Raise (KeyError "Month") /\
  Loader.filter_data_earlier (mkDataFrame ["Month"%string] [])
    (mkDataFrame ["Year"%string] []) (2023, 2023)%Z [] []
  <> Loader.filter_data (mkDataFrame ["Month"%string] [])
       (mkDataFrame ["Year"%string] []) (2023, 2023)%Z [] [].
Proof.
  split; [reflexivity|]. split; [reflexivity|].
  intros H. vm_compute in H. discriminate H.
Qed.

(** * Further properties *)

(** ** Filter: composition and labels *)

Lemma filter_filter (A : Type) (f g : A -> bool) (l : list A) :
  filter g (filter f l) = filter (fun x => f x && g x) l.
Proof.
  induction l as [|x l IH]; simpl; [reflexivity|].
  destruct (f x); simpl; [destruct (g x)|]; rewrite IH; reflexivity.
Qed.

Lemma cell_ge_max (a b : Z) (c : cell) :
  cell_ge (Z.max a b) c = cell_ge a c && cell_ge b c.
Proof.
  unfold cell_ge. destruct (number_of c) as [q|]; [|reflexivity].
  apply eq_true_iff_eq. rewrite andb_true_iff, !Qle_bool_iff.
  destruct (Z.max_spec a b) as [[H ->]|[H ->]]; split.
  - intros Hb. split; [|exact Hb].
    apply Qle_trans with (inject_Z b); [|exact Hb]. rewrite <- Zle_Qle. lia.
  - intros [_ Hb]. exact Hb.
  - intros Ha. split; [exact Ha|].
    apply Qle_trans with (inject_Z a); [|exact Ha]. rewrite <- Zle_Qle. lia.
  - intros [Ha _]. exact Ha.
Qed.

Lemma cell_le_min (a b : Z) (c : cell) :
  cell_le (Z.min a b) c = cell_le a c && cell_le b c.
Proof.
  unfold cell_le. destruct (number_of c) as [q|]; [|reflexivity].
  apply eq_true_iff_eq. rewrite andb_true_iff, !Qle_bool_iff.
  destruct (Z.min_spec a b) as [[H ->]|[H ->]]; split.
  - intros Ha. split; [exact Ha|].
    apply Qle_trans with (inject_Z a); [exact Ha|]. rewrite <- Zle_Qle. lia.
  - intros [Ha _]. exact Ha.
  - intros Hb. split; [|exact Hb].
    apply Qle_trans with (inject_Z b); [exact Hb|]. rewrite <- Zle_Qle. lia.
  - intros [_ Hb]. exact Hb.
Qed.

Lemma cell_in_both (a b : list Z) (c : cell) :
  cell_in (both_months a b) c = cell_in a c && cell_in b c.
Proof.
  apply eq_true_iff_eq. rewrite andb_true_iff, !cell_in_spec. split.
  - intros (q & Hq & k & Hk & Heq). unfold both_months in Hk.
    apply filter_In in Hk. destruct Hk as [Ha Hb].
    apply existsb_exists in Hb. destruct Hb as (k' & Hb & Hkk).
    apply Z.eqb_eq in Hkk. subst k'.
    split; exists q; (split; [exact Hq|]); exists k; auto.
  - intros [(q & Hq & k & Hk & Heq) (q' & Hq' & k' & Hk' & Heq')].
    rewrite Hq in Hq'. injection Hq' as <-.
    assert (k = k').
    { apply inject_Z_injective. rewrite <- Heq, <- Heq'. reflexivity. }
    subst k'. exists q. split; [exact Hq|]. exists k. split; [|exact Heq].
    unfold both_months. apply filter_In. split; [exact Hk|].
    apply existsb_exists. exists k. split; [exact Hk'|]. apply Z.eqb_refl.
Qed.

Lemma keeps_both (jy jm : nat) (y1 y2 : Z * Z) (m1 m2 : list Z) (r : row) :
  keeps jy jm (both_ranges y1 y2) (both_months m1 m2) r
  = keeps jy jm y1 m1 r && keeps jy jm y2 m2 r.
Proof.
  unfold keeps, both_ranges. simpl.
  rewrite cell_ge_max, cell_le_min, cell_in_both.
  destruct (cell_ge (fst y1) (cell_at jy r)), (cell_ge (fst y2) (cell_at jy r)),
    (cell_le (snd y1) (cell_at jy r)), (cell_le (snd y2) (cell_at jy r)),
    (cell_in m1 (cell_at jm r)), (cell_in m2 (cell_at jm r)); reflexivity.
Qed.

(** One table: a second selection on a selected table is the selection
    both have in common. *)
Lemma selection_mask_compose (t : DataFrame) (y1 y2 : Z * Z) (m1 m2 : list Z)
    (mask : list bool) :
  Loader.selection_mask t y1 m1 = Ok mask ->
  exists mask2 mask12,
    Loader.selection_mask (boolean_index t mask) y2 m2 = Ok mask2 /\
    Loader.selection_mask t (both_ranges y1 y2) (both_months m1 m2) = Ok mask12 /\
    boolean_index (boolean_index t mask) mask2 = boolean_index t mask12.
Proof.
  intros H. destruct (selection_mask_Ok _ _ _ H) as (jy & jm & Hy & Hm & Hnum & ->).
  exists (map (keeps jy jm y2 m2)
              (rows (boolean_index t (map (keeps jy jm y1 m1) (rows t))))),
         (map (keeps jy jm (both_ranges y1 y2) (both_months m1 m2)) (rows t)).
  split; [|split].
  - apply selection_mask_complete; simpl; auto.
    rewrite select_map. apply forallb_filter. exact Hnum.
  - apply selection_mask_complete; assumption.
  - unfold boolean_index; simpl. rewrite !select_map, filter_filter.
    f_equal. apply filter_ext. intros r. symmetry. apply keeps_both.
Qed.

(** X1.  Filtering a filtered pair of tables again, with another year
    range and other months, is filtering the original pair once with the
    intersection of the two year ranges and the months the two selections
    share.  So two filters commute and a narrower filter absorbs a wider
    one. *)
Theorem filter_data_compose
    (gen cons : DataFrame) (y1 y2 : Z * Z) (m1 m2 : list Z)
    (sources : list string) (out : DataFrame * DataFrame) :
  Loader.filter_data gen cons y1 m1 sources = Ok out ->
  Loader.filter_data (fst out) (snd out) y2 m2 sources
  = Loader.filter_data gen cons (both_ranges y1 y2) (both_months m1 m2) sources.
Proof.
  unfold Loader.filter_data at 1. intros H.
  apply bind_Ok_inv in H. destruct H as (cm & Hc & H).
  apply bind_Ok_inv in H. destruct H as (gm & Hg & H).
  injection H as <-. simpl fst. simpl snd.
  destruct (selection_mask_compose _ _ y2 _ m2 Hc) as (c2 & c12 & Hc2 & Hc12 & Ec).
  destruct (selection_mask_compose _ _ y2 _ m2 Hg) as (g2 & g12 & Hg2 & Hg12 & Eg).
  unfold Loader.filter_data.
  rewrite Hc2, Hc12; cbn [bind]. rewrite Hg2, Hg12; cbn [bind].
  rewrite Ec, Eg. reflexivity.
Qed.

(** The theorem on the sample tables: the year 2023 with January and
    February, then the years 2022 to 2023 with February and March. *)
Lemma filter_data_compose_witness :
  Loader.filter_data
    (mkDataFrame Sample.generation_columns
       [Sample.generation_row 0 2023 1 50; Sample.generation_row 1 2023 2 60])
    (mkDataFrame Sample.consumption_columns
       [Sample.consumption_row 0 2023 1 100; Sample.consumption_row 1 2023 2 120])
    (2022, 2023)%Z [2; 3]%Z []
  = Loader.filter_data Sample.generation Sample.consumption
      (both_ranges (2023, 2023)%Z (2022, 2023)%Z)
      (both_months [1; 2]%Z [2; 3]%Z) [].
Proof.
  apply (@filter_data_compose Sample.generation Sample.consumption
           (2023, 2023)%Z (2022, 2023)%Z [1; 2]%Z [2; 3]%Z []
           (mkDataFrame Sample.generation_columns
              [Sample.generation_row 0 2023 1 50; Sample.generation_row 1 2023 2 60],
            mkDataFrame Sample.consumption_columns
              [Sample.consumption_row 0 2023 1 100;
               Sample.consumption_row 1 2023 2 120])).
  reflexivity.
Defined.

Lemma NoDup_map_filter (A B : Type) (g : A -> B) (f : A -> bool) (l : list A) :
  NoDup (map g l) -> NoDup (map g (filter f l)).
Proof.
  induction l as [|x l IH]; simpl; intros H; [constructor|].
  inversion H as [|? ? Hx Hl]; subst.
  destruct (f x); simpl; [|apply IH; exact Hl].
  constructor; [|apply IH; exact Hl].
  intros Hin. apply Hx. apply in_map_iff in Hin. destruct Hin as (y & Hy & Hin).
  apply filter_In in Hin. apply in_map_iff. exists y. tauto.
Qed.

(** X2.  The Filter keeps the index labels of the rows it keeps: tables
    whose labels are distinct give tables whose labels are distinct (the
    rows are not renumbered). *)
Theorem filter_data_keeps_labels
    (gen cons : DataFrame) (year_range : Z * Z) (months : list Z)
    (sources : list string) (gen' cons' : DataFrame) :
  Loader.filter_data gen cons year_range months sources = Ok (gen', cons') ->
  (forall l, In l (labels gen') -> In l (labels gen)) /\
  (forall l, In l (labels cons') -> In l (labels cons)) /\
  (NoDup (labels gen) -> NoDup (labels gen')) /\
  (NoDup (labels cons) -> NoDup (labels cons')).
Proof.
  unfold Loader.filter_data. intros H.
  apply bind_Ok_inv in H. destruct H as (cm & Hc & H).
  apply bind_Ok_inv in H. destruct H as (gm & Hg & H).
  injection H as <- <-.
  destruct (selection_mask_Ok _ _ _ Hc) as (cy & cmo & _ & _ & _ & ->).
  destruct (selection_mask_Ok _ _ _ Hg) as (gy & gmo & _ & _ & _ & ->).
  unfold labels, boolean_index. cbn [rows]. rewrite !select_map.
  repeat split.
  - intros l Hl. apply in_map_iff in Hl. destruct Hl as (r & <- & Hr).
    apply filter_In in Hr. apply in_map. tauto.
  - intros l Hl. apply in_map_iff in Hl. destruct Hl as (r & <- & Hr).
    apply filter_In in Hr. apply in_map. tauto.
  - apply NoDup_map_filter.
  - apply NoDup_map_filter.
Qed.

(** The theorem on the sample tables, filtered to February 2023: the row
    kept has the label 1 it had before. *)
Lemma filter_data_keeps_labels_witness :
  (forall l, In l (labels (mkDataFrame Sample.consumption_columns
                             [Sample.consumption_row 1 2023 2 120])) ->
             In l (labels Sample.consumption)) /\
  NoDup (labels (mkDataFrame Sample.generation_columns
                   [Sample.generation_row 1 2023 2 60])).
Proof.
  destruct (@filter_data_keeps_labels Sample.generation Sample.consumption
              (2023, 2023)%Z [2%Z] []
              (mkDataFrame Sample.generation_columns
                 [Sample.generation_row 1 2023 2 60])
              (mkDataFrame Sample.consumption_columns
                 [Sample.consumption_row 1 2023 2 120]))
    as (_ & Hcons & Hgen & _).
  - reflexivity.
  - split; [exact Hcons|].
    apply Hgen. unfold labels. simpl.
    constructor; [simpl; intros [H|[]]; discriminate|].
    constructor; [intros []|constructor].
Defined.

(** ** Loader: the year range of the sidebar *)

Lemma series_min_cases (s : Series) :
  (series_min s = NaN /\ numbers s = []) \/
  exists m, series_min s = Num m /\ In m (numbers s) /\
            forall y, In y (numbers s) -> m <= y.
Proof.
  induction s as [|c s IH]; simpl; [left; auto|].
  destruct (number_of c) as [x|]; [|exact IH].
  right. destruct IH as [[-> Hn]|(m & -> & Hin & Hle)].
  - exists x. rewrite Hn. split; [reflexivity|]. split; [left; reflexivity|].
    intros y [<-|[]]. apply Qle_refl.
  - unfold Qlt_bool. destruct (Qle_bool x m) eqn:E; simpl.
    + apply Qle_bool_iff in E. exists x. split; [reflexivity|].
      split; [left; reflexivity|]. intros y [<-|Hy]; [apply Qle_refl|].
      apply Qle_trans with m; [exact E|apply Hle; exact Hy].
    + assert (m <= x).
      { destruct (Qlt_le_dec m x) as [H|H]; [apply Qlt_le_weak; exact H|].
        apply Qle_bool_iff in H. congruence. }
      exists m. split; [reflexivity|]. split; [right; exact Hin|].
      intros y [<-|Hy]; [assumption|apply Hle; exact Hy].
Qed.

Lemma series_max_cases (s : Series) :
  (series_max s = NaN /\ numbers s = []) \/
  exists m, series_max s = Num m /\ In m (numbers s) /\
            forall y, In y (numbers s) -> y <= m.
Proof.
  induction s as [|c s IH]; simpl; [left; auto|].
  destruct (number_of c) as [x|]; [|exact IH].
  right. destruct IH as [[-> Hn]|(m & -> & Hin & Hle)].
  - exists x. rewrite Hn. split; [reflexivity|]. split; [left; reflexivity|].
    intros y [<-|[]]. apply Qle_refl.
  - unfold Qlt_bool. destruct (Qle_bool m x) eqn:E; simpl.
    + apply Qle_bool_iff in E. exists x. split; [reflexivity|].
      split; [left; reflexivity|]. intros y [<-|Hy]; [apply Qle_refl|].
      apply Qle_trans with m; [apply Hle; exact Hy|exact E].
    + assert (x <= m).
      { destruct (Qlt_le_dec x m) as [H|H]; [apply Qlt_le_weak; exact H|].
        apply Qle_bool_iff in H. congruence. }
      exists m. split; [reflexivity|]. split; [right; exact Hin|].
      intros y [<-|Hy]; [assumption|apply Hle; exact Hy].
Qed.

Lemma int_of_integer (q : Q) : is_integer q = true -> inject_Z (int_of q) == q.
Proof.
  unfold is_integer, int_of, Qfloor. destruct q as [n d]. simpl.
  intros H. apply Qeq_bool_iff in H. unfold Qeq in H. simpl in H.
  rewrite Z.mul_1_r in H. rewrite H at 1.
  rewrite Z.quot_mul by discriminate.
  unfold Qeq. simpl. rewrite Z.mul_1_r. symmetry. exact H.
Qed.

(** The numbers of a column are the numbers the rows hold in it. *)
Lemma field_in_numbers (t : DataFrame) (name : string) (s : Series) (r : row) (y : Q) :
  getitem t name = Ok s -> In r (rows t) -> field t name r = Some y ->
  In y (numbers s).
Proof.
  unfold getitem, field.
  destruct (column_position name (columns t)) as [j|]; [|discriminate].
  intros H Hr Hy. injection H as <-.
  induction (rows t) as [|r' l IH]; simpl in *; [contradiction|].
  destruct Hr as [->|Hr].
  - rewrite Hy. left. reflexivity.
  - destruct (number_of (cell_at j r')); [right|]; apply IH; exact Hr.
Qed.

Lemma numbers_have_field (t : DataFrame) (name : string) (s : Series) (y : Q) :
  getitem t name = Ok s -> In y (numbers s) ->
  exists r, In r (rows t) /\ field t name r = Some y.
Proof.
  unfold getitem, field.
  destruct (column_position name (columns t)) as [j|]; [|discriminate].
  intros H Hy. injection H as <-.
  induction (rows t) as [|r' l IH]; simpl in *; [contradiction|].
  destruct (number_of (cell_at j r')) as [x|] eqn:E.
  - destruct Hy as [<-|Hy].
    + exists r'. auto.
    + destruct (IH Hy) as (r & Hr & Hf). exists r. auto.
  - destruct (IH Hy) as (r & Hr & Hf). exists r. auto.
Qed.

Lemma column_min_Ok (s : Series) (c : cell) :
  column_min s = Ok c -> c = series_min s.
Proof.
  unfold column_min. destruct (forallb is_number s); [|discriminate].
  intros H. injection H as <-. reflexivity.
Qed.

Lemma column_max_Ok (s : Series) (c : cell) :
  column_max s = Ok c -> c = series_max s.
Proof.
  unfold column_max. destruct (forallb is_number s); [|discriminate].
  intros H. injection H as <-. reflexivity.
Qed.

Lemma py_int_Ok (c : cell) (z : Z) :
  py_int c = Ok z -> exists q, number_of c = Some q /\ z = int_of q.
Proof.
  unfold py_int. destruct (number_of c) as [q|]; [|discriminate].
  intros H. injection H as <-. exists q. auto.
Qed.

(** The least year [min(a, b)] picks is a year of one of the two tables
    and is below every year of both. *)
Lemma py_min_least (a b : Series) (q : Q) :
  number_of (py_min (series_min a) (series_min b)) = Some q ->
  In q (numbers a ++ numbers b) /\
  forall y, In y (numbers a ++ numbers b) -> q <= y.
Proof.
  unfold py_min, cell_lt.
  destruct (series_min_cases a) as [[-> Ha]|(ma & -> & Hina & Hlea)].
  - destruct (number_of (series_min b)); simpl; discriminate.
  - destruct (series_min_cases b) as [[-> Hb]|(mb & -> & Hinb & Hleb)]; simpl.
    + intros H. injection H as <-. rewrite Hb, app_nil_r. auto.
    + unfold Qlt_bool. destruct (Qle_bool ma mb) eqn:E; simpl; intros H;
        injection H as <-.
      * apply Qle_bool_iff in E. split; [apply in_or_app; left; exact Hina|].
        intros y Hy. apply in_app_or in Hy. destruct Hy as [Hy|Hy];
          [apply Hlea; exact Hy|].
        apply Qle_trans with mb; [exact E|apply Hleb; exact Hy].
      * assert (mb <= ma).
        { destruct (Qlt_le_dec mb ma) as [H|H]; [apply Qlt_le_weak; exact H|].
          apply Qle_bool_iff in H. congruence. }
        split; [apply in_or_app; right; exact Hinb|].
        intros y Hy. apply in_app_or in Hy. destruct Hy as [Hy|Hy];
          [|apply Hleb; exact Hy].
        apply Qle_trans with ma; [assumption|apply Hlea; exact Hy].
Qed.

Lemma py_max_greatest (a b : Series) (q : Q) :
  number_of (py_max (series_max a) (series_max b)) = Some q ->
  In q (numbers a ++ numbers b) /\
  forall y, In y (numbers a ++ numbers b) -> y <= q.
Proof.
  unfold py_max, cell_gt, cell_lt.
  destruct (series_max_cases a) as [[-> Ha]|(ma & -> & Hina & Hlea)].
  - destruct (number_of (series_max b)); simpl; discriminate.
  - destruct (series_max_cases b) as [[-> Hb]|(mb & -> & Hinb & Hleb)]; simpl.
    + intros H. injection H as <-. rewrite Hb, app_nil_r. auto.
    + unfold Qlt_bool. destruct (Qle_bool mb ma) eqn:E; simpl; intros H;
        injection H as <-.
      * apply Qle_bool_iff in E. split; [apply in_or_app; left; exact Hina|].
        intros y Hy. apply in_app_or in Hy. destruct Hy as [Hy|Hy];
          [apply Hlea; exact Hy|].
        apply Qle_trans with mb; [apply Hleb; exact Hy|exact E].
      * assert (ma <= mb).
        { destruct (Qlt_le_dec ma mb) as [H|H]; [apply Qlt_le_weak; exact H|].
          apply Qle_bool_iff in H. congruence. }
        split; [apply in_or_app; right; exact Hinb|].
        intros y Hy. apply in_app_or in Hy. destruct Hy as [Hy|Hy];
          [|apply Hleb; exact Hy].
        apply Qle_trans with ma; [apply Hlea; exact Hy|assumption].
Qed.

Lemma get_date_range_values_Ok (gen cons : DataFrame) (lo hi : Z) :
  DataLoader.get_date_range_values gen cons = Ok (lo, hi) ->
  exists cy gy qlo qhi,
    getitem cons "Year" = Ok cy /\ getitem gen "Year" = Ok gy /\
    lo = int_of qlo /\ hi = int_of qhi /\
    In qlo (numbers cy ++ numbers gy) /\ In qhi (numbers cy ++ numbers gy) /\
    forall y, In y (numbers cy ++ numbers gy) -> qlo <= y /\ y <= qhi.
Proof.
  unfold DataLoader.get_date_range_values. intros H.
  apply bind_Ok_inv in H. destruct H as (cy & Hcy & H).
  apply bind_Ok_inv in H. destruct H as (cmin & Hcmin & H).
  apply bind_Ok_inv in H. destruct H as (gy & Hgy & H).
  apply bind_Ok_inv in H. destruct H as (gmin & Hgmin & H).
  apply bind_Ok_inv in H. destruct H as (lo' & Hlo & H).
  rewrite Hcy in H. cbn [bind] in H.
  apply bind_Ok_inv in H. destruct H as (cmax & Hcmax & H).
  rewrite Hgy in H. cbn [bind] in H.
  apply bind_Ok_inv in H. destruct H as (gmax & Hgmax & H).
  apply bind_Ok_inv in H. destruct H as (hi' & Hhi & H).
  injection H as <- <-.
  apply column_min_Ok in Hcmin, Hgmin. apply column_max_Ok in Hcmax, Hgmax.
  subst cmin gmin cmax gmax.
  apply py_int_Ok in Hlo. destruct Hlo as (qlo & Hqlo & ->).
  apply py_int_Ok in Hhi. destruct Hhi as (qhi & Hqhi & ->).
  destruct (py_min_least _ _ Hqlo) as [Hinlo Hlo].
  destruct (py_max_greatest _ _ Hqhi) as [Hinhi Hhi].
  exists cy, gy, qlo, qhi. repeat split; auto.
Qed.

Lemma year_of_some_row (gen cons : DataFrame) (cy gy : Series) (q : Q) :
  getitem cons "Year" = Ok cy -> getitem gen "Year" = Ok gy ->
  integer_years gen -> integer_years cons ->
  In q (numbers cy ++ numbers gy) -> is_integer q = true.
Proof.
  intros Hcy Hgy Ig Ic Hq. apply in_app_or in Hq. destruct Hq as [Hq|Hq].
  - destruct (@numbers_have_field cons "Year" cy q Hcy Hq) as (r & Hr & Hf).
    exact (Ic r q Hr Hf).
  - destruct (@numbers_have_field gen "Year" gy q Hgy Hq) as (r & Hr & Hf).
    exact (Ig r q Hr Hf).
Qed.

Lemma year_range_bounds (gen cons : DataFrame) (lo hi : Z) :
  DataLoader.get_date_range_values gen cons = Ok (lo, hi) ->
  integer_years gen -> integer_years cons ->
  (lo <= hi)%Z /\
  (forall r y, In r (rows gen) -> field gen "Year" r = Some y ->
               inject_Z lo <= y /\ y <= inject_Z hi) /\
  (forall r y, In r (rows cons) -> field cons "Year" r = Some y ->
               inject_Z lo <= y /\ y <= inject_Z hi).
Proof.
  intros H Ig Ic.
  destruct (get_date_range_values_Ok _ _ H)
    as (cy & gy & qlo & qhi & Hcy & Hgy & -> & -> & Hinlo & Hinhi & Hb).
  pose proof (int_of_integer _ (@year_of_some_row gen cons cy gy qlo Hcy Hgy Ig Ic Hinlo))
    as Elo.
  pose proof (int_of_integer _ (@year_of_some_row gen cons cy gy qhi Hcy Hgy Ig Ic Hinhi))
    as Ehi.
  split; [|split].
  - rewrite Zle_Qle, Elo, Ehi. apply (Hb qhi Hinhi).
  - intros r y Hr Hf. rewrite Elo, Ehi. apply Hb. apply in_or_app. right.
    exact (@field_in_numbers gen "Year" gy r y Hgy Hr Hf).
  - intros r y Hr Hf. rewrite Elo, Ehi. apply Hb. apply in_or_app. left.
    exact (@field_in_numbers cons "Year" cy r y Hcy Hr Hf).
Qed.

(** X3.  When [get_date_range_values] returns a range, on two tables
    whose years are whole numbers, the range is not empty and every year
    of the generation table and of the consumption table lies in it. *)
Theorem year_range_covers (gen cons : DataFrame) (lo hi : Z) :
  DataLoader.get_date_range_values gen cons = Ok (lo, hi) ->
  integer_years gen -> integer_years cons ->
  (lo <= hi)%Z /\
  (forall r y, In r (rows gen) -> field gen "Year" r = Some y ->
               inject_Z lo <= y /\ y <= inject_Z hi) /\
  (forall r y, In r (rows cons) -> field cons "Year" r = Some y ->
               inject_Z lo <= y /\ y <= inject_Z hi).
Proof. exact (@year_range_bounds gen cons lo hi). Qed.

Lemma sample_integer_years (t : DataFrame) :
  forallb (fun r => match field t "Year" r with
                    | Some y => is_integer y
                    | None => true
                    end) (rows t) = true ->
  integer_years t.
Proof.
  intros H r y Hr Hy. rewrite forallb_forall in H.
  specialize (H r Hr). rewrite Hy in H. exact H.
Qed.

(** The theorem on the sample tables: the years 2022 and 2023. *)
Lemma year_range_covers_witness :
  (2022 <= 2023)%Z /\
  (forall r y, In r (rows Sample.generation) ->
               field Sample.generation "Year" r = Some y ->
               inject_Z 2022 <= y /\ y <= inject_Z 2023) /\
  (forall r y, In r (rows Sample.consumption_two_periods) ->
               field Sample.consumption_two_periods "Year" r = Some y ->
               inject_Z 2022 <= y /\ y <= inject_Z 2023).
Proof.
  apply (@year_range_covers Sample.generation Sample.consumption_two_periods
           2022 2023).
  - vm_compute. reflexivity.
  - apply sample_integer_years. vm_compute. reflexivity.
  - apply sample_integer_years. vm_compute. reflexivity.
Defined.

(** X4.  Filtering with the range [get_date_range_values] returns (the
    default of the year slider) drops no row because of its year: the
    rows kept are the rows that have a year and whose month is
    selected. *)
Theorem default_range_keeps_every_year
    (gen cons : DataFrame) (year_range : Z * Z) (months : list Z)
    (sources : list string) (gen' cons' : DataFrame) :
  DataLoader.get_date_range_values gen cons = Ok year_range ->
  integer_years gen -> integer_years cons ->
  Loader.filter_data gen cons year_range months sources = Ok (gen', cons') ->
  (forall r, In r (rows gen') <->
             In r (rows gen) /\
             exists y m, field gen "Year" r = Some y /\
                         field gen "Month" r = Some m /\
                         exists k, In k months /\ m == inject_Z k) /\
  (forall r, In r (rows cons') <->
             In r (rows cons) /\
             exists y m, field cons "Year" r = Some y /\
                         field cons "Month" r = Some m /\
                         exists k, In k months /\ m == inject_Z k).
Proof.
  destruct year_range as [lo hi]. intros Hrange Ig Ic H.
  destruct (@year_range_bounds gen cons lo hi Hrange Ig Ic) as (_ & Hg & Hc).
  unfold Loader.filter_data in H.
  apply bind_Ok_inv in H. destruct H as (cm & Hcm & H).
  apply bind_Ok_inv in H. destruct H as (gm & Hgm & H).
  injection H as <- <-.
  split; intros r.
  - rewrite (filtered_rows _ _ _ Hgm r). unfold in_selection. simpl fst. simpl snd.
    split.
    + intros (Hr & y & m & Hy & Hm & _ & _ & Hk). split; [exact Hr|]. exists y, m. auto.
    + intros (Hr & y & m & Hy & Hm & Hk). split; [exact Hr|].
      exists y, m. destruct (Hg r y Hr Hy). auto.
  - rewrite (filtered_rows _ _ _ Hcm r). unfold in_selection. simpl fst. simpl snd.
    split.
    + intros (Hr & y & m & Hy & Hm & _ & _ & Hk). split; [exact Hr|]. exists y, m. auto.
    + intros (Hr & y & m & Hy & Hm & Hk). split; [exact Hr|].
      exists y, m. destruct (Hc r y Hr Hy). auto.
Qed.

(** The theorem on the sample tables of 2023, with the month of
    February selected. *)
Lemma default_range_keeps_every_year_witness :
  In (Sample.consumption_row 1 2023 2 120) [Sample.consumption_row 1 2023 2 120] <->
  In (Sample.consumption_row 1 2023 2 120) (rows Sample.consumption) /\
  exists y m,
    field Sample.consumption "Year" (Sample.consumption_row 1 2023 2 120) = Some y /\
    field Sample.consumption "Month" (Sample.consumption_row 1 2023 2 120) = Some m /\
    exists k, In k [2%Z] /\ m == inject_Z k.
Proof.
  refine (proj2 (@default_range_keeps_every_year Sample.generation Sample.consumption
                   (2023, 2023)%Z [2%Z] []
                   (mkDataFrame Sample.generation_columns
                      [Sample.generation_row 1 2023 2 60])
                   (mkDataFrame Sample.consumption_columns
                      [Sample.consumption_row 1 2023 2 120])
                   _ _ _ _)
                (Sample.consumption_row 1 2023 2 120)).
  - vm_compute. reflexivity.
  - apply sample_integer_years. vm_compute. reflexivity.
  - apply sample_integer_years. vm_compute. reflexivity.
  - reflexivity.
Defined.

Lemma series_min_no_number (s : Series) : numbers s = [] -> series_min s = NaN.
Proof.
  intros H. destruct (series_min_cases s) as [[E _]|(m & _ & Hin & _)];
    [exact E|]. rewrite H in Hin. contradiction.
Qed.

Lemma series_max_no_number (s : Series) : numbers s = [] -> series_max s = NaN.
Proof.
  intros H. destruct (series_max_cases s) as [[E _]|(m & _ & Hin & _)];
    [exact E|]. rewrite H in Hin. contradiction.
Qed.

Lemma cell_lt_irrefl (c : cell) : cell_lt c c = false.
Proof.
  unfold cell_lt. destruct (number_of c) as [q|]; [|reflexivity].
  unfold Qlt_bool. apply negb_false_iff. apply Qle_bool_iff. apply Qle_refl.
Qed.

(** X5.  The two tables do not play the same part in
    [get_date_range_values], on year columns that hold no text.  A
    consumption table that has no year at all (no row, or missing years
    only) makes the call raise, whatever the generation table holds; a
    generation table that has no year at all is ignored, and the result
    is what the consumption table gives alone. *)
Theorem year_range_asymmetry (gen cons : DataFrame) :
  (forall cy, getitem cons "Year" = Ok cy -> forallb is_number cy = true ->
              numbers cy = [] ->
              exists e, DataLoader.get_date_range_values gen cons = Raise e) /\
  (forall gy, getitem gen "Year" = Ok gy -> forallb is_number gy = true ->
              numbers gy = [] ->
              (forall cy, getitem cons "Year" = Ok cy ->
                          forallb is_number cy = true) ->
              DataLoader.get_date_range_values gen cons
              = DataLoader.get_date_range_values cons cons).
Proof.
  split.
  - intros cy Hcy _ Hn. unfold DataLoader.get_date_range_values.
    rewrite Hcy. cbn [bind]. unfold column_min at 1.
    destruct (forallb is_number cy); cbn [bind]; [|eexists; reflexivity].
    rewrite (series_min_no_number _ Hn).
    destruct (getitem gen "Year") as [gy|e]; cbn [bind]; [|eexists; reflexivity].
    destruct (column_min gy) as [gmin|e]; cbn [bind]; [|eexists; reflexivity].
    unfold py_min. rewrite cell_lt_NaN. cbn. eexists. reflexivity.
  - intros gy Hgy Hnum Hn _. unfold DataLoader.get_date_range_values.
    destruct (getitem cons "Year") as [cy|e]; cbn [bind]; [|reflexivity].
    destruct (column_min cy) as [cmin|e]; cbn [bind]; [|reflexivity].
    rewrite Hgy. cbn [bind]. unfold column_min at 1, column_max at 2.
    rewrite Hnum. cbn [bind].
    rewrite (series_min_no_number _ Hn), (series_max_no_number _ Hn).
    replace (py_min cmin NaN) with (py_min cmin cmin)
      by (unfold py_min; rewrite cell_lt_irrefl; reflexivity).
    destruct (py_int (py_min cmin cmin)) as [lo|e]; cbn [bind]; [|reflexivity].
    destruct (column_max cy) as [cmax|e]; cbn [bind]; [|reflexivity].
    replace (py_max cmax NaN) with (py_max cmax cmax)
      by (unfold py_max, cell_gt; rewrite cell_lt_irrefl, cell_lt_NaN; reflexivity).
    reflexivity.
Qed.

(** The theorem on a table without rows: as the consumption table it
    makes the call raise, as the generation table it is ignored. *)
Lemma year_range_asymmetry_witness :
  (exists e, DataLoader.get_date_range_values Sample.generation
               (mkDataFrame Sample.consumption_columns []) = Raise e) /\
  DataLoader.get_date_range_values (mkDataFrame Sample.generation_columns [])
    Sample.consumption
  = DataLoader.get_date_range_values Sample.consumption Sample.consumption.
Proof.
  split.
  - apply (proj1 (year_range_asymmetry Sample.generation
                    (mkDataFrame Sample.consumption_columns [])) []);
      reflexivity.
  - apply (proj2 (year_range_asymmetry (mkDataFrame Sample.generation_columns [])
                    Sample.consumption) []);
      try reflexivity.
    intros cy H. vm_compute in H. injection H as <-. reflexivity.
Defined.

(** ** Loader: source names and columns *)

Lemma prefix_app_long (p t q : string) :
  String.prefix p (t ++ q) = true -> (String.length p <= String.length t)%nat ->
  String.prefix p t = true.
Proof.
  revert t. induction p as [|a p IH]; intros [|b t]; simpl; try reflexivity.
  - intros _ H. lia.
  - destruct (ascii_dec a b); [|discriminate].
    intros H Hlen. apply IH; [exact H|lia].
Qed.

Lemma prefix_app_short (p t q : string) :
  String.prefix p (t ++ q) = true -> (String.length t <= String.length p)%nat ->
  String.prefix (string_drop (String.length t) p) q = true.
Proof.
  revert p. induction t as [|b t IH]; intros p; simpl.
  - intros H _. exact H.
  - destruct p as [|a p]; simpl; [intros _ H; lia|].
    destruct (ascii_dec a b); [|discriminate].
    intros H Hlen. apply IH; [exact H|lia].
Qed.

(** No proper suffix of the unit suffix starts the unit suffix again. *)
Lemma calculated_suffix_unbordered (k : nat) :
  (1 <= k < String.length DataLoader.calculated_suffix)%nat ->
  String.prefix (string_drop k DataLoader.calculated_suffix)
                DataLoader.calculated_suffix = false.
Proof.
  intros Hk.
  assert (H : forallb (fun k => negb (String.prefix
                                        (string_drop k DataLoader.calculated_suffix)
                                        DataLoader.calculated_suffix))
                      (seq 1 (String.length DataLoader.calculated_suffix - 1)) = true)
    by (vm_compute; reflexivity).
  rewrite forallb_forall in H. apply negb_true_iff. apply H.
  apply in_seq. lia.
Qed.

Lemma contains_prefix (needle hay : string) :
  String.prefix needle hay = true -> contains needle hay = true.
Proof. intros H. destruct hay; cbn [contains]; rewrite H; reflexivity. Qed.

(** An occurrence of the unit suffix in [t ++ suffix] that starts at the
    first character lies inside [t], unless [t] is empty. *)
Lemma suffix_occurrence (t : string) :
  contains DataLoader.calculated_suffix t = false ->
  String.prefix DataLoader.calculated_suffix (t ++ DataLoader.calculated_suffix) = true ->
  t = EmptyString.
Proof.
  intros Hc Hp. destruct t as [|c t]; [reflexivity|]. exfalso.
  destruct (Nat.le_gt_cases (String.length DataLoader.calculated_suffix)
              (String.length (String c t))) as [Hlen|Hlen].
  - apply prefix_app_long in Hp; [|exact Hlen].
    apply contains_prefix in Hp. congruence.
  - apply prefix_app_short in Hp; [|lia].
    rewrite calculated_suffix_unbordered in Hp; [discriminate|].
    simpl String.length in *. lia.
Qed.

(** Stripping the unit suffix from [source ++ suffix] gives the source
    back, for a source that does not hold the suffix itself. *)
Lemma replace_source_column (source : string) :
  contains DataLoader.calculated_suffix source = false ->
  replace DataLoader.calculated_suffix "" (Analysis.source_column source) = source.
Proof.
  unfold replace, Analysis.source_column.
  change " [MWh] Calculated resolutions"%string with DataLoader.calculated_suffix.
  induction source as [|c s IH]; intros Hc.
  - vm_compute. reflexivity.
  - assert (Hp : String.prefix DataLoader.calculated_suffix
                   (String c s ++ DataLoader.calculated_suffix) = false).
    { destruct (String.prefix DataLoader.calculated_suffix
                  (String c s ++ DataLoader.calculated_suffix)) eqn:E;
        [|reflexivity].
      apply (suffix_occurrence _ Hc) in E. discriminate E. }
    assert (Hs : contains DataLoader.calculated_suffix s = false).
    { cbn [contains] in Hc.
      destruct (String.prefix DataLoader.calculated_suffix (String c s));
        [discriminate|exact Hc]. }
    change (String c s ++ DataLoader.calculated_suffix)%string
      with (String c (s ++ DataLoader.calculated_suffix)) in *.
    cbn [replace_from]. rewrite Hp. rewrite (IH Hs). reflexivity.
Qed.

Lemma get_energy_sources_columns (cols : list string) :
  (forall c, In c cols -> contains "[MWh]" c = true ->
             exists source,
               c = Analysis.source_column source /\
               contains DataLoader.calculated_suffix source = false) ->
  map Analysis.source_column
      (map (replace DataLoader.calculated_suffix "") (filter (contains "[MWh]") cols))
  = filter (contains "[MWh]") cols.
Proof.
  intros H. induction cols as [|c l IH]; simpl; [reflexivity|].
  destruct (contains "[MWh]" c) eqn:E; simpl.
  - destruct (H c (or_introl eq_refl) E) as (source & -> & Hs).
    rewrite (replace_source_column _ Hs). f_equal.
    apply IH. intros c' Hc'. apply H. right. exact Hc'.
  - apply IH. intros c' Hc'. apply H. right. exact Hc'.
Qed.

(** X6.  On a generation table whose [[MWh]] columns are all named
    [<source> [MWh] Calculated resolutions], for sources that do not hold
    that suffix themselves, [get_energy_sources] and the column name the
    aggregations build from a source are inverse to each other: the
    sources are listed in column order, one per column, and the column of
    every listed source is a column of the table. *)
Theorem energy_sources_round_trip (energy_generation : DataFrame) :
  (forall c, In c (columns energy_generation) -> contains "[MWh]" c = true ->
             exists source,
               c = Analysis.source_column source /\
               contains DataLoader.calculated_suffix source = false) ->
  map Analysis.source_column (DataLoader.get_energy_sources energy_generation)
  = filter (contains "[MWh]") (columns energy_generation).
Proof.
  unfold DataLoader.get_energy_sources. intros H.
  apply get_energy_sources_columns. exact H.
Qed.

(** The theorem on the sample generation table: its one source is Solar. *)
Lemma energy_sources_round_trip_witness :
  map Analysis.source_column (DataLoader.get_energy_sources Sample.generation)
  = [Analysis.source_column "Solar"].
Proof.
  apply (energy_sources_round_trip Sample.generation).
  intros c Hc E. exists "Solar"%string.
  simpl in Hc.
  repeat (destruct Hc as [<-|Hc]; [try discriminate E; split; reflexivity|]).
  contradiction.
Defined.

(** ** Group-by: nothing is lost *)








Lemma mapM_Forall2 (A B : Type) (f : A -> result B) (l : list A) (l' : list B) :
  mapM f l = Ok l' -> Forall2 (fun x y => f x = Ok y) l l'.
Proof.
  revert l'. induction l as [|x l IH]; simpl; intros l' H.
  - injection H as <-. constructor.
  - apply bind_Ok_inv in H. destruct H as (y & Hy & H).
    apply bind_Ok_inv in H. destruct H as (ys & Hys & H).
    injection H as <-. constructor; [exact Hy|apply IH; exact Hys].
Qed.

Lemma positions_Forall2 (df : DataFrame) (names : list string) (js : list nat) :
  positions df names = Ok js ->
  Forall2 (fun name j => column_position name (columns df) = Some j) names js.
Proof.
  unfold positions. intros H. apply mapM_Forall2 in H.
  induction H as [|name j names js Hj _ IH]; constructor; [|exact IH].
  unfold position in Hj.
  destruct (column_position name (columns df)); [|discriminate].
  injection Hj as <-. reflexivity.
Qed.


Lemma field_total_position (t : DataFrame) (name : string) (j : nat) (rs : list row) :
  column_position name (columns t) = Some j ->
  field_total t name rs = rows_total j rs.
Proof.
  intros Hj. unfold rows_total.
  induction rs as [|r rs IH]; simpl; [reflexivity|].
  unfold field at 1. rewrite Hj.
  destruct (number_of (cell_at j r)); simpl; rewrite IH; reflexivity.
Qed.


(** ** Forecaster: dates, period and totals *)

Lemma map_fst_combine (A B : Type) (a : list A) (b : list B) :
  List.length a = List.length b -> map fst (combine a b) = a.
Proof.
  revert b. induction a as [|x a IH]; intros [|y b] H; simpl in *;
    try reflexivity; try discriminate.
  rewrite IH; [reflexivity|]. injection H as H. exact H.
Qed.

(** What a forecast that is not (None, None) is made of. *)
Lemma forecast_Some_inv (df : DataFrame) (periods : Z)
    (monthly forecast : list (Z * Q)) :
  Analysis.forecast_energy_trends df periods = (Some monthly, Some forecast) ->
  Analysis.monthly_series df = Ok monthly /\
  (12 <= List.length monthly)%nat /\
  map fst forecast
  = map (fun i => (fst (last monthly (0%Z, 0%Q)) + 30 * Z.of_nat i)%Z)
        (seq 1 (Z.to_nat periods)) /\
  map snd forecast
  = map (fun i =>
           nth (i mod 12) (map snd (skipn (List.length monthly - 12) monthly)) 0
           * 1.02 ^ Z.of_nat (i / 12 + 1))
        (seq 0 (Z.to_nat periods)).
Proof.
  unfold Analysis.forecast_energy_trends, Analysis.forecast_energy_trends_body.
  destruct (Analysis.monthly_series df) as [m|e]; cbn [bind]; [|discriminate].
  destruct (Nat.leb_spec 12 (List.length m)) as [Hlen|Hlen]; [|discriminate].
  destruct (mapM _ (seq 1 (Z.to_nat periods))) as [dates|e] eqn:Hdates;
    cbn [bind]; [|discriminate].
  intros H. injection H as <- <-.
  assert (Hd : dates
               = map (fun i => (fst (last m (0%Z, 0%Q)) + 30 * Z.of_nat i)%Z)
                     (seq 1 (Z.to_nat periods))).
  { apply mapM_Forall2 in Hdates. clear Hlen.
    induction Hdates as [|i d l dates Hi _ IH]; [reflexivity|].
    cbn [map]. rewrite <- IH. f_equal. unfold timestamp_add in Hi.
    destruct (in_timestamp_range _); [|discriminate].
    injection Hi as <-. reflexivity. }
  split; [reflexivity|]. split; [exact Hlen|]. split.
  - rewrite map_fst_combine; [exact Hd|].
    rewrite Hd, !length_map, !length_seq. reflexivity.
  - rewrite map_snd_combine
      by (rewrite Hd, !length_map, !length_seq; reflexivity).
    apply map_ext. intros i. rewrite <- (map_nth snd). reflexivity.
Qed.




(** X8.  The forecast does not fall from one forecast year to the next:
    step [i + 12] is the same month of the template as step [i], with
    one more year of growth, so that it is at least the value of step
    [i] when that value is not negative, and at most that value when it
    is not positive. *)
Theorem forecast_yearly_growth
    (df : DataFrame) (periods : Z) (monthly forecast : list (Z * Q)) (i : nat) :
  Analysis.forecast_energy_trends df periods = (Some monthly, Some forecast) ->
  (i + 12 < List.length forecast)%nat ->
  (0 <= nth i (map snd forecast) 0 ->
   nth i (map snd forecast) 0 <= nth (i + 12) (map snd forecast) 0) /\
  (nth i (map snd forecast) 0 <= 0 ->
   nth (i + 12) (map snd forecast) 0 <= nth i (map snd forecast) 0).
Proof.
  intros H Hi. destruct (forecast_Some_inv _ _ H) as (_ & _ & Hd & Hv).
  assert (Hlen : List.length forecast = Z.to_nat periods).
  { rewrite <- (length_map fst), Hd, length_map, length_seq. reflexivity. }
  assert (E : nth (i + 12) (map snd forecast) 0
              == nth i (map snd forecast) 0 * 1.02).
  { rewrite Hv, !nth_map_seq by lia.
    replace ((i + 12) mod 12)%nat with (i mod 12)%nat
      by (rewrite <- (Nat.Div0.mod_add i 1 12); f_equal; lia).
    replace ((i + 12) / 12)%nat with (i / 12 + 1)%nat
      by (rewrite <- (Nat.div_add i 1 12) by lia; f_equal; lia).
    replace (Z.of_nat (i / 12 + 1 + 1)) with (Z.of_nat (i / 12 + 1) + 1)%Z by lia.
    rewrite Qpower_plus by discriminate.
    change (1.02 ^ 1) with 1.02. ring. }
  split; intros Hsign; rewrite E; lra.
Qed.

(** The theorem on the twelve months of 2023, for 24 periods: the second
    forecast of January is not below the first. *)
Lemma forecast_yearly_growth_witness :
  exists forecast,
    Analysis.forecast_energy_trends Sample.consumption_2023 24
    = (Some Sample.monthly_2023, Some forecast) /\
    nth 0 (map snd forecast) 0 <= nth 12 (map snd forecast) 0.
Proof.
  eexists. split; [vm_compute; reflexivity|].
  apply (@forecast_yearly_growth Sample.consumption_2023 24 Sample.monthly_2023
           _ 0%nat eq_refl).
  - vm_compute. lia.
  - vm_compute. discriminate.
Defined.




(** ** AnomalyDetector: full windows, thresholds and shape *)

Lemma nth_error_seq_map (A : Type) (g : nat -> A) (n i : nat) :
  nth_error (map g (seq 0 n)) i = if (i <? n)%nat then Some (g i) else None.
Proof.
  rewrite nth_error_map.
  destruct (Nat.ltb_spec i n) as [Hi|Hi].
  - rewrite (nth_error_nth' _ 0%nat) by (rewrite length_seq; exact Hi).
    rewrite seq_nth by exact Hi. reflexivity.
  - replace (nth_error (seq 0 n) i) with (@None nat); [reflexivity|].
    symmetry. apply nth_error_None. rewrite length_seq. exact Hi.
Qed.

Lemma nth_error_nth_NaN (s : Series) (i : nat) :
  (i < List.length s)%nat -> nth_error s i = Some (nth i s NaN).
Proof. intros H. apply nth_error_nth'. exact H. Qed.

Lemma list_eq_nth_error (A : Type) (l l' : list A) :
  (forall i, nth_error l i = nth_error l' i) -> l = l'.
Proof.
  revert l'. induction l as [|x l IH]; intros [|y l'] H.
  - reflexivity.
  - specialize (H 0%nat). discriminate H.
  - specialize (H 0%nat). discriminate H.
  - pose proof (H 0%nat) as H0. simpl in H0. injection H0 as <-.
    f_equal. apply IH. intros i. exact (H (S i)).
Qed.

(** The flags of the detector, row by row. *)
Lemma anomaly_flags_formula (sqrt : Q -> Q) (df : DataFrame) (column : string)
    (window : Z) (threshold : Q) (flags : list bool) :
  Analysis.anomaly_flags sqrt df column window threshold = Ok flags ->
  exists values,
    getitem df column = Ok values /\ (0 <= window)%Z /\
    forallb is_number values = true /\
    flags = map (flag_at sqrt (Z.to_nat window) threshold values)
                (seq 0 (List.length values)).
Proof.
  unfold Analysis.anomaly_flags. intros H.
  apply bind_Ok_inv in H. destruct H as (values & Hv & H).
  apply bind_Ok_inv in H. destruct H as (rmean & Hmean & H).
  rewrite Hv in H. cbn [bind] in H.
  apply bind_Ok_inv in H. destruct H as (rstd & Hstd & H).
  injection H as <-.
  assert (Hnum : forallb is_number values = true).
  { unfold Analysis.rolling in Hmean. destruct (window <? 0)%Z; [discriminate|].
    destruct (forallb is_number values); [reflexivity|discriminate]. }
  apply rolling_Ok in Hmean. destruct Hmean as [Hw ->].
  apply rolling_Ok in Hstd. destruct Hstd as [_ ->].
  exists values. split; [exact Hv|]. split; [exact Hw|]. split; [exact Hnum|].
  apply list_eq_nth_error. intros i.
  unfold Analysis.mask_or, Analysis.series_map2.
  repeat (rewrite nth_error_map || rewrite nth_error_combine).
  destruct (Nat.ltb_spec i (List.length values)) as [Hi|Hi].
  - rewrite (nth_error_nth_NaN _ Hi).
    rewrite (nth_error_nth' _ 0%nat) by (rewrite length_seq; exact Hi).
    rewrite seq_nth by exact Hi. reflexivity.
  - replace (nth_error values i) with (@None cell)
      by (symmetry; apply nth_error_None; exact Hi).
    replace (nth_error (seq 0 (List.length values)) i) with (@None nat)
      by (symmetry; apply nth_error_None; rewrite length_seq; exact Hi).
    reflexivity.
Qed.

Lemma trailing_length_window (window i : nat) (s : Series) :
  (List.length (Analysis.trailing window i s) <= window)%nat.
Proof.
  unfold Analysis.trailing. rewrite length_skipn, length_firstn. lia.
Qed.

Lemma cell_binop_NaN_l (f : Q -> Q -> Q) (b : cell) : cell_binop f NaN b = NaN.
Proof. reflexivity. Qed.

Lemma cell_binop_NaN_r (f : Q -> Q -> Q) (a : cell) : cell_binop f a NaN = NaN.
Proof. unfold cell_binop. destruct (number_of a); reflexivity. Qed.

(** A flagged row has a full window: [window] rows, two at least, each
    holding a number. *)
Lemma flag_at_full_window (sqrt : Q -> Q) (window : nat) (threshold : Q)
    (values : Series) (i : nat) :
  flag_at sqrt window threshold values i = true ->
  (2 <= window)%nat /\
  List.length (numbers (Analysis.trailing window i values)) = window /\
  List.length (Analysis.trailing window i values) = window.
Proof.
  unfold flag_at.
  pose proof (numbers_length (Analysis.trailing window i values)) as Hn.
  pose proof (trailing_length_window window i values) as Hw.
  set (w := Analysis.trailing window i values) in *.
  unfold Analysis.window_mean, Analysis.window_std.
  destruct (Nat.leb_spec window (List.length (numbers w))) as [H1|H1];
    [|cbn [andb]; rewrite !cell_binop_NaN_l, cell_gt_NaN, cell_lt_NaN;
      discriminate].
  destruct (Nat.ltb_spec 1 (List.length (numbers w))) as [H2|H2].
  - intros _. lia.
  - rewrite andb_false_r.
    rewrite cell_binop_NaN_l, !cell_binop_NaN_r, cell_gt_NaN, cell_lt_NaN.
    discriminate.
Qed.

Lemma numbers_all (s : Series) :
  List.length (numbers s) = List.length s ->
  forall c, In c s -> number_of c <> None.
Proof.
  induction s as [|x s IH]; simpl; [contradiction|].
  pose proof (numbers_length s) as Hn.
  destruct (number_of x) eqn:E; simpl; intros H c [<-|Hc].
  - rewrite E. discriminate.
  - apply IH; [lia|exact Hc].
  - lia.
  - lia.
Qed.

Lemma In_trailing_position (window i j : nat) (s : Series) (c : cell) :
  nth_error s j = Some c -> (j <= i)%nat -> (i < j + window)%nat ->
  In c (Analysis.trailing window i s).
Proof.
  intros Hj Hle Hlt. unfold Analysis.trailing.
  apply (nth_error_In _ (j - (i + 1 - window))).
  rewrite nth_error_skipn, nth_error_firstn.
  replace (i + 1 - window + (j - (i + 1 - window)))%nat with j by lia.
  destruct (Nat.ltb_spec j (i + 1)); [exact Hj|lia].
Qed.

(** A row that is not flagged is not in the output, in a table whose
    labels are distinct. *)
Lemma unflagged_row_absent (df out : DataFrame) (flags : list bool) (i : nat) (r : row) :
  labels out = select (labels df) flags ->
  NoDup (labels df) ->
  nth_error (rows df) i = Some r ->
  nth_error flags i <> Some true ->
  ~ In (fst r) (labels out).
Proof.
  intros Hlabels Hdup Hr Hflag Hin. rewrite Hlabels in Hin.
  apply In_select in Hin. destruct Hin as (k & Hk & Hm).
  assert (Hri : nth_error (labels df) i = Some (fst r))
    by (unfold labels; apply map_nth_error; exact Hr).
  assert (k = i).
  { apply (proj1 (NoDup_nth_error (labels df)) Hdup).
    - apply nth_error_Some. rewrite Hk. discriminate.
    - rewrite Hk, Hri. reflexivity. }
  subst k. exact (Hflag Hm).
Qed.

Lemma flags_formula_true (sqrt : Q -> Q) (df : DataFrame) (column : string)
    (window : Z) (threshold : Q) (flags : list bool) (i : nat) :
  Analysis.anomaly_flags sqrt df column window threshold = Ok flags ->
  nth_error flags i = Some true ->
  exists values,
    getitem df column = Ok values /\
    flag_at sqrt (Z.to_nat window) threshold values i = true.
Proof.
  intros H Hi. destruct (anomaly_flags_formula _ _ _ _ _ H)
    as (values & Hv & _ & _ & ->).
  exists values. split; [exact Hv|].
  rewrite nth_error_seq_map in Hi.
  destruct (i <? List.length values)%nat; [|discriminate].
  injection Hi as Hi. exact Hi.
Qed.

(** X10.  With a window of 0 or 1 row (or a negative one) the
    AnomalyDetector never returns a row: the standard deviation of fewer
    than two values is undefined. *)
Theorem small_window_no_anomaly
    (sqrt : Q -> Q) (df : DataFrame) (column : string) (window : Z)
    (threshold : Q) :
  (window <= 1)%Z ->
  rows (Analysis.identify_anomalies sqrt df column window threshold) = [].
Proof.
  intros Hw.
  destruct (identify_anomalies_labels sqrt df column window threshold)
    as (flags & Hflags & Hlabels).
  apply (map_eq_nil fst).
  fold (labels (Analysis.identify_anomalies sqrt df column window threshold)).
  rewrite Hlabels. apply select_none. intros i Hi.
  destruct Hflags as [Hf| ->]; [|destruct i; discriminate].
  destruct (@flags_formula_true sqrt df column window threshold flags i Hf Hi)
    as (values & _ & Hflag).
  apply flag_at_full_window in Hflag. lia.
Qed.

(** The theorem on the trend table with a jump, for a window of one row. *)
Lemma small_window_no_anomaly_witness :
  rows (Analysis.identify_anomalies Sample.sqrt_3 Sample.trends_with_jump
          "Consumption" 1 1) = [].
Proof.
  apply (@small_window_no_anomaly Sample.sqrt_3 Sample.trends_with_jump
           "Consumption" 1 1).
  lia.
Defined.

(** X11.  A missing value hides the anomalies around it: in a table
    whose labels are distinct, a row is not returned when the column is
    missing in that row or in one of the [window - 1] rows before it. *)
Theorem missing_value_blinds_window
    (sqrt : Q -> Q) (df : DataFrame) (column : string) (window : Z)
    (threshold : Q) (values : Series) (j i : nat) (c : cell) (r : row) :
  getitem df column = Ok values ->
  nth_error values j = Some c -> number_of c = None ->
  NoDup (labels df) ->
  nth_error (rows df) i = Some r ->
  (j <= i)%nat -> (Z.of_nat i < Z.of_nat j + window)%Z ->
  ~ In (fst r) (labels (Analysis.identify_anomalies sqrt df column window threshold)).
Proof.
  intros Hv Hj Hc Hdup Hr Hle Hlt.
  destruct (identify_anomalies_labels sqrt df column window threshold)
    as (flags & Hflags & Hlabels).
  apply (@unflagged_row_absent df _ flags i r Hlabels Hdup Hr). intros Hi.
  destruct Hflags as [Hf| ->]; [|destruct i; discriminate].
  destruct (@flags_formula_true sqrt df column window threshold flags i Hf Hi)
    as (values' & Hv' & Hflag).
  rewrite Hv in Hv'. injection Hv' as <-.
  apply flag_at_full_window in Hflag. destruct Hflag as (_ & Hn & Hl).
  apply (@numbers_all (Analysis.trailing (Z.to_nat window) i values)
           (eq_trans Hn (eq_sym Hl)) c); [|exact Hc].
  apply (@In_trailing_position (Z.to_nat window) i j values c Hj Hle). lia.
Qed.

Lemma distinct_NoDup (l : list Z) : distinct l = true -> NoDup l.
Proof.
  induction l as [|z l IH]; simpl; intros H; [constructor|].
  apply andb_true_iff in H. destruct H as [Hz Hl].
  constructor; [|apply IH; exact Hl].
  intros Hin. apply negb_true_iff in Hz.
  assert (existsb (Z.eqb z) l = true)
    by (apply existsb_exists; exists z; split; [exact Hin|apply Z.eqb_refl]).
  congruence.
Qed.

(** The theorem on the trend table with a gap, for a window of 2 rows:
    the jump that follows the gap is not returned. *)
Lemma missing_value_blinds_window_witness :
  ~ In 3%Z (labels (Analysis.identify_anomalies Sample.sqrt_3 Sample.trends_with_gap
                      "Consumption" 2 (1 # 2))).
Proof.
  apply (@missing_value_blinds_window Sample.sqrt_3 Sample.trends_with_gap
           "Consumption" 2 (1 # 2)
           [Num 10; Num 10; NaN; Num 100; Num 10; Num 10] 2 3 NaN
           (3%Z, [Num 4; Num 100; Num 5])).
  - reflexivity.
  - reflexivity.
  - reflexivity.
  - apply distinct_NoDup. reflexivity.
  - reflexivity.
  - lia.
  - lia.
Defined.

Lemma Qlt_bool_iff (a b : Q) : Qlt_bool a b = true <-> a < b.
Proof.
  unfold Qlt_bool. rewrite negb_true_iff. split.
  - intros H. apply Qnot_le_lt. intros Hle. apply Qle_bool_iff in Hle. congruence.
  - intros H. destruct (Qle_bool b a) eqn:E; [|reflexivity].
    apply Qle_bool_iff in E. exfalso. apply (Qlt_not_le _ _ H E).
Qed.

(** A lower threshold flags every row a higher one flags. *)
Lemma flag_at_mono (sqrt : Q -> Q) (window : nat) (t t' : Q) (values : Series)
    (i : nat) :
  (forall q, 0 <= sqrt q) -> t <= t' ->
  flag_at sqrt window t' values i = true ->
  flag_at sqrt window t values i = true.
Proof.
  intros Hsqrt Ht. unfold flag_at.
  set (w := Analysis.trailing window i values).
  set (v := nth i values NaN).
  destruct (@window_std_nonneg sqrt window w Hsqrt) as [->|(s & -> & Hs)].
  - rewrite !cell_binop_NaN_l, !cell_binop_NaN_r, cell_gt_NaN, cell_lt_NaN.
    discriminate.
  - unfold Analysis.window_mean.
    destruct ((window <=? List.length (numbers w))%nat
              && (0 <? List.length (numbers w))%nat).
    + set (m := Qsum (numbers w) / inject_Z (Z.of_nat (List.length (numbers w)))).
      unfold cell_gt, cell_lt, cell_binop. simpl.
      destruct (number_of v) as [x|]; [|discriminate].
      assert (Hst : s * t <= s * t').
      { rewrite (Qmult_comm s t), (Qmult_comm s t').
        apply Qmult_le_compat_r; assumption. }
      rewrite !orb_true_iff, !Qlt_bool_iff. intros [H|H]; [left|right]; lra.
    + rewrite !cell_binop_NaN_l, cell_gt_NaN, cell_lt_NaN. discriminate.
Qed.

Lemma select_mono (A : Type) (x : A) (l : list A) (m m' : list bool) :
  (forall i, nth_error m' i = Some true -> nth_error m i = Some true) ->
  In x (select l m') -> In x (select l m).
Proof.
  revert m m'. induction l as [|y l IH]; intros m m' H; [destruct m'; contradiction|].
  destruct m' as [|b' m']; [contradiction|].
  destruct m as [|b m].
  - simpl. destruct b'.
    + specialize (H 0%nat eq_refl). discriminate H.
    + intros Hin. apply In_select in Hin. destruct Hin as (k & _ & Hk).
      specialize (H (S k) Hk). destruct k; discriminate H.
  - simpl. assert (Hrec : In x (select l m') -> In x (select l m))
      by (apply IH; intros i Hi; exact (H (S i) Hi)).
    destruct b'.
    + pose proof (H 0%nat eq_refl) as H0. simpl in H0. injection H0 as ->.
      intros [->|Hin]; [left; reflexivity|right; apply Hrec; exact Hin].
    + intros Hin. destruct b; [right|]; apply Hrec; exact Hin.
Qed.

Lemma anomaly_flags_any_threshold (sqrt : Q -> Q) (df : DataFrame)
    (column : string) (window : Z) (t t' : Q) (flags' : list bool) :
  Analysis.anomaly_flags sqrt df column window t' = Ok flags' ->
  exists flags, Analysis.anomaly_flags sqrt df column window t = Ok flags.
Proof.
  unfold Analysis.anomaly_flags.
  destruct (getitem df column) as [values|e]; cbn [bind]; [|discriminate].
  destruct (Analysis.rolling Analysis.window_mean values window); cbn [bind];
    [|discriminate].
  destruct (Analysis.rolling (Analysis.window_std sqrt) values window);
    cbn [bind]; [|discriminate].
  intros _. eexists. reflexivity.
Qed.

Lemma identify_anomalies_labels_Ok (sqrt : Q -> Q) (df : DataFrame)
    (column : string) (window : Z) (threshold : Q) (flags : list bool) :
  Analysis.anomaly_flags sqrt df column window threshold = Ok flags ->
  labels (Analysis.identify_anomalies sqrt df column window threshold)
  = select (labels df) flags.
Proof.
  intros Hf.
  unfold Analysis.identify_anomalies, Analysis.identify_anomalies_body.
  rewrite Hf. cbn [bind].
  destruct (set_column_shape df "anomaly" (map Bool flags)) as (j & Hj & Hrows).
  unfold getitem. rewrite Hj. cbn [bind].
  unfold labels, boolean_index. cbn [rows]. rewrite Hrows.
  apply flagged_labels.
Qed.

(** X12.  Raising the threshold never adds an anomaly: every row the
    AnomalyDetector returns for a threshold is also returned for any
    lower threshold (same table, column and window; the square root is
    never negative). *)
Theorem higher_threshold_fewer_anomalies
    (sqrt : Q -> Q) (df : DataFrame) (column : string) (window : Z)
    (t t' : Q) (l : Z) :
  (forall q, 0 <= sqrt q) -> t <= t' ->
  In l (labels (Analysis.identify_anomalies sqrt df column window t')) ->
  In l (labels (Analysis.identify_anomalies sqrt df column window t)).
Proof.
  intros Hsqrt Ht.
  destruct (identify_anomalies_labels sqrt df column window t')
    as (flags' & Hflags' & ->).
  destruct Hflags' as [Hf'| ->]; [|rewrite select_nil; contradiction].
  destruct (@anomaly_flags_any_threshold sqrt df column window t t' flags' Hf')
    as (flags & Hf).
  rewrite (identify_anomalies_labels_Ok _ _ _ _ _ Hf).
  apply select_mono. intros i Hi.
  destruct (anomaly_flags_formula _ _ _ _ _ Hf') as (values & Hv & _ & _ & ->).
  destruct (anomaly_flags_formula _ _ _ _ _ Hf) as (values0 & Hv0 & _ & _ & ->).
  rewrite Hv in Hv0. injection Hv0 as <-.
  rewrite nth_error_seq_map in *.
  destruct (i <? List.length values)%nat; [|discriminate].
  injection Hi as Hi. f_equal.
  apply (@flag_at_mono sqrt (Z.to_nat window) t t' values i Hsqrt Ht Hi).
Qed.

(** The theorem on the trend table with a jump, for a window of 3 rows:
    the row returned for the threshold 1 is returned for 1/2. *)
Lemma higher_threshold_fewer_anomalies_witness :
  In 3%Z (labels (Analysis.identify_anomalies Sample.sqrt_3 Sample.trends_with_jump
                    "Consumption" 3 (1 # 2))).
Proof.
  apply (@higher_threshold_fewer_anomalies Sample.sqrt_3 Sample.trends_with_jump
           "Consumption" 3 (1 # 2) 1 3%Z).
  - exact sqrt_3_nonneg.
  - discriminate.
  - vm_compute. left. reflexivity.
Defined.

Lemma cell_at_set_cell_other (j k : nat) (x : cell) (cells : list cell) (l l' : Z) :
  k <> j -> cell_at k (l, set_cell j x cells) = cell_at k (l', cells).
Proof.
  unfold cell_at. simpl. revert k cells.
  induction j as [|j IH]; intros [|k] [|y cells] H; simpl; try reflexivity;
    try contradiction.
  - destruct k; reflexivity.
  - rewrite IH by lia. destruct k; reflexivity.
  - apply IH. lia.
Qed.

Lemma In_select_combine (A B : Type) (g : A * B -> A) (h : A * B -> bool)
    (l : list (A * B)) (y : A) :
  In y (select (map g l) (map h l)) -> exists p, In p l /\ y = g p /\ h p = true.
Proof.
  rewrite <- (map_map g (fun x => x)) at 1.
  induction l as [|p l IH]; simpl; [contradiction|].
  destruct (h p) eqn:E; simpl.
  - intros [<-|H]; [exists p; auto|].
    destruct (IH H) as (q & Hq & Hy & Hh). exists q. auto.
  - intros H. destruct (IH H) as (q & Hq & Hy & Hh). exists q. auto.
Qed.

(** X13.  What the AnomalyDetector returns is either the frame without
    columns (a failure: the column is missing, the window is negative or
    the column holds text) or a frame with the columns of the input and
    the column ['anomaly'], added at the end unless the input has it.
    In the second case every returned row is a row of the input, with
    its label and its cells, whose ['anomaly'] cell is [True]. *)
Theorem identify_anomalies_shape
    (sqrt : Q -> Q) (df : DataFrame) (column : string) (window : Z)
    (threshold : Q) :
  let out := Analysis.identify_anomalies sqrt df column window threshold in
  out = empty_frame \/
  exists j,
    column_position "anomaly" (columns out) = Some j /\
    (columns out = columns df \/ columns out = columns df ++ ["anomaly"%string]) /\
    forall r', In r' (rows out) ->
      cell_at j r' = Bool true /\
      exists r, In r (rows df) /\ fst r' = fst r /\
                forall k, k <> j -> cell_at k r' = cell_at k r.
Proof.
  cbv zeta.
  unfold Analysis.identify_anomalies, Analysis.identify_anomalies_body.
  destruct (Analysis.anomaly_flags sqrt df column window threshold) as [flags|e];
    cbn [bind]; [|left; reflexivity].
  right.
  destruct (set_column_shape df "anomaly" (map Bool flags)) as (j & Hj & Hrows).
  unfold getitem. rewrite Hj. cbn [bind].
  exists j. split; [exact Hj|]. split.
  - unfold boolean_index, set_column. cbn [columns].
    destruct (column_position "anomaly" (columns df)); [left|right]; reflexivity.
  - unfold boolean_index. cbn [rows]. rewrite Hrows. intros r' Hr'.
    rewrite !map_map in Hr'.
    apply (In_select_combine
             (fun rv : row * cell =>
                (fst (fst rv), set_cell j (snd rv) (snd (fst rv))))
             (fun rv : row * cell =>
                Analysis.truth
                  (cell_at j (fst (fst rv), set_cell j (snd rv) (snd (fst rv))))))
      in Hr'.
    destruct Hr' as ([r c] & Hp & -> & Htrue). simpl in *.
    rewrite cell_at_set_cell in Htrue.
    split.
    + rewrite cell_at_set_cell. destruct c; try discriminate.
      simpl in Htrue. rewrite Htrue. reflexivity.
    + exists r. split; [apply (in_combine_l _ _ _ _ Hp)|]. split; [reflexivity|].
      intros k Hk. destruct r as [l cells]. simpl.
      apply cell_at_set_cell_other. exact Hk.
Qed.

(** ** MetricsSummarizer: the other metrics *)

(** The steps of the summarizer, when none fails. *)
Lemma analyze_energy_trends_body_steps (gen cons : DataFrame) (m : Analysis.metrics) :
  Analysis.analyze_energy_trends_body gen cons = Ok m ->
  exists load tc tg by_year load' peak_label dates rp seasonal hq,
    getitem (Analysis.select_dtypes_number cons) Analysis.total_load = Ok load /\
    series_sum load = Ok tc /\
    Analysis.coerced_total gen (generation_columns_of gen) = Ok tg /\
    groupby_series cons ["Year"%string] Analysis.total_load agg_sum = Ok by_year /\
    labelled cons Analysis.total_load = Ok load' /\
    idxmax load' = Ok peak_label /\
    labelled cons "Start date" = Ok dates /\
    match renewable_columns_of gen with
    | _ :: _ =>
        renewable_generation <-
          Analysis.coerced_total gen (renewable_columns_of gen) ;;
        Ok (if Qlt_bool 0 tg then renewable_generation / tg * 100 else 0)
    | [] => Ok 0
    end = Ok rp /\
    groupby_series cons ["Quarter"%string] Analysis.total_load agg_mean = Ok seasonal /\
    m = [ ("total_consumption", Analysis.MCell (Num tc));
          ("total_generation", Analysis.MCell (Num tg));
          ("efficiency_ratio",
           Analysis.MCell (Num (if Qlt_bool 0 tc then tg / tc * 100 else 0)));
          ("yoy_growth",
           Analysis.MCell
             (if (1 <? List.length by_year)%nat then
                if (2 <=? List.length (map fst by_year))%nat then
                  growth_percent
                    (Analysis.lookup_key
                       (nth (List.length (map fst by_year) - 1) (map fst by_year) [])
                       by_year)
                    (Analysis.lookup_key
                       (nth (List.length (map fst by_year) - 2) (map fst by_year) [])
                       by_year)
                else Num 0
              else Num 0));
          ("peak_consumption", Analysis.MCell (series_max (map snd load')));
          ("peak_date", Analysis.MCell (lookup_label peak_label dates));
          ("renewable_percentage", Analysis.MCell (Num rp));
          ("highest_quarter", hq);
          ("consumption_by_year", Analysis.MSeries by_year) ]%string.
Proof.
  unfold Analysis.analyze_energy_trends_body. cbv zeta. intros H.
  apply bind_Ok_inv in H. destruct H as (load & Hload & H).
  apply bind_Ok_inv in H. destruct H as (tc & Htc & H).
  apply bind_Ok_inv in H. destruct H as (tg & Htg & H).
  apply bind_Ok_inv in H. destruct H as (by_year & Hby & H).
  apply bind_Ok_inv in H. destruct H as (load' & Hload' & H).
  apply bind_Ok_inv in H. destruct H as (peak_label & Hpeak & H).
  apply bind_Ok_inv in H. destruct H as (dates & Hdates & H).
  apply bind_Ok_inv in H. destruct H as (rp & Hrp & H).
  apply bind_Ok_inv in H. destruct H as (seasonal & Hseasonal & H).
  apply bind_Ok_inv in H. destruct H as (hq & Hhq & H).
  injection H as <-.
  exists load, tc, tg, by_year, load', peak_label, dates, rp, seasonal, hq.
  repeat split; assumption.
Qed.

Lemma numbers_to_numeric_coerce (s : Series) :
  numbers (to_numeric_coerce s) = numbers s.
Proof.
  induction s as [|c s IH]; simpl; [reflexivity|].
  destruct (number_of c) eqn:E; simpl; rewrite IH; reflexivity.
Qed.

Lemma forallb_is_number_coerce (s : Series) :
  forallb is_number (to_numeric_coerce s) = true.
Proof.
  induction s as [|c s IH]; simpl; [reflexivity|].
  destruct (number_of c); simpl; exact IH.
Qed.





Lemma text_free_check (t : DataFrame) (names : list string) :
  forallb (fun r =>
             forallb (fun name => match cell_of t name r with
                                  | Some (Str _) => false
                                  | _ => true
                                  end) names)
          (rows t) = true ->
  text_free t names.
Proof.
  intros H r name s Hr Hn Hs. rewrite forallb_forall in H.
  specialize (H r Hr). rewrite forallb_forall in H. specialize (H name Hn).
  rewrite Hs in H. discriminate.
Qed.



Lemma key_compare_refl (k : key) : key_compare k k = Eq.
Proof.
  induction k as [|x k IH]; simpl; [reflexivity|].
  assert (E : (x ?= x) = Eq) by (apply Qeq_alt; reflexivity).
  rewrite E. exact IH.
Qed.

Lemma groupby_series_keys (df : DataFrame) (keys : list string) (name : string)
    (f : aggfunc) (s : list (key * cell)) :
  groupby_series df keys name f = Ok s -> StronglySorted key_lt (map fst s).
Proof.
  unfold groupby_series. intros H.
  apply bind_Ok_inv in H. destruct H as (groups & Hg & H).
  apply bind_Ok_inv in H. destruct H as (j & _ & H).
  apply groupby_increasing in Hg.
  replace (map fst s) with (map fst groups); [exact Hg|].
  apply mapM_Forall2 in H. clear Hg.
  induction H as [|g kv groups s Hkv _ IH]; [reflexivity|].
  apply bind_Ok_inv in Hkv. destruct Hkv as (v & _ & Hkv). injection Hkv as <-.
  simpl. rewrite IH. reflexivity.
Qed.

(** In a series whose keys increase, a key is found at its own entry. *)
Lemma lookup_key_sorted (a b : list (key * cell)) (p : key * cell) :
  StronglySorted key_lt (map fst (a ++ p :: b)) ->
  Analysis.lookup_key (fst p) (a ++ p :: b) = snd p.
Proof.
  unfold Analysis.lookup_key. induction a as [|q a IH]; simpl; intros H.
  - rewrite key_compare_refl. reflexivity.
  - inversion H as [|? ? Hs Hall]; subst.
    assert (Hlt : key_lt (fst q) (fst p)).
    { rewrite Forall_forall in Hall. apply Hall.
      rewrite map_app. apply in_or_app. right. left. reflexivity. }
    unfold key_lt in Hlt. rewrite Hlt. apply IH. exact Hs.
Qed.

(** X15.  The year-over-year growth the MetricsSummarizer reports is 0
    when the consumption table has fewer than two years; else it compares
    the totals of the two most recent years: the yearly totals come in
    increasing year order, and for a previous total above 0 the growth
    is a number that is not negative when the current total is at least
    the previous one, and not positive when it is at most the previous
    one. *)
Theorem yoy_growth_last_two_years
    (gen cons : DataFrame) (v : Analysis.metric) :
  Analysis.get (Analysis.analyze_energy_trends gen cons) "yoy_growth" = Some v ->
  exists by_year,
    groupby_series cons ["Year"%string] Analysis.total_load agg_sum = Ok by_year /\
    StronglySorted key_lt (map fst by_year) /\
    ((List.length by_year < 2)%nat -> v = Analysis.MCell (Num 0)) /\
    (forall earlier previous current p c,
        by_year = earlier ++ [previous; current] ->
        snd previous = Num p -> snd current = Num c -> 0 < p ->
        exists g, v = Analysis.MCell (Num g) /\
                  (p <= c -> 0 <= g) /\ (c <= p -> g <= 0)).
Proof.
  unfold Analysis.analyze_energy_trends.
  destruct (Analysis.analyze_energy_trends_body gen cons) as [m|e] eqn:H;
    [|discriminate].
  destruct (analyze_energy_trends_body_steps _ _ H)
    as (load & tc & tg & by_year & load' & peak & dates & rp & seasonal & hq
        & _ & _ & _ & Hby & _ & _ & _ & _ & _ & ->).
  clear H. intros Hv. injection Hv as <-.
  pose proof (groupby_series_keys _ _ _ _ Hby) as Hsorted.
  exists by_year. split; [exact Hby|]. split; [exact Hsorted|]. split.
  - intros Hlen. destruct (Nat.ltb_spec 1 (List.length by_year)); [lia|reflexivity].
  - intros earlier previous current p c E Hprev Hcur Hp.
    assert (Hlen : List.length by_year = (List.length earlier + 2)%nat)
      by (rewrite E, length_app; reflexivity).
    assert (E1 : nth (List.length (map fst by_year) - 1) (map fst by_year) []
                 = fst current).
    { rewrite length_map, Hlen, E, map_app.
      rewrite app_nth2 by (rewrite length_map; lia). rewrite length_map.
      replace (List.length earlier + 2 - 1 - List.length earlier)%nat
        with 1%nat by lia.
      reflexivity. }
    assert (E2 : nth (List.length (map fst by_year) - 2) (map fst by_year) []
                 = fst previous).
    { rewrite length_map, Hlen, E, map_app.
      rewrite app_nth2 by (rewrite length_map; lia). rewrite length_map.
      replace (List.length earlier + 2 - 2 - List.length earlier)%nat
        with 0%nat by lia.
      reflexivity. }
    assert (L1 : Analysis.lookup_key (fst current) by_year = snd current).
    { rewrite E in *.
      replace (earlier ++ [previous; current])
        with ((earlier ++ [previous]) ++ current :: []) in *
        by (rewrite <- app_assoc; reflexivity).
      apply lookup_key_sorted. exact Hsorted. }
    assert (L2 : Analysis.lookup_key (fst previous) by_year = snd previous).
    { rewrite E in *. apply lookup_key_sorted. exact Hsorted. }
    rewrite E1, E2, L1, L2.
    rewrite length_map, Hlen, (Nat.add_comm (List.length earlier) 2).
    cbn [Nat.ltb Nat.leb Nat.add]. rewrite Hprev, Hcur.
    unfold growth_percent, cell_div, cell_binop, float_div. cbn [number_of].
    assert (Hz : Qeq_bool p 0 = false).
    { destruct (Qeq_bool p 0) eqn:Ez; [|reflexivity].
      apply Qeq_bool_iff in Ez. rewrite Ez in Hp. exfalso.
      exact (Qlt_irrefl _ Hp). }
    rewrite Hz. cbn [number_of]. eexists. split; [reflexivity|]. split.
    + intros Hle. assert (1 <= c / p)
        by (apply Qle_shift_div_l; [exact Hp|lra]). lra.
    + intros Hle. assert (c / p <= 1)
        by (apply Qle_shift_div_r; [exact Hp|lra]). lra.
Qed.

(** The theorem on the sample tables of 2022 (load 100) and 2023 (load
    120). *)
Lemma yoy_growth_last_two_years_witness :
  exists g,
    Analysis.get
      (Analysis.analyze_energy_trends Sample.generation Sample.consumption_two_periods)
      "yoy_growth" = Some (Analysis.MCell (Num g)) /\
    0 <= g.
Proof.
  destruct (@yoy_growth_last_two_years Sample.generation
              Sample.consumption_two_periods _ eq_refl)
    as (by_year & Hby & _ & _ & Hlast).
  destruct (Hlast [] ([2022], Num 100) ([2023], Num 120) 100 120)
    as (g & Hg & Hup & _).
  - vm_compute in Hby. injection Hby as <-. reflexivity.
  - reflexivity.
  - reflexivity.
  - reflexivity.
  - exists g. split; [rewrite <- Hg; reflexivity|]. apply Hup. discriminate.
Defined.

Lemma labelled_values (df : DataFrame) (name : string) (s : list (Z * cell)) :
  labelled df name = Ok s ->
  exists values, getitem df name = Ok values /\ map snd s = values /\
                 map fst s = labels df.
Proof.
  unfold labelled. intros H.
  apply bind_Ok_inv in H. destruct H as (values & Hv & H). injection H as <-.
  exists values. split; [exact Hv|].
  assert (Hlen : List.length (map fst (rows df)) = List.length values).
  { unfold getitem in Hv. destruct (column_position name (columns df));
      [|discriminate]. injection Hv as <-. rewrite !length_map. reflexivity. }
  split; [apply map_snd_combine|apply map_fst_combine]; exact Hlen.
Qed.

Lemma idxmax_Ok (L : Type) (s : list (L * cell)) (l : L) :
  idxmax s = Ok l ->
  exists m p, series_max (map snd s) = Num m /\ In p s /\ fst p = l /\
              exists x, number_of (snd p) = Some x /\ x == m.
Proof.
  unfold idxmax. destruct (series_max (map snd s)) as [m| | |]; try discriminate.
  destruct (find _ s) as [p|] eqn:E; [|discriminate].
  intros H. injection H as <-. apply find_some in E. destruct E as [Hin Hp].
  exists m, p. split; [reflexivity|]. split; [exact Hin|]. split; [reflexivity|].
  destruct (number_of (snd p)) as [x|]; [|discriminate].
  exists x. split; [reflexivity|]. apply Qeq_bool_iff. exact Hp.
Qed.

(** X16.  A consumption table without any load value (no row at all, or
    only missing loads) gives the empty mapping: the summarizer does not
    report totals of zero for it. *)
Theorem no_load_no_metrics (gen cons : DataFrame) :
  (forall load, getitem cons Analysis.total_load = Ok load -> numbers load = []) ->
  Analysis.analyze_energy_trends gen cons = [].
Proof.
  intros Hnone. unfold Analysis.analyze_energy_trends.
  destruct (Analysis.analyze_energy_trends_body gen cons) as [m|e] eqn:H;
    [|reflexivity].
  exfalso.
  destruct (analyze_energy_trends_body_steps _ _ H)
    as (load & tc & tg & by_year & load' & peak & dates & rp & seasonal & hq
        & _ & _ & _ & _ & Hload' & Hpeak & _).
  apply labelled_values in Hload'. destruct Hload' as (values & Hv & Hs & _).
  apply idxmax_Ok in Hpeak. destruct Hpeak as (mx & p & Hmax & _).
  rewrite Hs, (series_max_no_number _ (Hnone values Hv)) in Hmax.
  discriminate Hmax.
Qed.

(** The theorem on the sample tables filtered with no month selected:
    the consumption table has no row left and the metrics are empty. *)
Lemma no_load_no_metrics_witness :
  (out <- Loader.filter_data Sample.generation Sample.consumption
            (2023, 2023)%Z [] [] ;;
   Ok (Analysis.analyze_energy_trends (fst out) (snd out)))
  = Ok [].
Proof.
  change (Ok (Analysis.analyze_energy_trends
                (mkDataFrame (columns Sample.generation) [])
                (mkDataFrame (columns Sample.consumption) []))
          = Ok (@nil (string * Analysis.metric))).
  apply f_equal.
  apply (no_load_no_metrics (mkDataFrame (columns Sample.generation) [])
           (mkDataFrame (columns Sample.consumption) [])).
  intros load H. vm_compute in H. injection H as <-. reflexivity.
Defined.

Lemma In_combine_rows (A : Type) (f : row -> A) (l : list row) (p : Z * A) :
  In p (combine (map fst l) (map f l)) ->
  exists r, In r l /\ p = (fst r, f r).
Proof.
  induction l as [|r l IH]; simpl; [contradiction|].
  intros [<-|H]; [exists r; auto|].
  destruct (IH H) as (r' & Hr' & ->). exists r'. auto.
Qed.

Lemma lookup_label_row (f : row -> cell) (l : list row) (r : row) :
  NoDup (map fst l) -> In r l ->
  lookup_label (fst r) (combine (map fst l) (map f l)) = f r.
Proof.
  unfold lookup_label. induction l as [|r' l IH]; simpl; [contradiction|].
  intros Hdup Hr. inversion Hdup as [|? ? Hnot Hdup']; subst.
  destruct Hr as [->|Hr].
  - rewrite Z.eqb_refl. reflexivity.
  - destruct (Z.eqb_spec (fst r') (fst r)) as [E|E].
    + exfalso. apply Hnot. rewrite E. apply in_map. exact Hr.
    + apply IH; assumption.
Qed.

Lemma labelled_Ok (df : DataFrame) (name : string) (s : list (Z * cell)) :
  labelled df name = Ok s ->
  exists j, column_position name (columns df) = Some j /\
            s = combine (map fst (rows df)) (map (cell_at j) (rows df)).
Proof.
  unfold labelled, getitem.
  destruct (column_position name (columns df)) as [j|]; [|discriminate].
  cbn [bind]. intros H. injection H as <-. exists j. auto.
Qed.

(** X17.  The peak the MetricsSummarizer reports is the largest load of
    the consumption table and is the load of one of its rows; in a table
    whose labels are distinct, the peak date is the start date of a row
    whose load is the peak. *)
Theorem peak_consumption_is_maximum
    (gen cons : DataFrame) (v w : Analysis.metric) :
  Analysis.get (Analysis.analyze_energy_trends gen cons) "peak_consumption" = Some v ->
  Analysis.get (Analysis.analyze_energy_trends gen cons) "peak_date" = Some w ->
  exists p,
    v = Analysis.MCell (Num p) /\
    (exists r, In r (rows cons) /\ field cons Analysis.total_load r = Some p) /\
    (forall r y, In r (rows cons) -> field cons Analysis.total_load r = Some y ->
                 y <= p) /\
    (NoDup (labels cons) ->
     exists r d x,
       In r (rows cons) /\ field cons Analysis.total_load r = Some x /\ x == p /\
       cell_of cons "Start date" r = Some d /\ w = Analysis.MCell d).
Proof.
  unfold Analysis.analyze_energy_trends.
  destruct (Analysis.analyze_energy_trends_body gen cons) as [m|e] eqn:H;
    [|discriminate].
  destruct (analyze_energy_trends_body_steps _ _ H)
    as (load & tc & tg & by_year & load' & peak & dates & rp & seasonal & hq
        & _ & _ & _ & _ & Hload' & Hpeak & Hdates & _ & _ & ->).
  clear H. intros Hv Hw. injection Hv as <-. injection Hw as <-.
  destruct (labelled_values _ _ Hload') as (values & Hgv & Hsnd & _).
  destruct (labelled_Ok _ _ Hload') as (j & Hj & ->).
  destruct (labelled_Ok _ _ Hdates) as (jd & Hjd & ->).
  apply idxmax_Ok in Hpeak.
  destruct Hpeak as (mx & p & Hmax & Hin & Hlabel & x & Hx & Hxm).
  rewrite Hsnd in *.
  destruct (series_max_cases values) as [[E _]|(mx' & E & Hinmx & Hle)];
    [congruence|].
  rewrite Hmax in E. injection E as <-.
  exists mx. split; [rewrite Hmax; reflexivity|]. split; [|split].
  - destruct (@numbers_have_field cons Analysis.total_load values mx Hgv Hinmx)
      as (r & Hr & Hf).
    exists r. auto.
  - intros r y Hr Hf. apply Hle.
    exact (@field_in_numbers cons Analysis.total_load values r y Hgv Hr Hf).
  - intros Hdup. apply In_combine_rows in Hin. destruct Hin as (r & Hr & ->).
    simpl in Hlabel, Hx. subst peak.
    exists r, (cell_at jd r), x. split; [exact Hr|]. split; [|split; [exact Hxm|]].
    + unfold field. rewrite Hj. exact Hx.
    + split; [unfold cell_of; rewrite Hjd; reflexivity|].
      f_equal. apply lookup_label_row; assumption.
Qed.

(** The theorem on the sample tables of January (load 100) and February
    (load 120) 2023: the peak is 120, on the first of February. *)
Lemma peak_consumption_is_maximum_witness :
  exists p,
    Analysis.MCell (Num 120) = Analysis.MCell (Num p) /\
    (forall r y, In r (rows Sample.consumption) ->
                 field Sample.consumption Analysis.total_load r = Some y -> y <= p).
Proof.
  destruct (@peak_consumption_is_maximum Sample.generation Sample.consumption
              (Analysis.MCell (Num 120))
              (Analysis.MCell (Num (inject_Z (days_from_civil 2023 2 1)))))
    as (p & Hv & _ & Hmax & _).
  - vm_compute. reflexivity.
  - vm_compute. reflexivity.
  - exists p. split; [exact Hv|exact Hmax].
Defined.

Lemma column_position_nth (name : string) (cols : list string) (j : nat) :
  column_position name cols = Some j -> nth_error cols j = Some name.
Proof.
  revert j. induction cols as [|c cols IH]; simpl; intros j H; [discriminate|].
  destruct (String.eqb_spec c name) as [->|_].
  - injection H as <-. reflexivity.
  - destruct (column_position name cols) as [k|]; [|discriminate].
    injection H as <-. simpl. apply IH. reflexivity.
Qed.





(** ** SourceTotals: the generation of each selected source *)

Lemma column_position_In (name : string) (cols : list string) :
  (exists j, column_position name cols = Some j) <-> In name cols.
Proof.
  induction cols as [|c cols IH]; simpl.
  - split; [intros [j H]; discriminate|contradiction].
  - destruct (String.eqb_spec c name) as [->|Hne].
    + split; [auto|intros _; exists O; reflexivity].
    + split.
      * intros [j H]. right. apply IH.
        destruct (column_position name cols) as [k|]; [|discriminate].
        exists k. reflexivity.
      * intros [E|Hin]; [contradiction|].
        apply IH in Hin. destruct Hin as [k ->]. exists (S k). reflexivity.
Qed.

Lemma positions_Ok_iff (df : DataFrame) (names : list string) :
  (exists js, positions df names = Ok js) <->
  (forall name, In name names -> In name (columns df)).
Proof.
  unfold positions. induction names as [|n names IH]; simpl.
  - split; [intros _ ? []|intros _; exists []; reflexivity].
  - split.
    + intros [js H]. apply bind_Ok_inv in H. destruct H as (j & Hj & H).
      apply bind_Ok_inv in H. destruct H as (js' & Hjs & _).
      intros name [<-|Hin].
      * apply column_position_In. unfold position in Hj.
        destruct (column_position n (columns df)) as [k|]; [|discriminate].
        exists k. reflexivity.
      * apply IH; [exists js'; exact Hjs|exact Hin].
    + intros H.
      destruct (proj2 (column_position_In n (columns df)) (H n (or_introl eq_refl)))
        as [j Hj].
      destruct (proj2 IH (fun name Hin => H name (or_intror Hin))) as [js Hjs].
      exists (j :: js). unfold position at 1. rewrite Hj. cbn [bind].
      rewrite Hjs. reflexivity.
Qed.

Lemma column_total (df : DataFrame) (j : nat) :
  series_sum (to_numeric_coerce (map (cell_at j) (rows df)))
  = Ok (rows_total j (rows df)).
Proof.
  unfold series_sum, rows_total.
  rewrite forallb_is_number_coerce, numbers_to_numeric_coerce. reflexivity.
Qed.

Lemma mapM_total (A B : Type) (f : A -> result B) (g : A -> B) (l : list A) :
  (forall x, f x = Ok (g x)) -> mapM f l = Ok (map g l).
Proof.
  intros H. induction l as [|x l IH]; simpl; [reflexivity|].
  rewrite H, IH. reflexivity.
Qed.

Lemma calculate_source_totals_Ok (gen : DataFrame) (sources : list string)
    (out : DataFrame) :
  calculate_source_totals gen sources = Ok out ->
  exists js,
    positions gen (map Analysis.source_column sources) = Ok js /\
    out = mkDataFrame ["Source"; "Generation (MWh)"]%string
            (number_rows 0
               (map (fun nv : string * Q => [Str (fst nv); Num (snd nv)])
                    (combine
                       (map (replace DataLoader.calculated_suffix "")
                            (map Analysis.source_column sources))
                       (map (fun j => rows_total j (rows gen)) js)))).
Proof.
  unfold calculate_source_totals. intros H.
  apply bind_Ok_inv in H. destruct H as (js & Hjs & H).
  rewrite (mapM_total _ (fun j => rows_total j (rows gen))) in H
    by (intros j; apply column_total).
  cbn [bind] in H. injection H as <-. exists js. auto.
Qed.

Lemma number_rows_labels (n : Z) (l : list (list cell)) :
  map fst (number_rows n l)
  = map (fun i => (n + Z.of_nat i)%Z) (seq 0 (List.length l)).
Proof.
  revert n. induction l as [|c l IH]; intros n; simpl; [reflexivity|].
  f_equal; [f_equal; lia|].
  rewrite IH, <- seq_shift, map_map. apply map_ext. intros i. lia.
Qed.

Lemma number_rows_cells (n : Z) (l : list (list cell)) :
  map snd (number_rows n l) = l.
Proof.
  revert n. induction l as [|c l IH]; intros n; simpl; [reflexivity|].
  rewrite IH. reflexivity.
Qed.

Lemma number_rows_Forall2 (A : Type) (P : A -> list cell -> Prop) (n : Z)
    (xs : list A) (l : list (list cell)) :
  Forall2 P xs l -> Forall2 (fun x (r : row) => P x (snd r)) xs (number_rows n l).
Proof.
  intros H. revert n. induction H as [|x c xs l Hx _ IH]; intros n; simpl;
    constructor; [exact Hx|apply IH].
Qed.

(** X19.  On a generation table whose selected columns hold no text,
    the table of source totals has one row per selected source, in the
    order of the selection and numbered from 0; the row of a source
    (whose name does not hold the unit suffix) carries that name and the
    total of its column over the rows of the generation table, missing
    values skipped. *)
Theorem source_totals_rows
    (gen : DataFrame) (sources : list string) (out : DataFrame) :
  (forall s, In s sources -> contains DataLoader.calculated_suffix s = false) ->
  text_free gen (map Analysis.source_column sources) ->
  calculate_source_totals gen sources = Ok out ->
  Forall2 (fun s (r : row) =>
             exists q, snd r = [Str s; Num q] /\
                       q == field_total gen (Analysis.source_column s) (rows gen))
          sources (rows out) /\
  labels out = map Z.of_nat (seq 0 (List.length sources)).
Proof.
  intros Hs _ H. apply calculate_source_totals_Ok in H.
  destruct H as (js & Hjs & ->).
  apply positions_Forall2 in Hjs. cbn [rows]. unfold labels. cbn [rows].
  assert (Hlen : List.length js = List.length sources).
  { apply Forall2_length in Hjs. rewrite length_map in Hjs. auto. }
  split.
  - apply (@number_rows_Forall2 string
             (fun s cells =>
                exists q, cells = [Str s; Num q] /\
                          q == field_total gen (Analysis.source_column s) (rows gen))).
    clear Hlen.
    revert js Hjs. induction sources as [|s sources IH]; intros js Hjs.
    + constructor.
    + inversion Hjs as [|? j ? js' Hj Hrest]; subst. simpl. constructor.
      * exists (rows_total j (rows gen)). split.
        -- rewrite (replace_source_column s) by (apply Hs; left; reflexivity).
           reflexivity.
        -- rewrite (@field_total_position gen (Analysis.source_column s) j
                      (rows gen) Hj). reflexivity.
      * apply IH; [intros s' Hs'; apply Hs; right; exact Hs'|exact Hrest].
  - rewrite number_rows_labels, length_map, length_combine, !length_map, Hlen.
    rewrite Nat.min_id. apply map_ext. intros i. lia.
Qed.

(** The theorem on the sample generation table: Solar gave 50 + 60. *)
Lemma source_totals_rows_witness :
  Forall2 (fun s (r : row) =>
             exists q, snd r = [Str s; Num q] /\
                       q == field_total Sample.generation
                              (Analysis.source_column s) (rows Sample.generation))
          ["Solar"%string] [(0%Z, [Str "Solar"; Num 110])].
Proof.
  destruct (@source_totals_rows Sample.generation ["Solar"%string]
              (mkDataFrame ["Source"; "Generation (MWh)"]%string
                 [(0%Z, [Str "Solar"; Num 110])])) as [H _].
  - intros s [<-|[]]. vm_compute. reflexivity.
  - apply text_free_check. vm_compute. reflexivity.
  - vm_compute. reflexivity.
  - exact H.
Defined.

(** X20.  [calculate_source_totals] gives a table exactly when every
    selected source has its column in the generation table; a source
    without a column makes it raise, whatever the rows hold. *)
Theorem source_totals_defined_iff (gen : DataFrame) (sources : list string) :
  (exists out, calculate_source_totals gen sources = Ok out) <->
  (forall s, In s sources -> In (Analysis.source_column s) (columns gen)).
Proof.
  split.
  - intros [out H]. apply calculate_source_totals_Ok in H.
    destruct H as (js & Hjs & _). intros s Hs.
    apply (proj1 (positions_Ok_iff gen (map Analysis.source_column sources))).
    + exists js. exact Hjs.
    + apply in_map. exact Hs.
  - intros H.
    destruct (proj2 (positions_Ok_iff gen (map Analysis.source_column sources)))
      as [js Hjs].
    + intros name Hn. apply in_map_iff in Hn. destruct Hn as (s & <- & Hs).
      apply H. exact Hs.
    + unfold calculate_source_totals. rewrite Hjs. cbn [bind].
      rewrite (mapM_total _ (fun j => rows_total j (rows gen)))
        by (intros j; apply column_total).
      cbn [bind]. eexists. reflexivity.
Qed.

Lemma coerced_total_positions (df : DataFrame) (cols : list string) (js : list nat) :
  positions df cols = Ok js ->
  Analysis.coerced_total df cols
  = Ok (Qsum (map (fun j => rows_total j (rows df)) js)).
Proof.
  intros H. apply positions_Forall2 in H. unfold Analysis.coerced_total.
  assert (E : mapM (fun c => s <- getitem df c ;; series_sum (to_numeric_coerce s))
                   cols
              = Ok (map (fun j => rows_total j (rows df)) js)).
  { induction H as [|c j cols js Hj _ IH]; simpl; [reflexivity|].
    unfold getitem at 1. rewrite Hj. cbn [bind]. rewrite column_total. cbn [bind].
    rewrite IH. reflexivity. }
  rewrite E. reflexivity.
Qed.

Lemma source_values_total (n : Z) (names : list string) (values : list Q) :
  List.length names = List.length values ->
  numbers (map (cell_at 1)
             (number_rows n
                (map (fun nv : string * Q => [Str (fst nv); Num (snd nv)])
                     (combine names values))))
  = values.
Proof.
  revert n values. induction names as [|s names IH]; intros n [|v values] H;
    try discriminate; simpl; [reflexivity|].
  rewrite IH by (simpl in H; lia). reflexivity.
Qed.

(** X21.  On a generation table whose [[MWh]] columns are all named
    [<source> [MWh] Calculated resolutions], the totals of the sources
    [get_energy_sources] lists are defined and add up to the total
    generation the MetricsSummarizer reports. *)
Theorem source_totals_add_up (gen cons : DataFrame) :
  (forall c, In c (columns gen) -> contains "[MWh]" c = true ->
             exists source,
               c = Analysis.source_column source /\
               contains DataLoader.calculated_suffix source = false) ->
  exists out,
    calculate_source_totals gen (DataLoader.get_energy_sources gen) = Ok out /\
    forall tg,
      Analysis.get (Analysis.analyze_energy_trends gen cons) "total_generation"
      = Some (Analysis.MCell (Num tg)) ->
      Qsum (numbers (map (cell_at 1) (rows out))) == tg.
Proof.
  intros Hform.
  assert (Hcols : map Analysis.source_column (DataLoader.get_energy_sources gen)
                  = generation_columns_of gen).
  { unfold DataLoader.get_energy_sources, generation_columns_of.
    apply get_energy_sources_columns. exact Hform. }
  destruct (proj2 (positions_Ok_iff gen (generation_columns_of gen))) as [js Hjs].
  { intros name Hn. apply filter_In in Hn. tauto. }
  unfold calculate_source_totals. rewrite Hcols, Hjs. cbn [bind].
  rewrite (mapM_total _ (fun j => rows_total j (rows gen)))
    by (intros j; apply column_total).
  cbn [bind]. eexists. split; [reflexivity|].
  intros tg. unfold Analysis.analyze_energy_trends.
  destruct (Analysis.analyze_energy_trends_body gen cons) as [m|e] eqn:H;
    [|discriminate].
  destruct (analyze_energy_trends_body_steps _ _ H)
    as (load & tc & tg' & by_year & load' & peak & dates & rp & seasonal & hq
        & _ & _ & Htg & _ & _ & _ & _ & _ & _ & ->).
  intros E. injection E as <-.
  rewrite (coerced_total_positions _ _ Hjs) in Htg. injection Htg as <-.
  cbn [rows]. rewrite source_values_total; [reflexivity|].
  rewrite !length_map. apply positions_Forall2 in Hjs.
  apply Forall2_length in Hjs. exact Hjs.
Qed.

(** The theorem on the sample tables: the one total, 110, is the total
    generation. *)
Lemma source_totals_add_up_witness :
  exists out,
    calculate_source_totals Sample.generation
      (DataLoader.get_energy_sources Sample.generation) = Ok out /\
    Qsum (numbers (map (cell_at 1) (rows out))) == 110.
Proof.
  destruct (@source_totals_add_up Sample.generation Sample.consumption)
    as (out & Hout & Htg).
  - intros c Hc E. exists "Solar"%string.
    simpl in Hc.
    repeat (destruct Hc as [<-|Hc]; [try discriminate E; split; reflexivity|]).
    contradiction.
  - exists out. split; [exact Hout|]. apply Htg. vm_compute. reflexivity.
Defined.

(** ** Group-by: each group holds the rows of its key *)

Lemma key_compare_eq_l (a b c : key) :
  key_compare a b = Eq -> key_compare a c = key_compare b c.
Proof.
  revert b c. induction a as [|x a IH]; intros [|y b] [|z c]; simpl;
    try discriminate; try reflexivity.
  destruct (Qcompare_spec x y) as [Hxy|Hxy|Hxy]; try discriminate.
  intros H. assert (E : (x ?= z) = (y ?= z)) by (rewrite Hxy; reflexivity).
  rewrite E. destruct (y ?= z); try reflexivity. apply IH. exact H.
Qed.

Lemma key_compare_eq_r (a b c : key) :
  key_compare a b = Eq -> key_compare c a = key_compare c b.
Proof.
  intros H. rewrite (key_compare_antisym a c), (key_compare_antisym b c).
  rewrite (key_compare_eq_l a b c H). reflexivity.
Qed.

Lemma key_eqb_lt (a b : key) : key_lt a b -> key_eqb b a = false.
Proof.
  unfold key_lt, key_eqb. intros H. rewrite key_compare_antisym, H. reflexivity.
Qed.

Lemma group_rows_above (k : key) (groups : list (key * list row)) :
  Forall (fun g => key_lt k (fst g)) groups -> group_rows k groups = [].
Proof.
  unfold group_rows. induction 1 as [|g groups Hg _ IH]; simpl; [reflexivity|].
  rewrite (key_eqb_lt Hg). exact IH.
Qed.

Lemma add_to_group_rows (k0 k : key) (r : row) (groups : list (key * list row)) :
  StronglySorted (fun g h : key * list row => key_lt (fst g) (fst h)) groups ->
  group_rows k0 (add_to_group k r groups)
  = group_rows k0 groups ++ (if key_eqb k k0 then [r] else []).
Proof.
  induction 1 as [|[k' rs] groups Hs IH Hall]; simpl add_to_group.
  - unfold group_rows. simpl. destruct (key_eqb k k0); reflexivity.
  - destruct (key_compare k k') eqn:E.
    + unfold group_rows. simpl.
      assert (Ek : key_eqb k' k0 = key_eqb k k0)
        by (unfold key_eqb; rewrite (key_compare_eq_l k k' k0 E); reflexivity).
      rewrite Ek. destruct (key_eqb k k0); [reflexivity|].
      rewrite app_nil_r. reflexivity.
    + destruct (key_eqb k k0) eqn:Ek.
      * unfold group_rows at 1. simpl. rewrite Ek. simpl.
        assert (E0 : key_compare k k0 = Eq)
          by (unfold key_eqb in Ek; destruct (key_compare k k0);
              [reflexivity|discriminate|discriminate]).
        assert (Hlt : key_lt k0 k').
        { unfold key_lt. rewrite <- (key_compare_eq_l k k0 k' E0). exact E. }
        rewrite group_rows_above; [reflexivity|].
        constructor; [exact Hlt|].
        eapply Forall_impl; [|exact Hall].
        intros g Hg. simpl in Hg. apply key_lt_trans with k'; assumption.
      * unfold group_rows at 1. simpl. rewrite Ek.
        rewrite app_nil_r. reflexivity.
    + unfold group_rows at 1 2. simpl.
      destruct (key_eqb k' k0) eqn:Ek.
      * simpl.
        assert (E0 : key_compare k' k0 = Eq)
          by (unfold key_eqb in Ek; destruct (key_compare k' k0);
              [reflexivity|discriminate|discriminate]).
        assert (En : key_eqb k k0 = false)
          by (unfold key_eqb; rewrite <- (key_compare_eq_r k' k0 k E0), E;
              reflexivity).
        rewrite En, app_nil_r. reflexivity.
      * exact IH.
Qed.

Lemma group_rows_own (g : key * list row) (groups : list (key * list row)) :
  StronglySorted (fun g h : key * list row => key_lt (fst g) (fst h)) groups ->
  In g groups -> group_rows (fst g) groups = snd g.
Proof.
  induction 1 as [|g0 groups Hs IH Hall]; intros Hin; [contradiction|].
  unfold group_rows. simpl. destruct Hin as [->|Hin].
  - unfold key_eqb. rewrite key_compare_refl. reflexivity.
  - rewrite Forall_forall in Hall. unfold key_eqb at 1.
    rewrite (Hall g Hin : key_compare (fst g0) (fst g) = Lt).
    apply IH. exact Hin.
Qed.

Lemma add_to_group_nonempty (k : key) (r : row) (groups : list (key * list row)) :
  Forall (fun g => snd g <> []) groups ->
  Forall (fun g => snd g <> []) (add_to_group k r groups).
Proof.
  induction 1 as [|[k' rs] groups Hg Hall IH]; simpl.
  - constructor; [discriminate|constructor].
  - destruct (key_compare k k').
    + constructor; [|exact Hall]. simpl. destruct rs; discriminate.
    + constructor; [discriminate|]. constructor; assumption.
    + constructor; assumption.
Qed.

(** What [groupby] returns: the groups in strictly increasing key order,
    none empty, each holding the rows of its key in their order; and
    every key of a row has its group. *)
Lemma groupby_groups (df : DataFrame) (keys : list string) (js : list nat)
    (groups : list (key * list row)) :
  positions df keys = Ok js ->
  groupby df keys = Ok groups ->
  StronglySorted (fun g h : key * list row => key_lt (fst g) (fst h)) groups /\
  (forall g, In g groups ->
             snd g <> [] /\ snd g = filter (same_key js (fst g)) (rows df)) /\
  (forall k, group_rows k groups = filter (same_key js k) (rows df)).
Proof.
  unfold groupby. intros Hjs. rewrite Hjs. cbn [bind].
  destruct (forallb _ (rows df)); [|discriminate].
  intros H. injection H as <-.
  set (step := fun (groups : list (key * list row)) (r : row) =>
                 match row_key js r with
                 | Some k => add_to_group k r groups
                 | None => groups
                 end).
  assert (G : forall (l done : list row) (acc : list (key * list row)),
             StronglySorted (fun g h : key * list row => key_lt (fst g) (fst h)) acc ->
             Forall (fun g => snd g <> []) acc ->
             (forall k, group_rows k acc = filter (same_key js k) done) ->
             StronglySorted (fun g h : key * list row => key_lt (fst g) (fst h))
               (fold_left step l acc) /\
             Forall (fun g => snd g <> []) (fold_left step l acc) /\
             (forall k, group_rows k (fold_left step l acc)
                        = filter (same_key js k) (done ++ l))).
  { induction l as [|r l IH]; intros done acc Hs Hne Hrows; simpl fold_left.
    - rewrite app_nil_r. auto.
    - replace (done ++ r :: l) with ((done ++ [r]) ++ l)
        by (rewrite <- app_assoc; reflexivity).
      apply IH.
      + unfold step. destruct (row_key js r); [|exact Hs].
        apply Sorted_StronglySorted; [intros a b c; apply key_lt_trans|].
        apply add_to_group_sorted. apply StronglySorted_Sorted. exact Hs.
      + unfold step. destruct (row_key js r); [|exact Hne].
        apply add_to_group_nonempty. exact Hne.
      + intros k0. rewrite filter_app. simpl filter. unfold step, same_key at 2.
        destruct (row_key js r) as [k|].
        * rewrite (add_to_group_rows k0 k r Hs), Hrows. reflexivity.
        * rewrite Hrows, app_nil_r. reflexivity. }
  destruct (G (rows df) [] []) as (Hs & Hne & Hrows).
  - constructor.
  - constructor.
  - intros k. reflexivity.
  - split; [exact Hs|]. split; [|exact Hrows].
    intros g Hg. split.
    + rewrite Forall_forall in Hne. apply Hne. exact Hg.
    + specialize (Hrows (fst g)). simpl app in Hrows. rewrite <- Hrows.
      symmetry. apply group_rows_own; assumption.
Qed.

(** ** Forecaster: the seasonal template *)









Lemma key_eqb_single (x m : Q) : key_eqb [x] [m] = Qeq_bool x m.
Proof.
  unfold key_eqb. simpl.
  destruct (Qcompare_spec x m) as [H|H|H].
  - symmetry. apply Qeq_bool_iff. exact H.
  - destruct (Qeq_bool x m) eqn:E; [|reflexivity].
    apply Qeq_bool_iff in E. rewrite E in H. exfalso. exact (Qlt_irrefl _ H).
  - destruct (Qeq_bool x m) eqn:E; [|reflexivity].
    apply Qeq_bool_iff in E. rewrite E in H. exfalso. exact (Qlt_irrefl _ H).
Qed.

Lemma key_eqb_single_inv (x : Q) (k : key) :
  key_eqb [x] k = true -> exists m, k = [m] /\ x == m.
Proof.
  unfold key_eqb. destruct k as [|m [|m' k]]; simpl; try discriminate.
  - destruct (Qcompare_spec x m) as [H|H|H]; try discriminate.
    intros _. exists m. auto.
  - destruct (x ?= m); discriminate.
Qed.

Lemma same_key_single (t : DataFrame) (name : string) (j : nat) (m : Q) (r : row) :
  column_position name (columns t) = Some j ->
  same_key [j] [m] r
  = match field t name r with
    | Some x => Qeq_bool x m
    | None => false
    end.
Proof.
  intros Hj. unfold same_key, field. rewrite Hj. simpl.
  destruct (number_of (cell_at j r)) as [x|]; [|reflexivity].
  apply key_eqb_single.
Qed.

(** The groups of a [groupby] on one column: one group per value of the
    column, in increasing order, holding the rows with that value. *)
Lemma single_key_groups (df : DataFrame) (name : string)
    (groups : list (key * list row)) :
  groupby df [name] = Ok groups ->
  StronglySorted (fun g h : key * list row => key_lt (fst g) (fst h)) groups /\
  Forall (fun g => exists m, fst g = [m] /\ snd g = rows_with df name m /\
                             snd g <> []) groups /\
  (forall r m, In r (rows df) -> field df name r = Some m ->
               exists g m', In g groups /\ fst g = [m'] /\ m' == m).
Proof.
  intros H.
  assert (Hj : exists j, column_position name (columns df) = Some j).
  { unfold groupby, positions in H. simpl in H. unfold position in H.
    destruct (column_position name (columns df)) as [j|]; [|discriminate].
    exists j. reflexivity. }
  destruct Hj as [j Hj].
  assert (Hjs : positions df [name] = Ok [j]).
  { unfold positions. simpl. unfold position. rewrite Hj. reflexivity. }
  destruct (groupby_groups df [name] Hjs H) as (Hs & Hg & Hrows).
  assert (Hwith : forall m, filter (same_key [j] [m]) (rows df) = rows_with df name m).
  { intros m. unfold rows_with. apply filter_ext. intros r.
    apply same_key_single. exact Hj. }
  split; [exact Hs|]. split.
  - apply Forall_forall. intros [k rs0] Hin.
    destruct (Hg (k, rs0) Hin) as [Hne Heq]. simpl in Hne, Heq |- *.
    assert (Hm : exists m, k = [m]).
    { destruct rs0 as [|r rs]; [contradiction|].
      assert (Hr : In r (filter (same_key [j] k) (rows df)))
        by (rewrite <- Heq; left; reflexivity).
      apply filter_In in Hr. destruct Hr as [_ Hr]. unfold same_key in Hr. simpl in Hr.
      destruct (number_of (cell_at j r)) as [x|]; [|discriminate].
      apply key_eqb_single_inv in Hr. destruct Hr as (m & Hm & _).
      exists m. exact Hm. }
    destruct Hm as [m Hm]. exists m. split; [exact Hm|]. split; [|exact Hne].
    rewrite Heq, Hm. apply Hwith.
  - intros r m Hr Hf.
    assert (Hin : In r (group_rows [m] groups)).
    { rewrite Hrows, Hwith. unfold rows_with. apply filter_In. split; [exact Hr|].
      rewrite Hf. apply Qeq_bool_iff. reflexivity. }
    unfold group_rows in Hin.
    destruct (find (fun g => key_eqb (fst g) [m]) groups) as [g|] eqn:E;
      [|contradiction].
    apply find_some in E. destruct E as [Hg' Hk].
    destruct (Hg g Hg') as [Hne Heq].
    destruct (fst g) as [|m' [|m'' k]] eqn:Ek; unfold key_eqb in Hk; simpl in Hk;
      try discriminate.
    + exists g, m'. split; [exact Hg'|]. split; [exact Ek|].
      destruct (Qcompare_spec m' m) as [Hq|Hq|Hq]; try discriminate. exact Hq.
    + destruct (m' ?= m); discriminate.
Qed.

(** ** MonthlyConsumption *)

Lemma sort_rows_sorted (le : row -> row -> bool) (l : list row) :
  Sorted (fun a b => le a b = true) l -> sort_rows le l = l.
Proof.
  induction 1 as [|a l Hs IH Hhd]; [reflexivity|].
  change (sort_rows le (a :: l)) with (insert_sorted le a (sort_rows le l)).
  rewrite IH.
  destruct Hhd as [|b l Hab]; simpl; [reflexivity|]. rewrite Hab. reflexivity.
Qed.

Lemma key_lt_single (a b : Q) : key_lt [a] [b] -> a < b.
Proof.
  unfold key_lt. simpl. destruct (Qcompare_spec a b) as [H|H|H]; try discriminate.
  intros _. exact H.
Qed.

Lemma monthly_table (cons out : DataFrame) :
  groupby_agg cons ["Month"%string]
    [(Analysis.total_load, agg_mean); ("MonthName"%string, agg_first)] = Ok out ->
  exists groups jl cells,
    groupby cons ["Month"%string] = Ok groups /\
    column_position Analysis.total_load (columns cons) = Some jl /\
    Forall2 (fun (g : key * list row) c =>
               exists v name,
                 aggregate agg_mean (map (cell_at jl) (snd g)) = Ok v /\
                 c = map Num (fst g) ++ [v; name])
            groups cells /\
    out = mkDataFrame ["Month"%string; Analysis.total_load; "MonthName"%string]
            (number_rows 0 cells).
Proof.
  unfold groupby_agg.
  change (dict_entries []
            [(Analysis.total_load, agg_mean); ("MonthName"%string, agg_first)])
    with [(Analysis.total_load, agg_mean); ("MonthName"%string, agg_first)].
  intros H.
  apply bind_Ok_inv in H. destruct H as (groups & Hg & H).
  apply bind_Ok_inv in H. destruct H as (js & Hjs & H).
  apply bind_Ok_inv in H. destruct H as (cells & Hcells & H).
  injection H as <-.
  apply positions_Forall2 in Hjs.
  inversion Hjs as [|? jl ? js1 Hjl Hjs1]; subst.
  inversion Hjs1 as [|? jn ? js2 Hjn Hjs2]; subst.
  inversion Hjs2; subst.
  exists groups, jl, cells. split; [exact Hg|]. split; [exact Hjl|].
  split; [|reflexivity].
  apply mapM_Forall2 in Hcells.
  eapply Forall2_impl; [|exact Hcells].
  intros g c Hc. simpl in Hc.
  apply bind_Ok_inv in Hc. destruct Hc as (aggs & Haggs & Hc). injection Hc as <-.
  apply bind_Ok_inv in Haggs. destruct Haggs as (v & Hv & Haggs).
  injection Haggs as <-.
  eexists v, _. split; [exact Hv|reflexivity].
Qed.

Lemma Forall2_In_r (A B : Type) (R : A -> B -> Prop) (l : list A) (l' : list B) (y : B) :
  Forall2 R l l' -> In y l' -> exists x, In x l /\ R x y.
Proof.
  induction 1 as [|x y' l l' Hxy _ IH]; intros Hin; [contradiction|].
  destruct Hin as [<-|Hin].
  - exists x. split; [left; reflexivity|exact Hxy].
  - destruct (IH Hin) as (x' & Hx' & HR). exists x'. split; [right|]; assumption.
Qed.

Lemma Forall2_In_l (A B : Type) (R : A -> B -> Prop) (l : list A) (l' : list B) (x : A) :
  Forall2 R l l' -> In x l -> exists y, In y l' /\ R x y.
Proof.
  induction 1 as [|x' y l l' Hxy _ IH]; intros Hin; [contradiction|].
  destruct Hin as [<-|Hin].
  - exists y. split; [left; reflexivity|exact Hxy].
  - destruct (IH Hin) as (y' & Hy' & HR). exists y'. split; [right|]; assumption.
Qed.

Lemma sorted_by_numbers (j : nat) (l : list row) (values : list Q) :
  map (cell_at j) l = map Num values ->
  StronglySorted Qlt values ->
  Sorted (fun a b => option_le Qle_bool (number_of (cell_at j a))
                                        (number_of (cell_at j b)) = true) l.
Proof.
  revert values. induction l as [|r l IH]; intros [|v values] H Hs;
    try discriminate; [constructor|].
  simpl in H. injection H as Hr Hl. inversion Hs as [|? ? Hs' Hall]; subst.
  constructor; [apply (IH values); assumption|].
  destruct l as [|r' l]; [constructor|]. destruct values as [|v' values];
    [discriminate|].
  simpl in Hl. injection Hl as Hr' _. constructor.
  rewrite Hr, Hr'. simpl. apply Qle_bool_iff. apply Qlt_le_weak.
  inversion Hall; subst. assumption.
Qed.

Lemma monthly_consumption_Ok (cons out : DataFrame) :
  calculate_monthly_consumption cons = Ok out ->
  exists groups jl cells,
    groupby cons ["Month"%string] = Ok groups /\
    column_position Analysis.total_load (columns cons) = Some jl /\
    Forall2 (fun (g : key * list row) c =>
               exists v name,
                 aggregate agg_mean (map (cell_at jl) (snd g)) = Ok v /\
                 c = map Num (fst g) ++ [v; name])
            groups cells /\
    map (cell_at 0) (number_rows 0 cells)
    = map Num (map (fun g : key * list row => hd 0 (fst g)) groups) /\
    StronglySorted Qlt (map (fun g : key * list row => hd 0 (fst g)) groups) /\
    out = mkDataFrame ["Month"%string; Analysis.total_load; "MonthName"%string]
            (number_rows 0 cells) /\
    groupby_agg cons ["Month"%string]
      [(Analysis.total_load, agg_mean); ("MonthName"%string, agg_first)] = Ok out.
Proof.
  unfold calculate_monthly_consumption. intros H.
  apply bind_Ok_inv in H. destruct H as (table & Ht & H).
  destruct (@monthly_table cons table Ht)
    as (groups & jl & cells & Hg & Hjl & Hcells & ->).
  destruct (@single_key_groups cons "Month" groups Hg) as (Hs & Hsingle & _).
  assert (Hcol : forall n, map (cell_at 0) (number_rows n cells)
                 = map Num (map (fun g : key * list row => hd 0 (fst g)) groups)).
  { clear Hs Ht H Hg. induction Hcells as [|g c groups cells Hc _ IH]; intros n;
      [reflexivity|].
    inversion Hsingle as [|? ? (m & Hm & _) Hrest]; subst.
    destruct Hc as (v & name & _ & ->). destruct g as [k rs]. simpl in Hm.
    subst k. simpl. unfold cell_at at 1. simpl. f_equal. apply IH. exact Hrest. }
  assert (Hmonths : StronglySorted Qlt
                      (map (fun g : key * list row => hd 0 (fst g)) groups)).
  { clear Hcells Hcol Ht H Hg. induction Hs as [|g groups Hs IH Hall];
      [constructor|].
    inversion Hsingle as [|? ? (m & Hm & _) Hrest]; subst. simpl. constructor.
    - apply IH. exact Hrest.
    - rewrite Forall_forall in *. intros q Hq. apply in_map_iff in Hq.
      destruct Hq as (h & <- & Hh). destruct (Hrest h Hh) as (m' & Hm' & _).
      specialize (Hall h Hh). destruct g as [k rs]. destruct h as [k' rs'].
      simpl in *. subst k k'. simpl. apply key_lt_single. exact Hall. }
  exists groups, jl, cells.
  assert (Hout : out = mkDataFrame
                         ["Month"%string; Analysis.total_load; "MonthName"%string]
                         (number_rows 0 cells)).
  { unfold sort_values in H. cbn [columns rows] in H.
    change (position _ "Month")
      with (@Ok nat O) in H.
    cbn [bind] in H. rewrite (Hcol 0%Z) in H.
    assert (Hnum : forall l, forallb is_number (map Num l) = true)
      by (induction l; simpl; auto).
    rewrite Hnum in H.
    rewrite (@sort_rows_sorted _ _ (@sorted_by_numbers 0 _ _ (Hcol 0%Z) Hmonths)) in H.
    injection H as <-. reflexivity. }
  repeat split; try assumption; try apply Hcol.
  rewrite Hout. exact Ht.
Qed.

(** X22.  The table of monthly consumption comes out of the group-by in
    month order, each month once: its months increase strictly, and the
    [sort_values] call that follows changes nothing. *)
Theorem monthly_consumption_in_month_order (cons out : DataFrame) :
  calculate_monthly_consumption cons = Ok out ->
  groupby_agg cons ["Month"%string]
    [(Analysis.total_load, agg_mean); ("MonthName"%string, agg_first)] = Ok out /\
  exists months,
    map (cell_at 0) (rows out) = map Num months /\ StronglySorted Qlt months.
Proof.
  intros H. destruct (@monthly_consumption_Ok cons out H)
    as (groups & jl & cells & _ & _ & _ & Hcol & Hs & -> & Ht).
  split; [exact Ht|].
  exists (map (fun g : key * list row => hd 0 (fst g)) groups).
  split; [exact Hcol|exact Hs].
Qed.

(** The theorem on a table that lists March 2023, January 2023 and March
    2022 in this order: January comes first. *)
Lemma monthly_consumption_in_month_order_witness :
  exists months,
    map (cell_at 0)
        [(0%Z, [Num 1; Num 100; Str "month"]);
         (1%Z, [Num 3; Num (200 # 2); Str "month"])]
    = map Num months /\ StronglySorted Qlt months.
Proof.
  apply (proj2 (@monthly_consumption_in_month_order consumption_unordered
                  (mkDataFrame
                     ["Month"%string; Analysis.total_load; "MonthName"%string]
                     [(0%Z, [Num 1; Num 100; Str "month"]);
                      (1%Z, [Num 3; Num (200 # 2); Str "month"])])
                  eq_refl)).
Defined.

Lemma counted_numbers (t : DataFrame) (name : string) (j : nat) (rs : list row) :
  column_position name (columns t) = Some j ->
  List.length (numbers (map (cell_at j) rs))
  = List.length (filter (fun r => match field t name r with
                                  | Some _ => true
                                  | None => false
                                  end) rs).
Proof.
  intros Hj. induction rs as [|r rs IH]; simpl; [reflexivity|].
  unfold field at 1. rewrite Hj.
  destruct (number_of (cell_at j r)); simpl; rewrite IH; reflexivity.
Qed.

(** The mean [agg] takes of a column over a group is the mean of the
    column over the rows of the group. *)
Lemma aggregate_mean_field (t : DataFrame) (name : string) (j : nat)
    (rs : list row) (v : cell) :
  column_position name (columns t) = Some j ->
  aggregate agg_mean (map (cell_at j) rs) = Ok v ->
  v = field_mean t name rs.
Proof.
  intros Hj H. unfold aggregate, series_sum in H.
  destruct (forallb is_number (map (cell_at j) rs)); [|discriminate].
  cbn [bind] in H. injection H as <-. unfold field_mean.
  rewrite (@field_total_position t name j rs Hj). unfold rows_total.
  generalize (@counted_numbers t name j rs Hj).
  destruct (numbers (map (cell_at j) rs)) as [|x xs];
    destruct (filter _ rs) as [|y ys]; intros Hlen; try discriminate;
    [reflexivity|].
  rewrite Hlen. reflexivity.
Qed.

(** X23.  The table of monthly consumption has a row for exactly the
    months that occur in the consumption table: every row holds a month
    that occurs and the mean load of the rows of that month (of all
    years together), missing when none of them has a load, and every
    month of the consumption table has its row. *)
Theorem monthly_consumption_rows (cons out : DataFrame) :
  calculate_monthly_consumption cons = Ok out ->
  (forall r', In r' (rows out) ->
     exists m,
       cell_at 0 r' = Num m /\
       rows_with cons "Month" m <> [] /\
       cell_at 1 r' = field_mean cons Analysis.total_load (rows_with cons "Month" m)) /\
  (forall r m, In r (rows cons) -> field cons "Month" r = Some m ->
     exists r' m', In r' (rows out) /\ cell_at 0 r' = Num m' /\ m' == m).
Proof.
  intros H. destruct (@monthly_consumption_Ok cons out H)
    as (groups & jl & cells & Hg & Hjl & Hcells & _ & _ & -> & _).
  destruct (@single_key_groups cons "Month" groups Hg) as (_ & Hsingle & Hall).
  rewrite Forall_forall in Hsingle. cbn [rows]. split.
  - intros r' Hr'.
    assert (Hc : In (snd r') cells).
    { rewrite <- (number_rows_cells 0 cells). apply in_map. exact Hr'. }
    destruct (@Forall2_In_r _ _ _ _ _ _ Hcells Hc) as ([k rs] & Hgin & v & name & Hv & Hcell).
    destruct (Hsingle (k, rs) Hgin) as (m & Hm & Hrs & Hne). simpl in *. subst k.
    exists m. unfold cell_at. rewrite Hcell. simpl. split; [reflexivity|].
    split; [rewrite <- Hrs; exact Hne|].
    rewrite <- Hrs. exact (@aggregate_mean_field cons Analysis.total_load jl rs v Hjl Hv).
  - intros r m Hr Hf. destruct (Hall r m Hr Hf) as ([k rs] & m' & Hgin & Hk & Hm').
    simpl in Hk. subst k.
    destruct (@Forall2_In_l _ _ _ _ _ _ Hcells Hgin) as (c & Hc & v & name & _ & Hcell).
    rewrite <- (number_rows_cells 0 cells) in Hc. apply in_map_iff in Hc.
    destruct Hc as (r' & Hsnd & Hr'). exists r', m'.
    split; [exact Hr'|]. split; [|exact Hm'].
    unfold cell_at. rewrite Hsnd, Hcell. reflexivity.
Qed.

(** The theorem on the same table: the row of March holds the mean, 100,
    of the loads 90 of March 2023 and 110 of March 2022. *)
Lemma monthly_consumption_rows_witness :
  exists m,
    cell_at 0 (1%Z, [Num 3; Num (200 # 2); Str "month"]) = Num m /\
    rows_with consumption_unordered "Month" m <> [] /\
    cell_at 1 (1%Z, [Num 3; Num (200 # 2); Str "month"])
    = field_mean consumption_unordered Analysis.total_load
        (rows_with consumption_unordered "Month" m).
Proof.
  apply (proj1 (@monthly_consumption_rows consumption_unordered
                  (mkDataFrame
                     ["Month"%string; Analysis.total_load; "MonthName"%string]
                     [(0%Z, [Num 1; Num 100; Str "month"]);
                      (1%Z, [Num 3; Num (200 # 2); Str "month"])])
                  eq_refl)).
  right. left. reflexivity.
Defined.

(** ** Group-by on a column of text *)

Lemma ascii_compare_refl (a : ascii) : Ascii.compare a a = Eq.
Proof. unfold Ascii.compare. apply N.compare_refl. Qed.

Lemma string_compare_refl (s : string) : String.compare s s = Eq.
Proof.
  induction s as [|a s IH]; simpl; [reflexivity|].
  rewrite ascii_compare_refl. exact IH.
Qed.

Lemma text_lt_trans (a b c : string) : text_lt a b -> text_lt b c -> text_lt a c.
Proof.
  unfold text_lt. revert b c.
  induction a as [|x a IH]; intros [|y b] [|z c]; simpl; try discriminate;
    try reflexivity.
  destruct (Ascii.compare x y) eqn:Exy; try discriminate;
    destruct (Ascii.compare y z) eqn:Eyz; try discriminate; intros H1 H2.
  - apply Ascii.compare_eq_iff in Exy, Eyz. subst. rewrite ascii_compare_refl.
    apply (IH b c H1 H2).
  - apply Ascii.compare_eq_iff in Exy. subst. rewrite Eyz. reflexivity.
  - apply Ascii.compare_eq_iff in Eyz. subst. rewrite Exy. reflexivity.
  - unfold Ascii.compare in *. rewrite N.compare_lt_iff in *.
    assert (E : (N_of_ascii x < N_of_ascii z)%N) by lia.
    apply N.compare_lt_iff in E. rewrite E. reflexivity.
Qed.

Lemma text_lt_neq (a b : string) : text_lt a b -> String.eqb b a = false.
Proof.
  unfold text_lt. intros H. destruct (String.eqb_spec b a) as [->|_];
    [|reflexivity].
  rewrite string_compare_refl in H. discriminate.
Qed.

Lemma add_to_text_group_sorted (k : string) (r : row)
    (groups : list (string * list row)) :
  Sorted (fun g h => text_lt (fst g) (fst h)) groups ->
  Sorted (fun g h => text_lt (fst g) (fst h)) (add_to_text_group k r groups).
Proof.
  induction groups as [|[k' rs] groups IH]; simpl; intros H.
  - repeat constructor.
  - inversion H as [|? ? Hs Hh]; subst.
    destruct (String.compare k k') eqn:E.
    + constructor; [exact Hs|]. destruct Hh; constructor; assumption.
    + constructor; [exact H|]. constructor. exact E.
    + constructor; [apply IH; exact Hs|].
      assert (Hlt : text_lt k' k)
        by (unfold text_lt; rewrite String.compare_antisym, E; reflexivity).
      destruct groups as [|[k'' rs''] groups]; simpl.
      * constructor. exact Hlt.
      * inversion Hh; subst. destruct (String.compare k k''); constructor; assumption.
Qed.

Lemma text_group_rows_above (k : string) (groups : list (string * list row)) :
  Forall (fun g => text_lt k (fst g)) groups -> text_group_rows k groups = [].
Proof.
  unfold text_group_rows. induction 1 as [|g groups Hg _ IH]; simpl; [reflexivity|].
  rewrite (text_lt_neq Hg). exact IH.
Qed.

Lemma add_to_text_group_rows (k0 k : string) (r : row)
    (groups : list (string * list row)) :
  StronglySorted (fun g h : string * list row => text_lt (fst g) (fst h)) groups ->
  text_group_rows k0 (add_to_text_group k r groups)
  = text_group_rows k0 groups ++ (if String.eqb k k0 then [r] else []).
Proof.
  induction 1 as [|[k' rs] groups Hs IH Hall]; simpl add_to_text_group.
  - unfold text_group_rows. simpl. destruct (String.eqb k k0); reflexivity.
  - destruct (String.compare k k') eqn:E.
    + apply String.compare_eq_iff in E. subst k'.
      unfold text_group_rows. simpl.
      destruct (String.eqb k k0); [reflexivity|]. rewrite app_nil_r. reflexivity.
    + unfold text_group_rows at 1. simpl.
      destruct (String.eqb_spec k k0) as [<-|Hne]; simpl.
      * rewrite text_group_rows_above; [reflexivity|].
        constructor; [exact E|].
        eapply Forall_impl; [|exact Hall].
        intros g Hg. simpl in Hg. apply text_lt_trans with k'; assumption.
      * rewrite app_nil_r. reflexivity.
    + unfold text_group_rows at 1 2. simpl.
      destruct (String.eqb_spec k' k0) as [<-|Hne]; simpl.
      * destruct (String.eqb_spec k k') as [->|_].
        -- rewrite string_compare_refl in E. discriminate.
        -- rewrite app_nil_r. reflexivity.
      * exact IH.
Qed.

Lemma text_group_rows_own (g : string * list row) (groups : list (string * list row)) :
  StronglySorted (fun g h : string * list row => text_lt (fst g) (fst h)) groups ->
  In g groups -> text_group_rows (fst g) groups = snd g.
Proof.
  induction 1 as [|g0 groups Hs IH Hall]; intros Hin; [contradiction|].
  unfold text_group_rows. simpl. destruct Hin as [->|Hin].
  - rewrite String.eqb_refl. reflexivity.
  - rewrite Forall_forall in Hall.
    destruct (String.eqb_spec (fst g0) (fst g)) as [E|_].
    + specialize (Hall g Hin). unfold text_lt in Hall.
      rewrite E, string_compare_refl in Hall. discriminate.
    + apply IH. exact Hin.
Qed.

Lemma add_to_text_group_nonempty (k : string) (r : row)
    (groups : list (string * list row)) :
  Forall (fun g => snd g <> []) groups ->
  Forall (fun g => snd g <> []) (add_to_text_group k r groups).
Proof.
  induction 1 as [|[k' rs] groups Hg Hall IH]; simpl.
  - constructor; [discriminate|constructor].
  - destruct (String.compare k k').
    + constructor; [|exact Hall]. simpl. destruct rs; discriminate.
    + constructor; [discriminate|]. constructor; assumption.
    + constructor; assumption.
Qed.

(** What [groupby] returns on a column of text: the groups in strictly
    increasing order of their names, none empty, each holding the rows
    of its name in their order. *)
Lemma groupby_text_groups (df : DataFrame) (name : string)
    (groups : list (string * list row)) :
  groupby_text df name = Ok groups ->
  StronglySorted (fun g h : string * list row => text_lt (fst g) (fst h)) groups /\
  (forall g, In g groups ->
             snd g <> [] /\ snd g = rows_named df name (fst g)) /\
  (forall k, text_group_rows k groups = rows_named df name k).
Proof.
  unfold groupby_text, position.
  destruct (column_position name (columns df)) as [j|] eqn:Hj; [|discriminate].
  cbn [bind]. destruct (forallb _ (rows df)); [|discriminate].
  intros H. injection H as <-.
  set (step := fun (groups : list (string * list row)) (r : row) =>
                 match cell_at j r with
                 | Str k => add_to_text_group k r groups
                 | _ => groups
                 end).
  set (named := fun (k : string) (r : row) =>
                  match cell_of df name r with
                  | Some (Str x) => String.eqb x k
                  | _ => false
                  end).
  assert (G : forall (l done : list row) (acc : list (string * list row)),
             StronglySorted (fun g h : string * list row => text_lt (fst g) (fst h))
               acc ->
             Forall (fun g => snd g <> []) acc ->
             (forall k, text_group_rows k acc = filter (named k) done) ->
             StronglySorted (fun g h : string * list row => text_lt (fst g) (fst h))
               (fold_left step l acc) /\
             Forall (fun g => snd g <> []) (fold_left step l acc) /\
             (forall k, text_group_rows k (fold_left step l acc)
                        = filter (named k) (done ++ l))).
  { induction l as [|r l IH]; intros done acc Hs Hne Hrows; simpl fold_left.
    - rewrite app_nil_r. auto.
    - replace (done ++ r :: l) with ((done ++ [r]) ++ l)
        by (rewrite <- app_assoc; reflexivity).
      apply IH.
      + unfold step. destruct (cell_at j r); try exact Hs.
        apply Sorted_StronglySorted; [intros a b c; apply text_lt_trans|].
        apply add_to_text_group_sorted. apply StronglySorted_Sorted. exact Hs.
      + unfold step. destruct (cell_at j r); try exact Hne.
        apply add_to_text_group_nonempty. exact Hne.
      + intros k0. rewrite filter_app. simpl filter. unfold step, named at 2.
        unfold cell_of. rewrite Hj. simpl option_map.
        destruct (cell_at j r) as [q| |s|b];
          try (rewrite Hrows, app_nil_r; reflexivity).
        rewrite (add_to_text_group_rows k0 s r Hs), Hrows. reflexivity. }
  destruct (G (rows df) [] []) as (Hs & Hne & Hrows).
  - constructor.
  - constructor.
  - intros k. reflexivity.
  - simpl app in Hrows. split; [exact Hs|]. split; [|exact Hrows].
    intros g Hg. split.
    + rewrite Forall_forall in Hne. apply Hne. exact Hg.
    + unfold rows_named. fold (named (fst g)). rewrite <- (Hrows (fst g)).
      symmetry. apply text_group_rows_own; assumption.
Qed.

(** ** Sorting *)

Lemma insert_sorted_perm (le : row -> row -> bool) (r : row) (l : list row) :
  Permutation (insert_sorted le r l) (r :: l).
Proof.
  induction l as [|x l IH]; simpl; [apply Permutation_refl|].
  destruct (le r x); [apply Permutation_refl|].
  apply Permutation_trans with (x :: r :: l); [|apply perm_swap].
  apply perm_skip. exact IH.
Qed.

Lemma sort_rows_perm (le : row -> row -> bool) (l : list row) :
  Permutation (sort_rows le l) l.
Proof.
  induction l as [|r l IH]; [apply Permutation_refl|].
  change (sort_rows le (r :: l)) with (insert_sorted le r (sort_rows le l)).
  apply Permutation_trans with (r :: sort_rows le l);
    [apply insert_sorted_perm|apply perm_skip; exact IH].
Qed.

Lemma insert_sorted_Sorted (le : row -> row -> bool) (r : row) (l : list row) :
  (forall a b, le a b = true \/ le b a = true) ->
  Sorted (fun a b => le a b = true) l ->
  Sorted (fun a b => le a b = true) (insert_sorted le r l).
Proof.
  intros Htotal. induction l as [|x l IH]; simpl; intros H.
  - repeat constructor.
  - destruct (le r x) eqn:E.
    + constructor; [exact H|]. constructor. exact E.
    + inversion H as [|? ? Hs Hh]; subst. constructor; [apply IH; exact Hs|].
      assert (Hxr : le x r = true) by (destruct (Htotal r x); congruence).
      destruct l as [|y l]; simpl.
      * constructor. exact Hxr.
      * inversion Hh; subst. destruct (le r y); constructor; assumption.
Qed.

Lemma sort_rows_Sorted (le : row -> row -> bool) (l : list row) :
  (forall a b, le a b = true \/ le b a = true) ->
  Sorted (fun a b => le a b = true) (sort_rows le l).
Proof.
  intros Htotal. induction l as [|r l IH]; [constructor|].
  change (sort_rows le (r :: l)) with (insert_sorted le r (sort_rows le l)).
  apply insert_sorted_Sorted; assumption.
Qed.

Lemma option_le_nat_total (a b : option nat) :
  option_le Nat.leb a b = true \/ option_le Nat.leb b a = true.
Proof.
  destruct a as [x|], b as [y|]; simpl; auto.
  destruct (Nat.leb_spec x y); [left; reflexivity|right].
  apply Nat.leb_le. lia.
Qed.

Lemma option_le_nat_trans (a b c : option nat) :
  option_le Nat.leb a b = true -> option_le Nat.leb b c = true ->
  option_le Nat.leb a c = true.
Proof.
  destruct a as [x|], b as [y|], c as [z|]; simpl; try discriminate; auto.
  rewrite !Nat.leb_le. lia.
Qed.

Lemma Permutation_filter (A : Type) (f : A -> bool) (l l' : list A) :
  Permutation l l' -> Permutation (filter f l) (filter f l').
Proof.
  induction 1 as [|x l l' _ IH|x y l|l l' l'' _ IH1 _ IH2]; simpl.
  - constructor.
  - destruct (f x); [apply perm_skip|]; exact IH.
  - destruct (f x), (f y); try apply Permutation_refl. apply perm_swap.
  - apply Permutation_trans with (filter f l'); assumption.
Qed.

(** Ranks that are sorted, and of which no two are the same category,
    increase strictly; the cells without a category come last. *)
Lemma sorted_ranks_strict (ranks : list (option nat)) :
  StronglySorted (fun a b => option_le Nat.leb a b = true) ranks ->
  NoDup (filter (@is_some nat) ranks) ->
  StronglySorted (fun a b => match b with
                             | Some y => exists x, a = Some x /\ (x < y)%nat
                             | None => True
                             end) ranks.
Proof.
  induction 1 as [|a ranks Hs IH Hall]; intros Hdup; [constructor|].
  constructor.
  - apply IH. simpl in Hdup. destruct (is_some a); [|exact Hdup].
    inversion Hdup; assumption.
  - rewrite Forall_forall in *. intros b Hb. specialize (Hall b Hb).
    destruct b as [y|]; [|exact I].
    destruct a as [x|]; [|discriminate]. simpl in Hall, Hdup.
    exists x. split; [reflexivity|]. apply Nat.leb_le in Hall.
    assert (x <> y); [|lia].
    intros ->. inversion Hdup as [|? ? Hnot _]; subst. apply Hnot.
    apply filter_In. split; [exact Hb|reflexivity].
Qed.

(** ** WeekdayConsumption *)

Lemma category_rank_known (categories : list string) (s : string) :
  existsb (String.eqb s) categories = false -> category_rank categories s = None.
Proof.
  unfold category_rank. induction categories as [|c l IH]; simpl; [reflexivity|].
  rewrite (String.eqb_sym s c). destruct (String.eqb c s); simpl; [discriminate|].
  intros H. rewrite (IH H). reflexivity.
Qed.

Lemma category_rank_In (categories : list string) (s : string) (x : nat) :
  category_rank categories s = Some x -> In s categories.
Proof.
  intros H. apply column_position_In. exists x. exact H.
Qed.

Lemma set_categorical (categories : list string) (n : Z) (cells : list (list cell)) :
  map (fun rv : row * cell => (fst (fst rv), set_cell 0 (snd rv) (snd (fst rv))))
      (combine (number_rows n cells)
               (categorical (map (cell_at 0) (number_rows n cells)) categories))
  = number_rows n
      (map (fun c => set_cell 0
                       (match nth 0 c NaN with
                        | Str s => if existsb (String.eqb s) categories
                                   then Str s else NaN
                        | _ => NaN
                        end) c) cells).
Proof.
  revert n. induction cells as [|c cells IH]; intros n; simpl; [reflexivity|].
  f_equal. apply IH.
Qed.

Lemma weekday_consumption_Ok (cons out : DataFrame) :
  calculate_weekday_consumption cons = Ok out ->
  exists groups jl table,
    groupby_text cons "WeekDay" = Ok groups /\
    column_position Analysis.total_load (columns cons) = Some jl /\
    Forall2 (fun (g : string * list row) c =>
               exists v,
                 aggregate agg_mean (map (cell_at jl) (snd g)) = Ok v /\
                 c = [if existsb (String.eqb (fst g)) weekday_order
                      then Str (fst g) else NaN; v])
            groups table /\
    Permutation (rows out) (number_rows 0 table) /\
    StronglySorted
      (fun a b => option_le Nat.leb (cell_rank weekday_order (cell_at 0 a))
                                    (cell_rank weekday_order (cell_at 0 b)) = true)
      (rows out).
Proof.
  unfold calculate_weekday_consumption. intros H.
  apply bind_Ok_inv in H. destruct H as (groups & Hg & H).
  apply bind_Ok_inv in H. destruct H as (jl & Hjl & H).
  apply bind_Ok_inv in H. destruct H as (cells & Hcells & H).
  unfold getitem at 1 in H. cbn [columns rows] in H.
  change (column_position "WeekDay" ["WeekDay"%string; Analysis.total_load])
    with (Some O) in H.
  cbn [bind] in H. unfold set_column in H. cbn [columns rows] in H.
  change (column_position "WeekDay" ["WeekDay"%string; Analysis.total_load])
    with (Some O) in H.
  lazy iota beta in H. rewrite set_categorical in H.
  unfold sort_values_categorical, position in H. cbn [columns rows] in H.
  change (column_position "WeekDay" ["WeekDay"%string; Analysis.total_load])
    with (Some O) in H.
  cbn [bind] in H. injection H as <-. cbn [rows].
  exists groups, jl,
    (map (fun c => set_cell 0
                     (match nth 0 c NaN with
                      | Str s => if existsb (String.eqb s) weekday_order
                                 then Str s else NaN
                      | _ => NaN
                      end) c) cells).
  split; [exact Hg|]. split.
  { unfold position in Hjl.
    destruct (column_position Analysis.total_load (columns cons)); [|discriminate].
    injection Hjl as <-. reflexivity. }
  split; [|split].
  - apply mapM_Forall2 in Hcells. clear Hg.
    induction Hcells as [|g c groups cells Hc _ IH]; simpl; constructor; [|exact IH].
    apply bind_Ok_inv in Hc. destruct Hc as (v & Hv & Hc). injection Hc as <-.
    exists v. split; [exact Hv|]. reflexivity.
  - apply sort_rows_perm.
  - apply Sorted_StronglySorted.
    + intros a b c. apply option_le_nat_trans.
    + apply (sort_rows_Sorted
               (fun a b => option_le Nat.leb (cell_rank weekday_order (cell_at 0 a))
                                             (cell_rank weekday_order (cell_at 0 b)))).
      intros a b. apply option_le_nat_total.
Qed.

Lemma StronglySorted_map (A B : Type) (R : B -> B -> Prop) (f : A -> B) (l : list A) :
  StronglySorted (fun a b => R (f a) (f b)) l <-> StronglySorted R (map f l).
Proof.
  induction l as [|x l IH]; simpl; split; intros H; try constructor;
    inversion H as [|? ? Hs Hall]; subst.
  - apply IH. exact Hs.
  - rewrite Forall_forall in *. intros b Hb. apply in_map_iff in Hb.
    destruct Hb as (a & <- & Ha). apply Hall. exact Ha.
  - apply IH. exact Hs.
  - rewrite Forall_forall in *. intros a Ha. apply Hall. apply in_map. exact Ha.
Qed.

Lemma text_sorted_NoDup (groups : list (string * list row)) :
  StronglySorted (fun g h : string * list row => text_lt (fst g) (fst h)) groups ->
  NoDup (map fst groups).
Proof.
  induction 1 as [|g groups Hs IH Hall]; simpl; constructor; [|exact IH].
  intros Hin. apply in_map_iff in Hin. destruct Hin as (h & E & Hh).
  rewrite Forall_forall in Hall. specialize (Hall h Hh). unfold text_lt in Hall.
  rewrite E, string_compare_refl in Hall. discriminate.
Qed.

Lemma category_ranks_NoDup (categories names : list string) :
  NoDup names ->
  NoDup (filter (@is_some nat) (map (category_rank categories) names)).
Proof.
  induction 1 as [|s names Hnot Hdup IH]; simpl; [constructor|].
  destruct (category_rank categories s) as [x|] eqn:E; simpl; [|exact IH].
  constructor; [|exact IH].
  intros Hin. apply filter_In in Hin. destruct Hin as [Hin _].
  apply in_map_iff in Hin. destruct Hin as (s' & E' & Hs').
  apply column_position_nth in E. apply column_position_nth in E'.
  assert (s' = s) by congruence. subst s'. contradiction.
Qed.

Lemma weekday_ranks (jl : nat) (groups : list (string * list row))
    (table : list (list cell)) (n : Z) :
  Forall2 (fun (g : string * list row) c =>
             exists v,
               aggregate agg_mean (map (cell_at jl) (snd g)) = Ok v /\
               c = [if existsb (String.eqb (fst g)) weekday_order
                    then Str (fst g) else NaN; v])
          groups table ->
  map (fun r => cell_rank weekday_order (cell_at 0 r)) (number_rows n table)
  = map (category_rank weekday_order) (map fst groups).
Proof.
  intros H. revert n. induction H as [|g c groups table Hc _ IH]; intros n;
    [reflexivity|].
  destruct Hc as (v & _ & ->). cbn [map number_rows fst]. f_equal; [|apply IH].
  unfold cell_at. cbn [snd nth].
  destruct (existsb (String.eqb (fst g)) weekday_order) eqn:E; [reflexivity|].
  symmetry. apply category_rank_known. exact E.
Qed.

(** X24.  The table of weekday consumption lists the days in the order
    Monday to Sunday, each day at most once; a day name outside these
    seven loses its name, and the rows without a name come last. *)
Theorem weekday_consumption_in_week_order (cons out : DataFrame) :
  calculate_weekday_consumption cons = Ok out ->
  StronglySorted (category_before weekday_order) (map (cell_at 0) (rows out)) /\
  Forall (fun c => c = NaN \/ exists d, c = Str d /\ In d weekday_order)
         (map (cell_at 0) (rows out)).
Proof.
  intros H. destruct (@weekday_consumption_Ok cons out H)
    as (groups & jl & table & Hg & _ & Htable & Hperm & Hsorted).
  destruct (@groupby_text_groups cons "WeekDay" groups Hg) as (Hs & _ & _).
  split.
  - apply (StronglySorted_map (category_before weekday_order) (cell_at 0)).
    apply (StronglySorted_map
             (fun a b => match b with
                         | Some y => exists x, a = Some x /\ (x < y)%nat
                         | None => True
                         end)
             (fun r => cell_rank weekday_order (cell_at 0 r))).
    apply sorted_ranks_strict.
    + apply (StronglySorted_map
               (fun a b => option_le Nat.leb a b = true)
               (fun r => cell_rank weekday_order (cell_at 0 r))).
      exact Hsorted.
    + apply Permutation_NoDup
        with (filter (@is_some nat)
                (map (fun r => cell_rank weekday_order (cell_at 0 r))
                     (number_rows 0 table))).
      * apply Permutation_filter, Permutation_map, Permutation_sym. exact Hperm.
      * rewrite (@weekday_ranks jl groups table 0%Z Htable). apply category_ranks_NoDup.
        apply text_sorted_NoDup. exact Hs.
  - apply Forall_forall. intros c Hc. apply in_map_iff in Hc.
    destruct Hc as (r' & <- & Hr').
    apply (Permutation_in _ Hperm) in Hr'.
    assert (Hin : In (snd r') table).
    { rewrite <- (number_rows_cells 0 table). apply in_map. exact Hr'. }
    destruct (@Forall2_In_r _ _ _ _ _ _ Htable Hin) as (g & _ & v & _ & Hcell).
    unfold cell_at. rewrite Hcell. cbn [nth].
    destruct (existsb (String.eqb (fst g)) weekday_order) eqn:E; [right|left; reflexivity].
    exists (fst g). split; [reflexivity|].
    apply existsb_exists in E. destruct E as (d & Hd & E).
    apply String.eqb_eq in E. subst d. exact Hd.
Qed.

(** The theorem on a table that lists a Wednesday, a Monday, a Wednesday
    and a day named Freitag: Monday, Wednesday, and the nameless row. *)
Lemma weekday_consumption_in_week_order_witness :
  StronglySorted (category_before weekday_order) [Str "Monday"; Str "Wednesday"; NaN].
Proof.
  apply (proj1 (@weekday_consumption_in_week_order consumption_week
                  (mkDataFrame ["WeekDay"%string; Analysis.total_load]
                     [(1%Z, [Str "Monday"; Num 100]);
                      (2%Z, [Str "Wednesday"; Num (200 # 2)]);
                      (0%Z, [NaN; Num 70])])
                  eq_refl)).
Defined.

(** X25.  A row of the table of weekday consumption that names a day
    holds the mean load of the rows of that day, missing when none of
    them has a load; and every day of the week that occurs in the
    consumption table has its row. *)
Theorem weekday_consumption_rows (cons out : DataFrame) :
  calculate_weekday_consumption cons = Ok out ->
  (forall r' d, In r' (rows out) -> cell_at 0 r' = Str d ->
     In d weekday_order /\
     rows_named cons "WeekDay" d <> [] /\
     cell_at 1 r' = field_mean cons Analysis.total_load (rows_named cons "WeekDay" d)) /\
  (forall r d, In r (rows cons) -> cell_of cons "WeekDay" r = Some (Str d) ->
     In d weekday_order ->
     exists r', In r' (rows out) /\ cell_at 0 r' = Str d).
Proof.
  intros H. destruct (@weekday_consumption_Ok cons out H)
    as (groups & jl & table & Hg & Hjl & Htable & Hperm & _).
  destruct (@groupby_text_groups cons "WeekDay" groups Hg) as (_ & Hgroups & Hall).
  split.
  - intros r' d Hr' Hd. apply (Permutation_in _ Hperm) in Hr'.
    assert (Hin : In (snd r') table).
    { rewrite <- (number_rows_cells 0 table). apply in_map. exact Hr'. }
    destruct (@Forall2_In_r _ _ _ _ _ _ Htable Hin)
      as ([k rs] & Hgin & v & Hv & Hcell).
    destruct (Hgroups (k, rs) Hgin) as [Hne Hrs]. cbn [fst snd] in *.
    unfold cell_at in Hd |- *. rewrite Hcell in Hd |- *. cbn [nth] in Hd |- *.
    revert Hd.
    destruct (existsb (String.eqb k) weekday_order) eqn:E; [|discriminate].
    intros Hd. injection Hd as <-. split; [|split].
    + apply existsb_exists in E. destruct E as (d & Hd & E).
      apply String.eqb_eq in E. subst d. exact Hd.
    + rewrite <- Hrs. exact Hne.
    + rewrite <- Hrs.
      exact (@aggregate_mean_field cons Analysis.total_load jl rs v Hjl Hv).
  - intros r d Hr Hd Hknown.
    assert (Hin : In r (text_group_rows d groups)).
    { rewrite Hall. unfold rows_named. apply filter_In. split; [exact Hr|].
      rewrite Hd. apply String.eqb_refl. }
    unfold text_group_rows in Hin.
    destruct (find (fun g => String.eqb (fst g) d) groups) as [[k rs]|] eqn:E;
      [|contradiction].
    apply find_some in E. destruct E as [Hgin Hk]. simpl in Hk.
    apply String.eqb_eq in Hk. subst k.
    destruct (@Forall2_In_l _ _ _ _ _ _ Htable Hgin) as (c & Hc & v & _ & Hcell).
    rewrite <- (number_rows_cells 0 table) in Hc. apply in_map_iff in Hc.
    destruct Hc as (r' & Hsnd & Hr'). exists r'. split.
    + apply (Permutation_in _ (Permutation_sym Hperm)). exact Hr'.
    + unfold cell_at. rewrite Hsnd, Hcell. cbn [fst nth].
      assert (Ek : existsb (String.eqb d) weekday_order = true).
      { apply existsb_exists. exists d. split; [exact Hknown|apply String.eqb_refl]. }
      rewrite Ek. reflexivity.
Qed.

(** The theorem on the same table: the row of Wednesday holds the mean,
    100, of the loads 90 and 110 of the two Wednesdays. *)
Lemma weekday_consumption_rows_witness :
  In "Wednesday"%string weekday_order /\
  rows_named consumption_week "WeekDay" "Wednesday" <> [] /\
  cell_at 1 (2%Z, [Str "Wednesday"; Num (200 # 2)])
  = field_mean consumption_week Analysis.total_load
      (rows_named consumption_week "WeekDay" "Wednesday").
Proof.
  apply (proj1 (@weekday_consumption_rows consumption_week
                  (mkDataFrame ["WeekDay"%string; Analysis.total_load]
                     [(1%Z, [Str "Monday"; Num 100]);
                      (2%Z, [Str "Wednesday"; Num (200 # 2)]);
                      (0%Z, [NaN; Num 70])])
                  eq_refl)
          (2%Z, [Str "Wednesday"; Num (200 # 2)]) "Wednesday"%string).
  - right. left. reflexivity.
  - reflexivity.
Defined.

(** ** Aggregator: the daily view *)

Lemma same_labels_refl (l : list Z) : same_labels l l = true.
Proof. unfold same_labels. destruct (list_eq_dec Z.eq_dec l l); congruence. Qed.

(** A frame built from two columns of the same table has the rows of
    the table, with these two cells. *)
Lemma frame_of_two_columns (na nb : string) (f g : row -> cell) (l : list row) :
  NoDup (map fst l) ->
  frame_of_dict [(na, ColSeries (combine (map fst l) (map f l)));
                 (nb, ColSeries (combine (map fst l) (map g l)))]
  = mkDataFrame [na; nb] (map (fun r => (fst r, [f r; g r])) l).
Proof.
  intros Hdup. unfold frame_of_dict, union_index. cbn [map fst snd all_labels series_labels].
  rewrite !map_fst_combine by (rewrite !length_map; reflexivity).
  cbn [forallb]. rewrite same_labels_refl. cbn [andb]. f_equal.
  rewrite map_map.
  assert (G : forall r, In r l ->
                (fst r,
                 [lookup_label (fst r) (combine (map fst l) (map f l));
                  lookup_label (fst r) (combine (map fst l) (map g l))])
                = (fst r, [f r; g r])).
  { intros r Hr. rewrite !lookup_label_row by assumption. reflexivity. }
  revert G. generalize (combine (map fst l) (map f l)) (combine (map fst l) (map g l)).
  intros a b G. induction l as [|r l' IH] in G |- *; [reflexivity|].
  simpl. f_equal; [apply G; left; reflexivity|].
  apply IH. intros r' Hr'. apply G. right. exact Hr'.
Qed.

Lemma row_total_positions (t : DataFrame) (names : list string) (js : list nat)
    (r : row) :
  positions t names = Ok js ->
  series_sum (to_numeric_coerce (map (fun j => cell_at j r) js))
  = Ok (row_fields_total t names r).
Proof.
  intros H. apply positions_Forall2 in H.
  unfold series_sum, row_fields_total.
  rewrite forallb_is_number_coerce, numbers_to_numeric_coerce. do 3 f_equal.
  induction H as [|name j names js Hj _ IH]; simpl; [reflexivity|].
  unfold cell_of at 1. rewrite Hj. simpl. rewrite IH. reflexivity.
Qed.

Lemma set_third_column (f g : row -> cell) (l : list row) (values : Series) :
  List.length values = List.length l ->
  map (fun rv : row * cell => (fst (fst rv), set_cell 2 (snd rv) (snd (fst rv))))
      (combine (map (fun r => (fst r, [f r; g r])) l) values)
  = map (fun rv : row * cell => (fst (fst rv), [f (fst rv); g (fst rv); snd rv]))
        (combine l values).
Proof.
  revert values. induction l as [|r l IH]; intros [|v values] H; try discriminate;
    [reflexivity|].
  cbn [map combine]. f_equal. apply IH. simpl in H. lia.
Qed.

(** X26.  On a generation table whose selected columns hold no text,
    the daily view has one row per consumption row, with its label,
    start date and load.  Generation is paired with it by position, not
    by date: when the generation table has as many rows, row [i] gets
    the total of the selected sources of generation row [i]; otherwise
    the column is missing throughout. *)
Theorem daily_view_pairs_by_position
    (cons gen : DataFrame) (sources : list string) (out : DataFrame) :
  NoDup (labels cons) ->
  text_free gen (map Analysis.source_column sources) ->
  Analysis.prepare_trends_data cons gen sources "Daily" = Ok out ->
  Forall2 (fun r r' : row =>
             fst r' = fst r /\
             cell_of cons "Start date" r = Some (cell_at 0 r') /\
             cell_of cons Analysis.total_load r = Some (cell_at 1 r'))
          (rows cons) (rows out) /\
  (List.length (rows gen) = List.length (rows cons) ->
   Forall2 (fun g r' : row =>
              cell_at 2 r'
              = Num (row_fields_total gen (map Analysis.source_column sources) g))
           (rows gen) (rows out)) /\
  (List.length (rows gen) <> List.length (rows cons) ->
   Forall (fun r' : row => cell_at 2 r' = NaN) (rows out)).
Proof.
  intros Hdup _ H. unfold Analysis.prepare_trends_data in H.
  change (String.eqb "Daily" "Daily") with true in H. cbv iota in H.
  apply bind_Ok_inv in H. destruct H as (date & Hdate & H).
  apply bind_Ok_inv in H. destruct H as (load & Hload & H).
  apply bind_Ok_inv in H. destruct H as (js & Hjs & H).
  apply bind_Ok_inv in H. destruct H as (gen_data & Hgen & H).
  apply Ok_inj in H. subst out.
  destruct (labelled_Ok _ _ Hdate) as (jd & Hjd & ->).
  destruct (labelled_Ok _ _ Hload) as (jl & Hjl & ->).
  rewrite (@frame_of_two_columns "Date" "Consumption" (cell_at jd) (cell_at jl)
             (rows cons) Hdup).
  unfold set_column. cbn [columns rows].
  change (column_position "Generation" ["Date"%string; "Consumption"%string])
    with (@None nat).
  cbn [List.length rows]. rewrite length_map.
  assert (Hvalues : gen_data
                    = map (fun g => Num (row_fields_total gen
                                           (map Analysis.source_column sources) g))
                          (rows gen)).
  { rewrite (mapM_total _ (fun g => Num (row_fields_total gen
                                          (map Analysis.source_column sources) g)))
      in Hgen.
    - injection Hgen as <-. reflexivity.
    - intros g. rewrite (@row_total_positions gen _ js g Hjs). reflexivity. }
  assert (Hlen : List.length gen_data = List.length (rows gen))
    by (rewrite Hvalues, length_map; reflexivity).
  rewrite Hlen.
  match goal with
  | |- context [combine _ ?v] => set (values := v)
  end.
  assert (Hvl : List.length values = List.length (rows cons)).
  { unfold values.
    match goal with
    | |- context [Nat.eqb ?a ?b] => destruct (Nat.eqb_spec a b) as [E|E]
    end.
    - rewrite Hlen. exact E.
    - apply repeat_length. }
  pose proof (@set_third_column (cell_at jd) (cell_at jl) (rows cons) values Hvl)
    as Hrows.
  match type of Hrows with
  | ?lhs = _ =>
      match goal with
      | |- context [map ?F (combine ?L values)] =>
          change (map F (combine L values)) with lhs
      end
  end.
  rewrite Hrows. clear Hrows.
  split; [|split].
  - clear Hdate Hload. revert Hvl. generalize values.
    induction (rows cons) as [|r l IH]; intros [|v vs] Hv; try discriminate;
      simpl; constructor.
    + simpl. unfold cell_of. rewrite Hjd, Hjl. auto.
    + apply IH. simpl in Hv. lia.
  - intros E. unfold values. rewrite E, Nat.eqb_refl, Hvalues.
    clear - E. revert E. generalize (rows cons).
    induction (rows gen) as [|g l IH]; intros [|r l'] E; try discriminate;
      simpl; constructor.
    + reflexivity.
    + apply IH. simpl in E. lia.
  - intros E. unfold values.
    match goal with
    | |- context [Nat.eqb ?a ?b] => destruct (Nat.eqb_spec a b) as [E'|_]
    end; [contradiction|].
    clear. apply Forall_forall. intros r' Hr'. apply in_map_iff in Hr'.
    destruct Hr' as ([r v] & <- & Hin). apply in_combine_r in Hin.
    apply repeat_spec in Hin. subst v. reflexivity.
Qed.

(** The theorem on a consumption table of two rows and a generation
    table of one row: no generation is shown. *)
Lemma daily_view_pairs_by_position_witness :
  Forall (fun r' : row => cell_at 2 r' = NaN)
    [(0%Z, [Num (inject_Z (days_from_civil 2022 1 1)); Num 100; NaN]);
     (1%Z, [Num (inject_Z (days_from_civil 2023 4 1)); Num 120; NaN])].
Proof.
  destruct (@daily_view_pairs_by_position Sample.consumption_two_periods
              Sample.generation_second_period ["Solar"%string]
              (mkDataFrame ["Date"; "Consumption"; "Generation"]%string
                 [(0%Z, [Num (inject_Z (days_from_civil 2022 1 1)); Num 100; NaN]);
                  (1%Z, [Num (inject_Z (days_from_civil 2023 4 1)); Num 120; NaN])]))
    as (_ & _ & H).
  - unfold labels. simpl.
    constructor; [simpl; intros [E|[]]; discriminate|].
    constructor; [intros []|constructor].
  - apply text_free_check. vm_compute. reflexivity.
  - vm_compute. reflexivity.
  - apply H. simpl. discriminate.
Defined.

(** ** Loader: assigning columns *)

Lemma set_cells_other (j k : nat) (l : list row) (values : Series) :
  k <> j -> List.length values = List.length l ->
  map (cell_at k)
      (map (fun rv : row * cell => (fst (fst rv), set_cell j (snd rv) (snd (fst rv))))
           (combine l values))
  = map (cell_at k) l.
Proof.
  intros Hk. revert values. induction l as [|r l IH]; intros [|v values] H;
    try discriminate; [reflexivity|].
  cbn [map combine fst snd]. f_equal.
  - destruct r as [z cells]. apply cell_at_set_cell_other. exact Hk.
  - apply IH. simpl in H. lia.
Qed.

Lemma set_cells_same (j : nat) (l : list row) (values : Series) :
  List.length values = List.length l ->
  map (cell_at j)
      (map (fun rv : row * cell => (fst (fst rv), set_cell j (snd rv) (snd (fst rv))))
           (combine l values))
  = values.
Proof.
  revert values. induction l as [|r l IH]; intros [|v values] H;
    try discriminate; [reflexivity|].
  cbn [map combine fst snd]. f_equal.
  - apply cell_at_set_cell.
  - apply IH. simpl in H. lia.
Qed.

Lemma set_cells_labels (j : nat) (l : list row) (values : Series) :
  List.length values = List.length l ->
  map fst
      (map (fun rv : row * cell => (fst (fst rv), set_cell j (snd rv) (snd (fst rv))))
           (combine l values))
  = map fst l.
Proof.
  revert values. induction l as [|r l IH]; intros [|v values] H;
    try discriminate; [reflexivity|].
  cbn [map combine fst snd]. f_equal. apply IH. simpl in H. lia.
Qed.

Lemma column_position_app_other (name other : string) (cols : list string) :
  other <> name ->
  column_position other (cols ++ [name]) = column_position other cols.
Proof.
  intros Hne. induction cols as [|c cols IH]; simpl.
  - destruct (String.eqb_spec name other) as [E|_]; [congruence|reflexivity].
  - destruct (String.eqb c other); [reflexivity|]. rewrite IH. reflexivity.
Qed.

Lemma column_position_lt (name : string) (cols : list string) (j : nat) :
  column_position name cols = Some j -> (j < List.length cols)%nat.
Proof.
  intros H. apply column_position_nth in H. apply nth_error_Some. congruence.
Qed.

(** What an assignment [df[name] = values] does: the named column holds
    the values, every other column and the labels are as before, and the
    name is the only one that may be new. *)
Lemma assign_Ok (df df' : DataFrame) (name : string) (values : Series) :
  assign df name values = Ok df' ->
  getitem df' name = Ok values /\
  (forall other, other <> name -> getitem df' other = getitem df other) /\
  labels df' = labels df /\
  (forall c, In c (columns df') <-> In c (columns df) \/ c = name).
Proof.
  unfold assign. destruct (Nat.eqb_spec (List.length values) (List.length (rows df)))
    as [Hlen|_]; [|discriminate].
  intros H. apply Ok_inj in H. subst df'. unfold set_column, getitem, labels.
  destruct (column_position name (columns df)) as [j|] eqn:Hj; cbn [columns rows].
  - rewrite Hj. split; [rewrite set_cells_same by exact Hlen; reflexivity|].
    split; [|split].
    + intros other Hne.
      destruct (column_position other (columns df)) as [k|] eqn:Hk; [|reflexivity].
      rewrite set_cells_other; [reflexivity| |exact Hlen].
      intros ->. apply column_position_nth in Hj, Hk. congruence.
    + apply set_cells_labels. exact Hlen.
    + intros c. split; [auto|]. intros [H| ->]; [exact H|].
      apply column_position_In. exists j. exact Hj.
  - rewrite (@column_position_app name (columns df) Hj).
    split; [rewrite set_cells_same by exact Hlen; reflexivity|].
    split; [|split].
    + intros other Hne.
      rewrite (@column_position_app_other name other (columns df) Hne).
      destruct (column_position other (columns df)) as [k|] eqn:Hk; [|reflexivity].
      rewrite set_cells_other; [reflexivity| |exact Hlen].
      apply column_position_lt in Hk. lia.
    + apply set_cells_labels. exact Hlen.
    + intros c. rewrite in_app_iff. simpl. intuition.
Qed.

Lemma insert_first_Ok (df df' : DataFrame) (name : string) (values : Series) :
  insert_first df name values = Ok df' ->
  ~ In name (columns df) /\
  columns df' = name :: columns df /\
  map (cell_at 0) (rows df') = values /\
  (forall other, other <> name -> getitem df' other = getitem df other) /\
  labels df' = labels df.
Proof.
  unfold insert_first.
  destruct (existsb (String.eqb name) (columns df)) eqn:E; [discriminate|].
  destruct (Nat.eqb_spec (List.length values) (List.length (rows df)))
    as [Hlen|_]; [|discriminate].
  intros H. apply Ok_inj in H. subst df'. cbn [columns rows].
  assert (Hcells : forall k,
             map (cell_at (S k))
                 (map (fun rv : row * cell => (fst (fst rv), snd rv :: snd (fst rv)))
                      (combine (rows df) values))
             = map (cell_at k) (rows df)).
  { intros k. revert Hlen. generalize values.
    induction (rows df) as [|r l IH]; intros [|v vs] Hlen; try discriminate;
      [reflexivity|].
    cbn [map combine fst snd]. f_equal. apply IH. simpl in Hlen. lia. }
  split; [|split; [reflexivity|split; [|split]]].
  - intros Hin.
    assert (Ht : existsb (String.eqb name) (columns df) = true).
    { apply existsb_exists. exists name. split; [exact Hin|apply String.eqb_refl]. }
    congruence.
  - clear Hcells. revert Hlen. generalize values.
    induction (rows df) as [|r l IH]; intros [|v vs] Hlen; try discriminate;
      [reflexivity|].
    cbn [map combine fst snd]. f_equal. apply IH. simpl in Hlen. lia.
  - intros other Hne. unfold getitem. cbn [columns rows column_position].
    destruct (String.eqb_spec name other) as [E'|_]; [congruence|].
    destruct (column_position other (columns df)) as [k|]; [|reflexivity].
    simpl option_map. cbv iota. rewrite Hcells. reflexivity.
  - clear Hcells. unfold labels. cbn [rows]. revert Hlen. generalize values.
    induction (rows df) as [|r l IH]; intros [|v vs] Hlen; try discriminate;
      [reflexivity|].
    cbn [map combine fst snd]. f_equal. apply IH. simpl in Hlen. lia.
Qed.

(** ** Loader: [load_data] *)

Section LoadingProperties.

Variable script_dir : string.
Variable path_exists : string -> bool.
Variable read_csv : string -> result DataFrame.
Variable to_datetime_coerce : Series -> result (list (option Q)).

Lemma add_component_Ok (df df' : DataFrame) (name : string) (f : Z -> cell) :
  add_component df name f = Ok df' ->
  exists start,
    getitem df "Start date" = Ok start /\
    getitem df' name = Ok (dt f start) /\
    (forall other, other <> name -> getitem df' other = getitem df other) /\
    labels df' = labels df.
Proof.
  unfold add_component. intros H.
  apply bind_Ok_inv in H. destruct H as (start & Hs & H).
  destruct (assign_Ok _ _ _ H) as (Hname & Hother & Hlabels & _).
  exists start. auto.
Qed.

Lemma convert_dates_Ok (df df' : DataFrame) (name : string) :
  convert_dates to_datetime_coerce df name = Ok df' ->
  (exists dates,
     getitem df' name = Ok dates /\
     Forall (fun c => c = NaN \/ exists q, c = Num q) dates) /\
  (forall other, other <> name -> getitem df' other = getitem df other) /\
  labels df' = labels df.
Proof.
  unfold convert_dates. intros H.
  apply bind_Ok_inv in H. destruct H as (s & Hs & H).
  apply bind_Ok_inv in H. destruct H as (dates & Hd & H).
  destruct (assign_Ok _ _ _ H) as (Hname & Hother & Hlabels & _).
  split; [|split; assumption].
  eexists. split; [exact Hname|].
  apply Forall_forall. intros c Hc. apply in_map_iff in Hc.
  destruct Hc as ([t|] & <- & _); [right; exists t|left]; reflexivity.
Qed.

Lemma labels_length (a b : DataFrame) :
  labels a = labels b -> List.length (rows a) = List.length (rows b).
Proof.
  unfold labels. intros H. apply (f_equal (@List.length Z)) in H.
  rewrite !length_map in H. exact H.
Qed.

Lemma add_calendar_Ok (df df' : DataFrame) :
  add_calendar df = Ok df' ->
  exists start,
    getitem df "Start date" = Ok start /\
    (Forall (fun c => c = NaN \/ exists q, c = Num q) start -> loaded df') /\
    labels df' = labels df.
Proof.
  unfold add_calendar. intros H.
  apply bind_Ok_inv in H. destruct H as (df1 & H1 & H).
  apply bind_Ok_inv in H. destruct H as (df2 & H2 & H).
  apply bind_Ok_inv in H. destruct H as (df3 & H3 & H).
  apply bind_Ok_inv in H. destruct H as (df4 & H4 & H).
  apply bind_Ok_inv in H. destruct H as (df5 & H5 & H).
  apply bind_Ok_inv in H. destruct H as (df6 & H6 & H).
  apply add_component_Ok in H1, H2, H3, H4, H5, H6.
  destruct H1 as (s0 & Hs0 & Hy & O1 & L1).
  destruct H2 as (s1 & Hs1 & Hm & O2 & L2).
  destruct H3 as (s2 & Hs2 & Hd & O3 & L3).
  destruct H4 as (s3 & Hs3 & Hw & O4 & L4).
  destruct H5 as (s4 & Hs4 & Hq & O5 & L5).
  destruct H6 as (s5 & Hs5 & Hn & O6 & L6).
  apply insert_first_Ok in H. destruct H as (Hnew & Hcols & Hid & O7 & L7).
  assert (E1 : s1 = s0)
    by (rewrite O1 in Hs1 by discriminate; congruence).
  assert (E2 : s2 = s0)
    by (rewrite O2, O1 in Hs2 by discriminate; congruence).
  assert (E3 : s3 = s0)
    by (rewrite O3, O2, O1 in Hs3 by discriminate; congruence).
  assert (E4 : s4 = s0)
    by (rewrite O4, O3, O2, O1 in Hs4 by discriminate; congruence).
  assert (E5 : s5 = s0)
    by (rewrite O5, O4, O3, O2, O1 in Hs5 by discriminate; congruence).
  subst s1 s2 s3 s4 s5.
  exists s0. split; [exact Hs0|]. split.
  - intros Hdates. split; [|split].
    + exists (columns df6). split; assumption.
    + rewrite Hid. f_equal. symmetry. apply labels_length. exact L7.
    + exists s0.
      rewrite !O7 by discriminate.
      rewrite !O6 by discriminate. rewrite Hn.
      rewrite !O5 by discriminate. rewrite Hq.
      rewrite !O4 by discriminate. rewrite Hw.
      rewrite !O3 by discriminate. rewrite Hd.
      rewrite !O2 by discriminate. rewrite Hm.
      rewrite !O1 by discriminate. rewrite Hy, Hs0.
      repeat split; try reflexivity. exact Hdates.
  - congruence.
Qed.

Lemma load_data_frames_Ok (gen_path cons_path : string) (gen cons : DataFrame) :
  load_data_frames read_csv to_datetime_coerce gen_path cons_path = Ok (gen, cons) ->
  loaded gen /\ loaded cons.
Proof.
  unfold load_data_frames. intros H.
  apply bind_Ok_inv in H. destruct H as (gen0 & _ & H).
  apply bind_Ok_inv in H. destruct H as (cons0 & _ & H).
  apply bind_Ok_inv in H. destruct H as (gen1 & Hg1 & H).
  apply bind_Ok_inv in H. destruct H as (gen2 & Hg2 & H).
  apply bind_Ok_inv in H. destruct H as (cons1 & Hc1 & H).
  apply bind_Ok_inv in H. destruct H as (gen3 & Hg3 & H).
  apply bind_Ok_inv in H. destruct H as (cons2 & Hc2 & H).
  apply Ok_inj in H. injection H as <- <-.
  apply convert_dates_Ok in Hg1, Hg2, Hc1.
  destruct Hg1 as ((dg & Hdg & Fg) & _ & _).
  destruct Hg2 as (_ & Og & _).
  destruct Hc1 as ((dc & Hdc & Fc) & _ & _).
  apply add_calendar_Ok in Hg3, Hc2.
  destruct Hg3 as (sg & Hsg & Lg & _). destruct Hc2 as (sc & Hsc & Lc & _).
  rewrite Og in Hsg by discriminate.
  assert (sg = dg) by congruence. assert (sc = dc) by congruence. subst.
  split; [apply Lg|apply Lc]; assumption.
Qed.

(** X27.  [load_data] returns the two tables or none: either both
    frames are empty (a file is missing or unreadable, a date column is
    missing, a file already has an [ID] column), or both tables are
    loaded: [ID] comes first and numbers the rows 1, 2, ..., the start
    dates are timestamps or missing, and the six calendar columns hold
    the fields of the start date of their row. *)
Theorem load_data_empty_or_loaded :
  let frames := load_data script_dir path_exists read_csv to_datetime_coerce in
  frames = (empty_frame, empty_frame) \/
  (loaded (fst frames) /\ loaded (snd frames)).
Proof.
  cbv zeta. unfold load_data.
  destruct (find_data_files path_exists (possible_locations script_dir) None None)
    as [g c].
  destruct (found g); [|left; reflexivity].
  destruct (found c); [|left; reflexivity].
  cbn [negb]. destruct g as [gen_path|]; [|left; reflexivity].
  destruct c as [cons_path|]; [|left; reflexivity].
  destruct (load_data_frames read_csv to_datetime_coerce gen_path cons_path)
    as [[gen cons]|e] eqn:E; [|left; reflexivity].
  right. apply (load_data_frames_Ok _ _ E).
Qed.

Lemma map_eq_In (A B : Type) (f g : A -> B) (l : list A) (x : A) :
  map f l = map g l -> In x l -> f x = g x.
Proof.
  induction l as [|y l IH]; simpl; intros H Hin; [contradiction|].
  injection H as Hy Hl. destruct Hin as [<-|Hin]; [exact Hy|apply IH; assumption].
Qed.

(** The Filter on a loaded table: it returns, and the rows it keeps have
    a start date. *)
Lemma loaded_selection (t : DataFrame) (ys : Z * Z) (ms : list Z) :
  loaded t ->
  exists mask,
    Loader.selection_mask t ys ms = Ok mask /\
    forall r, In r (rows (boolean_index t mask)) ->
              exists q, cell_of t "Start date" r = Some (Num q).
Proof.
  intros (_ & _ & start & Hs & _ & Hy & Hm & _).
  unfold getitem in Hs, Hy, Hm.
  destruct (column_position "Start date" (columns t)) as [js|] eqn:Ejs;
    [|discriminate].
  destruct (column_position "Year" (columns t)) as [jy|] eqn:Ejy; [|discriminate].
  destruct (column_position "Month" (columns t)) as [jm|] eqn:Ejm; [|discriminate].
  apply Ok_inj in Hs, Hy, Hm. subst start. unfold dt in Hy. rewrite map_map in Hy.
  assert (Hnum : forallb (fun r => is_number (cell_at jy r)) (rows t) = true).
  { apply forallb_forall. intros r Hr. rewrite (map_eq_In _ _ _ r Hy Hr).
    destruct (cell_at js r); reflexivity. }
  exists (map (keeps jy jm ys ms) (rows t)).
  split; [apply selection_mask_complete; assumption|].
  intros r Hr. unfold boolean_index in Hr. cbn [rows] in Hr.
  rewrite select_map in Hr. apply filter_In in Hr. destruct Hr as [Hr Hk].
  unfold keeps in Hk. rewrite !andb_true_iff in Hk. destruct Hk as [[Hge _] _].
  unfold cell_ge in Hge. rewrite (map_eq_In _ _ _ r Hy Hr) in Hge.
  unfold cell_of. rewrite Ejs. simpl.
  destruct (cell_at js r) as [q| |s|b]; try discriminate. exists q. reflexivity.
Qed.

(** X28.  The Filter after the Loader: on the frames of a failed load it
    raises [KeyError] for the column [Year]; on loaded tables it returns
    for every year range and month list, and every row it keeps has a
    start date (a row whose date was not read is in no selection). *)
Theorem filter_after_load
    (year_range : Z * Z) (months : list Z) (sources : list string) :
  let frames := load_data script_dir path_exists read_csv to_datetime_coerce in
  (frames = (empty_frame, empty_frame) /\
   Loader.filter_data (fst frames) (snd frames) year_range months sources
   = Raise (KeyError "Year")) \/
  exists gen' cons',
    Loader.filter_data (fst frames) (snd frames) year_range months sources
    = Ok (gen', cons') /\
    (forall r, In r (rows gen') ->
               exists q, cell_of (fst frames) "Start date" r = Some (Num q)) /\
    (forall r, In r (rows cons') ->
               exists q, cell_of (snd frames) "Start date" r = Some (Num q)).
Proof.
  cbv zeta. unfold load_data.
  destruct (find_data_files path_exists (possible_locations script_dir) None None)
    as [g c].
  destruct (found g); [|left; split; reflexivity].
  destruct (found c); [|left; split; reflexivity].
  cbn [negb]. destruct g as [gen_path|]; [|left; split; reflexivity].
  destruct c as [cons_path|]; [|left; split; reflexivity].
  destruct (load_data_frames read_csv to_datetime_coerce gen_path cons_path)
    as [[gen cons]|e] eqn:E; [|left; split; reflexivity].
  right. destruct (load_data_frames_Ok _ _ E) as [Hgen Hcons]. cbn [fst snd].
  destruct (loaded_selection year_range months Hgen) as (gm & Hgm & Hgrows).
  destruct (loaded_selection year_range months Hcons) as (cm & Hcm & Hcrows).
  exists (boolean_index gen gm), (boolean_index cons cm).
  unfold Loader.filter_data. rewrite Hcm, Hgm. cbn [bind].
  split; [reflexivity|]. split; assumption.
Qed.

Lemma found_path_join (loc name : string) :
  name <> EmptyString -> String.prefix "/" name = false ->
  found (Some (path_join loc name)) = true.
Proof.
  intros Hname Hslash. unfold found, path_join. rewrite Hslash.
  destruct name as [|a name]; [contradiction|].
  destruct (String.eqb loc "" || ends_with_slash loc); destruct loc; reflexivity.
Qed.

Lemma find_data_files_inv (locations : list string) (g0 c0 : option string) :
  let r := find_data_files path_exists locations g0 c0 in
  (found (fst r) = true <->
   found g0 = true \/
   exists loc, In loc locations /\
               path_exists (path_join loc gen_file_name) = true) /\
  (found (snd r) = true <->
   found c0 = true \/
   exists loc, In loc locations /\
               path_exists (path_join loc cons_file_name) = true) /\
  (fst r = g0 \/
   exists loc, In loc locations /\ fst r = Some (path_join loc gen_file_name) /\
               path_exists (path_join loc gen_file_name) = true) /\
  (snd r = c0 \/
   exists loc, In loc locations /\ snd r = Some (path_join loc cons_file_name) /\
               path_exists (path_join loc cons_file_name) = true).
Proof.
  cbv zeta. revert g0 c0. induction locations as [|loc locations IH]; intros g0 c0.
  - simpl. repeat split; try tauto; try (intros [H|(loc & [] & _)]; exact H).
  - cbn [find_data_files].
    set (g1 := if path_exists (path_join loc gen_file_name)
               then Some (path_join loc gen_file_name) else g0).
    set (c1 := if path_exists (path_join loc cons_file_name)
               then Some (path_join loc cons_file_name) else c0).
    assert (Hg1 : found g1 = true <->
                  found g0 = true \/
                  path_exists (path_join loc gen_file_name) = true).
    { unfold g1. destruct (path_exists (path_join loc gen_file_name)).
      - rewrite found_path_join by (try discriminate; reflexivity). tauto.
      - split; [tauto|]. intros [H|H]; [exact H|discriminate]. }
    assert (Hc1 : found c1 = true <->
                  found c0 = true \/
                  path_exists (path_join loc cons_file_name) = true).
    { unfold c1. destruct (path_exists (path_join loc cons_file_name)).
      - rewrite found_path_join by (try discriminate; reflexivity). tauto.
      - split; [tauto|]. intros [H|H]; [exact H|discriminate]. }
    assert (Hg1' : g1 = g0 \/
                   (g1 = Some (path_join loc gen_file_name) /\
                    path_exists (path_join loc gen_file_name) = true)).
    { unfold g1. destruct (path_exists (path_join loc gen_file_name)); auto. }
    assert (Hc1' : c1 = c0 \/
                   (c1 = Some (path_join loc cons_file_name) /\
                    path_exists (path_join loc cons_file_name) = true)).
    { unfold c1. destruct (path_exists (path_join loc cons_file_name)); auto. }
    destruct (found g1 && found c1) eqn:Estop.
    + apply andb_true_iff in Estop. destruct Estop as [Fg Fc]. cbn [fst snd].
      repeat split.
      * intros _. apply Hg1 in Fg. destruct Fg as [H|H]; [left; exact H|].
        right. exists loc. split; [left; reflexivity|exact H].
      * intros _. exact Fg.
      * intros _. apply Hc1 in Fc. destruct Fc as [H|H]; [left; exact H|].
        right. exists loc. split; [left; reflexivity|exact H].
      * intros _. exact Fc.
      * destruct Hg1' as [H|[H H']]; [left; exact H|].
        right. exists loc. split; [left; reflexivity|]. split; assumption.
      * destruct Hc1' as [H|[H H']]; [left; exact H|].
        right. exists loc. split; [left; reflexivity|]. split; assumption.
    + destruct (IH g1 c1) as (Ig & Ic & Ig' & Ic'). repeat split.
      * intros H. apply Ig in H. destruct H as [H|(l & Hl & H)].
        -- apply Hg1 in H. destruct H as [H|H]; [left; exact H|].
           right. exists loc. split; [left; reflexivity|exact H].
        -- right. exists l. split; [right; exact Hl|exact H].
      * intros [H|(l & [<-|Hl] & H)]; apply Ig.
        -- left. apply Hg1. left. exact H.
        -- left. apply Hg1. right. exact H.
        -- right. exists l. split; assumption.
      * intros H. apply Ic in H. destruct H as [H|(l & Hl & H)].
        -- apply Hc1 in H. destruct H as [H|H]; [left; exact H|].
           right. exists loc. split; [left; reflexivity|exact H].
        -- right. exists l. split; [right; exact Hl|exact H].
      * intros [H|(l & [<-|Hl] & H)]; apply Ic.
        -- left. apply Hc1. left. exact H.
        -- left. apply Hc1. right. exact H.
        -- right. exists l. split; assumption.
      * destruct Ig' as [H|(l & Hl & H & H')].
        -- rewrite H. destruct Hg1' as [H1|[H1 H1']]; [left; exact H1|].
           right. exists loc. split; [left; reflexivity|]. split; assumption.
        -- right. exists l. split; [right; exact Hl|]. split; assumption.
      * destruct Ic' as [H|(l & Hl & H & H')].
        -- rewrite H. destruct Hc1' as [H1|[H1 H1']]; [left; exact H1|].
           right. exists loc. split; [left; reflexivity|]. split; assumption.
        -- right. exists l. split; [right; exact Hl|]. split; assumption.
Qed.

(** X29.  The search of [load_data] finds the two files exactly when
    each of them exists in one of the locations, not necessarily the
    same one; a path it returns is the path of the file in one of the
    locations, and exists. *)
Theorem data_files_found (locations : list string) :
  let paths := find_data_files path_exists locations None None in
  (found (fst paths) = true <->
   exists loc, In loc locations /\
               path_exists (path_join loc gen_file_name) = true) /\
  (found (snd paths) = true <->
   exists loc, In loc locations /\
               path_exists (path_join loc cons_file_name) = true) /\
  (forall p, fst paths = Some p ->
     path_exists p = true /\
     exists loc, In loc locations /\ p = path_join loc gen_file_name) /\
  (forall p, snd paths = Some p ->
     path_exists p = true /\
     exists loc, In loc locations /\ p = path_join loc cons_file_name).
Proof.
  cbv zeta. destruct (find_data_files_inv locations None None) as (Hg & Hc & Hg' & Hc').
  split; [|split; [|split]].
  - rewrite Hg. split; [intros [H|H]; [discriminate|exact H]|auto].
  - rewrite Hc. split; [intros [H|H]; [discriminate|exact H]|auto].
  - intros p Hp. destruct Hg' as [H|(loc & Hl & H & H')]; [congruence|].
    rewrite Hp in H. injection H as ->. split; [exact H'|].
    exists loc. split; [exact Hl|reflexivity].
  - intros p Hp. destruct Hc' as [H|(loc & Hl & H & H')]; [congruence|].
    rewrite Hp in H. injection H as ->. split; [exact H'|].
    exists loc. split; [exact Hl|reflexivity].
Qed.

(** ** Loader: [load_prediction_data] *)

Lemma has_column_In (df : DataFrame) (name : string) :
  has_column df name = true <-> In name (columns df).
Proof.
  unfold has_column. rewrite existsb_exists. split.
  - intros (c & Hc & E). apply String.eqb_eq in E. subst c. exact Hc.
  - intros H. exists name. split; [exact H|apply String.eqb_refl].
Qed.

Lemma assign_columns (df df' : DataFrame) (name : string) (values : Series) :
  assign df name values = Ok df' ->
  In name (columns df') /\ (forall c, In c (columns df) -> In c (columns df')).
Proof.
  intros H. destruct (assign_Ok _ _ _ H) as (_ & _ & _ & Hcols).
  split; [apply Hcols; right; reflexivity|].
  intros c Hc. apply Hcols. left. exact Hc.
Qed.

Lemma two_columns (a b : string) (l : list string) :
  In a l -> In b l -> a <> b -> (2 <=? List.length l)%nat = true.
Proof.
  intros Ha Hb Hne. destruct l as [|x [|y l]]; simpl in *; try tauto.
  destruct Ha as [<-|[]]. destruct Hb as [<-|[]]. contradiction.
Qed.

Lemma load_prediction_frame_Ok (path : string) (t : DataFrame) :
  load_prediction_frame read_csv to_datetime_coerce path = Ok t ->
  Forall (fun name => In name (columns t))
    ["Date"; "Year"; "Month"; "MonthName"; "forecast"; "model"]%string /\
  getitem t "model" = Ok (repeat (Str "CSV Model") (List.length (rows t))).
Proof.
  unfold load_prediction_frame. intros H.
  apply bind_Ok_inv in H. destruct H as (raw & _ & H).
  apply bind_Ok_inv in H. destruct H as (d & Hd & H).
  apply bind_Ok_inv in H. destruct H as (y & Hy & H).
  apply bind_Ok_inv in H. destruct H as (m & Hm & H).
  apply bind_Ok_inv in H. destruct H as (mn & Hmn & H).
  apply bind_Ok_inv in H. destruct H as (f & Hf & H).
  assert (Dd : In "Date"%string (columns d)).
  { destruct (has_column raw "Date").
    - unfold convert_dates in Hd.
      apply bind_Ok_inv in Hd. destruct Hd as (s & _ & Hd).
      apply bind_Ok_inv in Hd. destruct Hd as (dates & _ & Hd).
      apply (proj1 (assign_columns _ _ _ Hd)).
    - apply (proj1 (assign_columns _ _ _ Hd)). }
  unfold add_date_component in Hy, Hm, Hmn.
  apply bind_Ok_inv in Hy. destruct Hy as (sy & _ & Hy).
  apply bind_Ok_inv in Hm. destruct Hm as (sm & _ & Hm).
  apply bind_Ok_inv in Hmn. destruct Hmn as (smn & _ & Hmn).
  destruct (assign_columns _ _ _ Hy) as [Yy Ky].
  destruct (assign_columns _ _ _ Hm) as [Mm Km].
  destruct (assign_columns _ _ _ Hmn) as [Nn Kn].
  assert (Ff : In "forecast"%string (columns f) /\
               forall c, In c (columns mn) -> In c (columns f)).
  { destruct (has_column mn "forecast") eqn:E1.
    - apply Ok_inj in Hf. subst f. split; [apply has_column_In; exact E1|auto].
    - destruct (has_column mn "Residual load").
      + apply bind_Ok_inv in Hf. destruct Hf as (s & _ & Hf).
        apply (assign_columns _ _ _ Hf).
      + destruct (has_column mn "prediction").
        * apply bind_Ok_inv in Hf. destruct Hf as (s & _ & Hf).
          apply (assign_columns _ _ _ Hf).
        * assert (E2 : (2 <=? List.length (columns mn))%nat = true).
          { apply (@two_columns "Date" "Year").
            - apply Kn, Km, Ky. exact Dd.
            - apply Kn, Km. exact Yy.
            - discriminate. }
          rewrite E2 in Hf.
          apply bind_Ok_inv in Hf. destruct Hf as (s & _ & Hf).
          apply (assign_columns _ _ _ Hf). }
  destruct Ff as [Ff Kf].
  destruct (assign_columns _ _ _ H) as [Tt Kt].
  destruct (assign_Ok _ _ _ H) as (Hmodel & _ & Hlabels & _).
  split.
  - repeat constructor.
    + apply Kt, Kf, Kn, Km, Ky. exact Dd.
    + apply Kt, Kf, Kn, Km. exact Yy.
    + apply Kt, Kf, Kn. exact Mm.
    + apply Kt, Kf. exact Nn.
    + apply Kt. exact Ff.
    + exact Tt.
  - rewrite Hmodel. do 2 f_equal. symmetry. apply labels_length. exact Hlabels.
Qed.

(** X30.  [load_prediction_data] returns the empty frame or a table that
    has the columns [Date], [Year], [Month], [MonthName], [forecast] and
    [model], whatever the columns of the file: the last fallback for the
    forecast (the second column) always applies, and [model] holds
    ["CSV Model"] in every row. *)
Theorem prediction_data_columns :
  let t := load_prediction_data script_dir path_exists read_csv to_datetime_coerce in
  t = empty_frame \/
  (Forall (fun name => In name (columns t))
     ["Date"; "Year"; "Month"; "MonthName"; "forecast"; "model"]%string /\
   getitem t "model" = Ok (repeat (Str "CSV Model") (List.length (rows t)))).
Proof.
  cbv zeta. unfold load_prediction_data.
  destruct (find_prediction_file path_exists (possible_locations script_dir))
    as [path|]; [|left; reflexivity].
  destruct (negb (found (Some path))); [left; reflexivity|].
  destruct (load_prediction_frame read_csv to_datetime_coerce path) as [t|e] eqn:E;
    [|left; reflexivity].
  right. apply (load_prediction_frame_Ok _ E).
Qed.

End LoadingProperties.

(** The Loader on the sample file system.  The generation file of the
    parent directory is read, although the file beside the script was
    found first: the search went on for the consumption file.  The row
    whose start date is not a date has no calendar fields. *)
Lemma load_data_sample :
  find_data_files sample_files (possible_locations "app") None None
  = (Some "app/../energy_generation_preprocessed.csv"%string,
     Some "app/../energy_consumption_preprocessed.csv"%string) /\
  load_data "app" sample_files sample_csv sample_dates
  = (mkDataFrame
       ["ID"; "Start date"; "End date"; Analysis.source_column "Solar"; "Year";
        "Month"; "Day"; "WeekDay"; "Quarter"; "MonthName"]%string
       [(0%Z, [Num 1; Num (inject_Z (days_from_civil 2023 1 1));
               Num (inject_Z (days_from_civil 2023 1 2)); Num 50; Num 2023;
               Num 1; Num 1; Str "Sunday"; Num 1; Str "January"]);
        (1%Z, [Num 2; NaN; Num (inject_Z (days_from_civil 2023 2 2)); Num 60;
               NaN; NaN; NaN; NaN; NaN; NaN])],
     mkDataFrame
       ["ID"; "Start date"; Analysis.total_load; "Year"; "Month"; "Day";
        "WeekDay"; "Quarter"; "MonthName"]%string
       [(0%Z, [Num 1; Num (inject_Z (days_from_civil 2023 1 1)); Num 100;
               Num 2023; Num 1; Num 1; Str "Sunday"; Num 1; Str "January"])]).
Proof. split; vm_compute; reflexivity. Qed.

(** A prediction file with one column: the forecast is the second
    column of the table, which is the date column just added. *)
Lemma load_prediction_data_sample :
  load_prediction_data "app" sample_files sample_csv sample_dates
  = mkDataFrame
      ["value"; "Date"; "Year"; "Month"; "MonthName"; "forecast"; "model"]%string
      [(0%Z, [Num 5; Num (inject_Z (days_from_civil 2020 1 1)); Num 2020; Num 1;
              Str "Jan"; Num (inject_Z (days_from_civil 2020 1 1));
              Str "CSV Model"]);
       (1%Z, [Num 7; Num (inject_Z (days_from_civil 2020 1 1 + 1)); Num 2020;
              Num 1; Str "Jan"; Num (inject_Z (days_from_civil 2020 1 1 + 1));
              Str "CSV Model"])].
Proof. vm_compute. reflexivity. Qed.
